(** * ai_news_curator: the enrichment pipeline core

    A shallow embedding of the cache-aware enrichment pipeline of the
    repository: the result cache ([cache.py]), the classifier
    ([pipeline/classify.py]), the impact scorer ([pipeline/impact.py]), the
    online clusterer ([pipeline/deduplicate.py]) and the cluster summarizer
    ([pipeline/summarize.py]), followed by the markdown report
    ([pipeline/report.py]) and the stages of the daily pipeline ([main.py])
    from the fetched items on.

    Conventions.
    - Python [str] is [string]; [int] is [Z]; [float] is [Q] (no NaN, no
      infinities, no rounding); [Optional[T]] is [option T]; [List[T]] is
      [list T].
    - A Python computation that may raise is a [result]; [try/except
      Exception] is a match on it.
    - Library code the repository calls but does not contain (the OpenAI
      client, sklearn, hashlib, uuid, pydantic's URL and datetime parsers,
      Python's numeric parsers) is collected in type classes, so that every
      definition below is parametric in it and still executable once an
      instance is given. *)

From Stdlib Require Import ZArith QArith Qround Lia Ascii Sorted.
From stdpp Require Import base option list strings gmap.

Local Open Scope string_scope.
Local Open Scope list_scope.

(** ** Python values and exceptions *)

(** The value [json.loads] returns: JSON numbers are [int] or [float]. *)
#[local] Unset Elimination Schemes.
Inductive json : Type :=
  | JNull
  | JBool (b : bool)
  | JInt (z : Z)
  | JFloat (q : Q)
  | JStr (s : string)
  | JList (l : list json)
  | JDict (d : list (string * json)).
#[local] Set Elimination Schemes.

(** The exceptions that the modelled code can meet. *)
Inductive exn : Type :=
  | ClientError (msg : string)   (* raised by the OpenAI client / JSON parse *)
  | AttributeError               (* [.get] on something that is no dict *)
  | TypeError                    (* [int(None)], [float([])], ... *)
  | OverflowError                (* [float(n)] for an [int] beyond the floats *)
  | ValueError                   (* [int("x")], [np.argmax] of nothing, a
                                    ragged [np.array], a row without features *)
  | IndexError                   (* list index out of range *)
  | OSError                      (* [open] or a write failed *)
  | FileNotFoundError            (* a prompt file is missing *)
  | ValidationError.             (* pydantic model validation *)

Inductive result (A : Type) : Type :=
  | Ok (a : A)
  | Raise (e : exn).
Arguments Ok {A} a.
Arguments Raise {A} e.

#[export] Instance result_ret : MRet result := fun A a => Ok a.
#[export] Instance result_bind : MBind result := fun A B f m =>
  match m with
  | Ok a => f a
  | Raise e => Raise e
  end.

(** [d.get(key, default)] on a parsed JSON object. *)
Fixpoint dict_lookup (key : string) (d : list (string * json)) : option json :=
  match d with
  | [] => None
  | (k, v) :: d' => if String.eqb k key then Some v else dict_lookup key d'
  end.

Definition py_get (response : json) (key : string) (dflt : json) : result json :=
  match response with
  | JDict d => Ok (default dflt (dict_lookup key d))
  | _ => Raise AttributeError
  end.

(** Python truthiness of a JSON value ([if x:]). *)
Definition truthy (v : json) : bool :=
  match v with
  | JNull => false
  | JBool b => b
  | JInt z => negb (Z.eqb z 0)
  | JFloat q => negb (Qeq_bool q 0)
  | JStr s => negb (String.eqb s EmptyString)
  | JList l => match l with [] => false | _ => true end
  | JDict d => match d with [] => false | _ => true end
  end.

(** The one-character string "\n". *)
Definition newline : string := String (Ascii.ascii_of_nat 10) EmptyString.

(** A string holds the UTF-8 bytes of a Python text: a byte [10xxxxxx]
    continues the character that the bytes before it began. *)
Definition is_continuation (c : Ascii.ascii) : bool :=
  match c with
  | Ascii.Ascii _ _ _ _ _ _ b6 b7 => b7 && negb b6
  end.

(** [s[:n]]: the first [n] characters of the text, with all their bytes. *)
Fixpoint str_prefix (n : nat) (s : string) : string :=
  match s with
  | EmptyString => EmptyString
  | String c rest =>
      if is_continuation c then String c (str_prefix n rest)
      else
        match n with
        | O => EmptyString
        | S n' => String c (str_prefix n' rest)
        end
  end.

(** ** Data model ([models.py]) *)

(** [HttpUrl] and [datetime] values are represented by the text that
    [str(url)] and pydantic's JSON serialisation give for them. *)
Record HttpUrl := { url_str : string }.
Record datetime := { dt_iso : string }.

Record RawNewsItem := {
  item_id : string;                 (* [id] *)
  title : string;
  url : option HttpUrl;
  source : string;
  published_at : option datetime;
  content : string
}.

(** [ClassifiedNewsItem(RawNewsItem)]: the inherited fields are [c_raw]. *)
Record ClassifiedNewsItem := {
  c_raw : RawNewsItem;
  category : string;
  classification_confidence : Q;
  classification_method : string
}.

(** [ScoredNewsItem(ClassifiedNewsItem)]: the inherited fields are [s_base]. *)
Record ScoredNewsItem := {
  s_base : ClassifiedNewsItem;
  impact_score : Z;
  impact_reason : string;
  impact_dimensions : list string
}.

Definition s_raw (item : ScoredNewsItem) : RawNewsItem := c_raw (s_base item).

Record ClusteredItem := {
  cluster_id : string;
  representative : ScoredNewsItem;
  members : list ScoredNewsItem
}.

Record SummarizedCluster := {
  sc_cluster_id : string;
  sc_category : string;
  sc_impact_score : Z;
  sc_title : string;
  sc_summary : string;
  sc_impact_reason : string;
  sources : list string;
  raw_ids : list string
}.

(** ** Library boundaries *)

Definition Embedding : Type := list Q.

(** The enrichment client ([llm/client.py] over the OpenAI SDK), seen from
    the pipeline: [call_llm_json] returns the parsed JSON document of the
    answer or raises (an API error, or the [ValueError] of an answer that
    does not parse even without its code fence); [embed_texts] returns the
    vectors of a batch or raises. [prompts_dir] is the content of the
    [prompts/] directory, by file name. *)
Class EnrichmentClient := {
  call_llm_json : string -> result json;
  embed_texts : list string -> result (list Embedding);
  prompts_dir : gmap string string
}.

(** [llm/prompts.py] *)
Definition load_prompt `{EnrichmentClient} (name : string) : result string :=
  match prompts_dir !! (name +:+ ".txt") with
  | Some text => Ok text
  | None => Raise FileNotFoundError
  end.

(** Python and third-party library functions. *)
Class PyLib := {
  json_dumps : json -> string;                   (* [json.dumps] *)
  py_str : json -> string;                       (* [str(x)] in an f-string *)
  exn_str : exn -> string;                       (* [str(e)] *)
  float_of_str : string -> result Q;             (* [float("...")] *)
  int_of_str : string -> result Z;               (* [int("...")] *)
  md5_hexdigest : string -> string;              (* [hashlib.md5(..).hexdigest()] *)
  uuid4 : nat -> string;                         (* the n-th [str(uuid.uuid4())] *)
  cosine_similarity : Embedding -> Embedding -> Q;   (* sklearn, one row *)
  settings_similarity_threshold : Q;             (* [settings.similarity_threshold] *)
  validate_http_url : json -> option HttpUrl;    (* pydantic, field [url] *)
  validate_datetime : json -> option datetime;   (* pydantic, field [published_at] *)
  lax_float_of_str : string -> option Q;         (* pydantic lax mode, str to float *)
  lax_int_of_str : string -> option Z            (* pydantic lax mode, str to int *)
}.

(** ** Online clusterer ([pipeline/deduplicate.py]) *)

(** Similarities are rational numbers; [cosine_similarity] is sklearn's, on
    vectors of one dimension, and is total here. [str(uuid.uuid4())] is the
    next name of the supply [uuid4], numbered by the clusters created so
    far. The three lists of the function are the fields of [ClusterState];
    mutating a cluster in place is an update of [clusters] at its index. *)

Definition Qlt_bool (x y : Q) : bool := negb (Qle_bool y x).

(** [np.argmax]: the index of the first occurrence of the maximum. *)
Fixpoint argmax_from (best_idx : nat) (best : Q) (i : nat) (l : list Q) : nat :=
  match l with
  | [] => best_idx
  | x :: l' =>
      if Qlt_bool best x then argmax_from i x (S i) l'
      else argmax_from best_idx best (S i) l'
  end.

Definition argmax (l : list Q) : result nat :=
  match l with
  | [] => Raise ValueError
  | x :: l' => Ok (argmax_from 0 x 1 l')
  end.

(** The three lists the loop maintains. *)
Record ClusterState := {
  clusters : list ClusteredItem;
  cluster_representatives : list ScoredNewsItem;
  cluster_embeddings : list Embedding
}.

Definition init_state : ClusterState :=
  {| clusters := []; cluster_representatives := []; cluster_embeddings := [] |}.

(** [l[i]] with Python's bounds check. *)
Definition py_index {A} (l : list A) (i : nat) : result A :=
  match l !! i with
  | Some x => Ok x
  | None => Raise IndexError
  end.

Section Clusterer.
Context `{PyLib} `{EnrichmentClient}.

(** Both the "first item" branch and the "create new cluster" branch. *)
Definition new_cluster (item : ScoredNewsItem) (embedding : Embedding)
    (st : ClusterState) : ClusterState :=
  {| clusters := clusters st ++
       [ {| cluster_id := uuid4 (length (clusters st));
            representative := item;
            members := [item] |} ];
     cluster_representatives := cluster_representatives st ++ [item];
     cluster_embeddings := cluster_embeddings st ++ [embedding] |}.

(** [cluster.members.append(item)] *)
Definition append_member (item : ScoredNewsItem) (c : ClusteredItem) : ClusteredItem :=
  {| cluster_id := cluster_id c;
     representative := representative c;
     members := members c ++ [item] |}.

(** [cluster.representative = item] *)
Definition set_representative (item : ScoredNewsItem) (c : ClusteredItem) : ClusteredItem :=
  {| cluster_id := cluster_id c;
     representative := item;
     members := members c |}.

(** One iteration of the [for idx, item in enumerate(items)] loop body, on
    a vector that the similarity call accepts ([check_pairwise] below raises
    for the others before the body computes). *)
Definition cluster_step (similarity_threshold : Q) (item : ScoredNewsItem)
    (embedding : Embedding) (st : ClusterState) : result ClusterState :=
  match clusters st with
  | [] => Ok (new_cluster item embedding st)
  | _ :: _ =>
      let similarities := map (cosine_similarity embedding) (cluster_embeddings st) in
      max_similarity_idx ← argmax similarities;
      max_similarity ← py_index similarities max_similarity_idx;
      if Qle_bool similarity_threshold max_similarity then
        cluster ← py_index (clusters st) max_similarity_idx;
        let cluster := append_member item cluster in
        if (impact_score (representative cluster) <? impact_score item)%Z then
          Ok {| clusters :=
                  <[max_similarity_idx := set_representative item cluster]> (clusters st);
                cluster_representatives := cluster_representatives st;
                cluster_embeddings :=
                  <[max_similarity_idx := embedding]> (cluster_embeddings st) |}
        else
          Ok {| clusters := <[max_similarity_idx := cluster]> (clusters st);
                cluster_representatives := cluster_representatives st;
                cluster_embeddings := cluster_embeddings st |}
      else Ok (new_cluster item embedding st)
  end.

(** What [cosine_similarity(embedding.reshape(1, -1),
    np.array(cluster_embeddings))] asks of its input before it computes: a
    vector without components cannot be made a row, and the row and the
    centroids must have one length; otherwise it raises [ValueError]. The
    call is made in the [else] branch only, when there is a cluster. *)
Definition check_pairwise (embedding : Embedding) (st : ClusterState) : result unit :=
  match clusters st with
  | [] => Ok tt
  | _ :: _ =>
      if Nat.eqb (length embedding) 0 then Raise ValueError
      else if forallb (fun centroid => Nat.eqb (length centroid) (length embedding))
                      (cluster_embeddings st)
      then Ok tt
      else Raise ValueError
  end.

(** The loop: [embedding = embeddings[idx]] then the body, whose similarity
    call validates its input before [cluster_step] computes with it. *)
Fixpoint cluster_loop (similarity_threshold : Q) (embeddings : list Embedding)
    (idx : nat) (items : list ScoredNewsItem) (st : ClusterState)
    : result ClusterState :=
  match items with
  | [] => Ok st
  | item :: rest =>
      embedding ← py_index embeddings idx;
      _ ← check_pairwise embedding st;
      st' ← cluster_step similarity_threshold item embedding st;
      cluster_loop similarity_threshold embeddings (S idx) rest st'
  end.

(** [embeddings = np.array(embeddings)]: the vectors must have one length,
    a ragged list raises [ValueError]. *)
Definition np_array (rows : list Embedding) : result (list Embedding) :=
  match rows with
  | [] => Ok []
  | row :: rest =>
      if forallb (fun r => Nat.eqb (length r) (length row)) rest then Ok rows
      else Raise ValueError
  end.

(** [range(0, n, step)] for a positive [step]. *)
Definition range_step (n step : nat) : list nat :=
  map (fun k => k * step) (seq 0 ((n + step - 1) / step)).

(** [l[i : j]] *)
Definition slice {A} (i j : nat) (l : list A) : list A := take (j - i) (drop i l).

(** The batched embedding calls: [embeddings.extend(embed_texts(batch))]. *)
Fixpoint embed_batches (batches : list (list string)) : result (list Embedding) :=
  match batches with
  | [] => Ok []
  | batch :: rest =>
      batch_embeddings ← embed_texts batch;
      more ← embed_batches rest;
      Ok (batch_embeddings ++ more)
  end.

Definition batch_size : nat := 100.

Definition cluster_items (items : list ScoredNewsItem)
    (similarity_threshold : option Q) : result (list ClusteredItem) :=
  let similarity_threshold :=
    default settings_similarity_threshold similarity_threshold in
  match items with
  | [] => Ok []
  | _ :: _ =>
      let texts :=
        map (fun item => title (s_raw item) +:+ newline
                         +:+ str_prefix 1000 (content (s_raw item))) items in
      embeddings ←
        embed_batches
          (map (fun i => slice i (i + batch_size) texts)
               (range_step (length texts) batch_size));
      embeddings ← np_array embeddings;
      st ← cluster_loop similarity_threshold embeddings 0 items init_state;
      Ok (clusters st)
  end.

End Clusterer.

(** ** Result cache ([cache.py]) *)

(** [datetime.date] and its [isoformat()], "YYYY-MM-DD". *)
Record date := { year : nat; month : nat; day : nat }.

Definition digit_char (n : nat) : Ascii.ascii := Ascii.ascii_of_nat (48 + n mod 10).

Fixpoint zfill (width n : nat) : string :=
  match width with
  | O => EmptyString
  | S w => zfill w (n / 10) +:+ String (digit_char n) EmptyString
  end.

Definition isoformat (d : date) : string :=
  zfill 4 (year d) +:+ "-" +:+ zfill 2 (month d) +:+ "-" +:+ zfill 2 (day d).

(** What a cache file holds, as [json.load] sees it: a JSON document, or
    bytes that do not parse. [json.dump] followed by [json.load] is taken
    to give the document back. *)
Inductive FileContent : Type :=
  | JsonText (doc : json)
  | Garbage.

(** A directory entry: a file that can be opened, or one whose [open]
    raises [OSError]. *)
Inductive FileEntry : Type :=
  | Readable (c : FileContent)
  | Unreadable.

(** The files under the cache directory, by path; [writable] tells whether
    [open(path, "w")] followed by the write succeeds. *)
Record FileSystem := {
  files : gmap string FileEntry;
  writable : bool
}.

Record NewsCache := { cache_dir : string }.

(** [with open(cache_file, "r") as f: data = json.load(f)] *)
Definition read_json (entry : FileEntry) : result json :=
  match entry with
  | Readable (JsonText doc) => Ok doc
  | Readable Garbage => Raise ValueError
  | Unreadable => Raise OSError
  end.

(** [with open(cache_file, "w") as f: json.dump(doc, f, ...)] *)
Definition write_json (path : string) (doc : json) (fs : FileSystem) : result FileSystem :=
  if writable fs then
    Ok {| files := <[path := Readable (JsonText doc)]> (files fs);
          writable := writable fs |}
  else Raise OSError.

(** *** [model_dump(mode="json")] *)

Definition dump_option {A} (f : A -> json) (o : option A) : json :=
  match o with
  | Some a => f a
  | None => JNull
  end.

Definition dump_raw (item : RawNewsItem) : list (string * json) :=
  [ ("id", JStr (item_id item));
    ("title", JStr (title item));
    ("url", dump_option (fun u => JStr (url_str u)) (url item));
    ("source", JStr (source item));
    ("published_at", dump_option (fun t => JStr (dt_iso t)) (published_at item));
    ("content", JStr (content item)) ].

Definition dump_classified (item : ClassifiedNewsItem) : list (string * json) :=
  dump_raw (c_raw item) ++
  [ ("category", JStr (category item));
    ("classification_confidence", JFloat (classification_confidence item));
    ("classification_method", JStr (classification_method item)) ].

Definition dump_scored (item : ScoredNewsItem) : list (string * json) :=
  dump_classified (s_base item) ++
  [ ("impact_score", JInt (impact_score item));
    ("impact_reason", JStr (impact_reason item));
    ("impact_dimensions", JList (map JStr (impact_dimensions item))) ].

(** *** pydantic validation of keyword arguments, [Model( ** data)] *)

Definition validate_str (v : json) : option string :=
  match v with
  | JStr s => Some s
  | _ => None
  end.

Definition validate_list_str (v : json) : option (list string) :=
  match v with
  | JList l => mapM validate_str l
  | _ => None
  end.

(** A required field. *)
Definition required {A} (validate : json -> option A) (key : string)
    (d : list (string * json)) : result A :=
  match dict_lookup key d with
  | Some v =>
      match validate v with
      | Some a => Ok a
      | None => Raise ValidationError
      end
  | None => Raise ValidationError
  end.

(** A field declared [Optional[T] = None]. *)
Definition optional {A} (validate : json -> option A) (key : string)
    (d : list (string * json)) : result (option A) :=
  match dict_lookup key d with
  | None | Some JNull => Ok None
  | Some v =>
      match validate v with
      | Some a => Ok (Some a)
      | None => Raise ValidationError
      end
  end.

Section Cache.
Context `{PyLib}.

Definition validate_float (v : json) : option Q :=
  match v with
  | JFloat q => Some q
  | JInt z => Some (inject_Z z)
  | JBool b => Some (if b then 1%Q else 0%Q)
  | JStr s => lax_float_of_str s
  | _ => None
  end.

Definition validate_int (v : json) : option Z :=
  match v with
  | JInt z => Some z
  | JBool b => Some (if b then 1%Z else 0%Z)
  | JFloat q => if Qeq_bool (inject_Z (Qfloor q)) q then Some (Qfloor q) else None
  | JStr s => lax_int_of_str s
  | _ => None
  end.

Definition validate_raw (d : list (string * json)) : result RawNewsItem :=
  id ← required validate_str "id" d;
  title ← required validate_str "title" d;
  url ← optional validate_http_url "url" d;
  source ← required validate_str "source" d;
  published_at ← optional validate_datetime "published_at" d;
  content ← required validate_str "content" d;
  Ok {| item_id := id; title := title; url := url; source := source;
        published_at := published_at; content := content |}.

Definition validate_classified_fields (d : list (string * json))
    : result ClassifiedNewsItem :=
  raw ← validate_raw d;
  category ← required validate_str "category" d;
  confidence ← required validate_float "classification_confidence" d;
  method ← required validate_str "classification_method" d;
  Ok {| c_raw := raw; category := category;
        classification_confidence := confidence;
        classification_method := method |}.

Definition validate_scored_fields (d : list (string * json))
    : result ScoredNewsItem :=
  base ← validate_classified_fields d;
  score ← required validate_int "impact_score" d;
  reason ← required validate_str "impact_reason" d;
  dimensions ← required validate_list_str "impact_dimensions" d;
  Ok {| s_base := base; impact_score := score; impact_reason := reason;
        impact_dimensions := dimensions |}.

(** [ClassifiedNewsItem( ** data)]: unpacking needs a mapping. *)
Definition validate_classified (data : json) : result ClassifiedNewsItem :=
  match data with
  | JDict d => validate_classified_fields d
  | _ => Raise TypeError
  end.

Definition validate_scored (data : json) : result ScoredNewsItem :=
  match data with
  | JDict d => validate_scored_fields d
  | _ => Raise TypeError
  end.

Definition _get_cache_key (item_id operation date_str : string) : string :=
  md5_hexdigest (item_id +:+ ":" +:+ operation +:+ ":" +:+ date_str).

Definition _get_cache_file (cache : NewsCache) (cache_key : string) : string :=
  cache_dir cache +:+ "/" +:+ cache_key +:+ ".json".

Definition get_classified (cache : NewsCache) (item_id : string)
    (target_date : date) (fs : FileSystem) : option ClassifiedNewsItem :=
  let cache_key := _get_cache_key item_id "classify" (isoformat target_date) in
  let cache_file := _get_cache_file cache cache_key in
  match files fs !! cache_file with
  | Some entry =>
      match data ← read_json entry; validate_classified data with
      | Ok item => Some item
      | Raise _ => None
      end
  | None => None
  end.

Definition save_classified (cache : NewsCache) (item : ClassifiedNewsItem)
    (target_date : date) (fs : FileSystem) : FileSystem :=
  let cache_key := _get_cache_key (item_id (c_raw item)) "classify" (isoformat target_date) in
  let cache_file := _get_cache_file cache cache_key in
  match write_json cache_file (JDict (dump_classified item)) fs with
  | Ok fs' => fs'
  | Raise _ => fs
  end.

Definition get_scored (cache : NewsCache) (item_id : string)
    (target_date : date) (fs : FileSystem) : option ScoredNewsItem :=
  let cache_key := _get_cache_key item_id "score" (isoformat target_date) in
  let cache_file := _get_cache_file cache cache_key in
  match files fs !! cache_file with
  | Some entry =>
      match data ← read_json entry; validate_scored data with
      | Ok item => Some item
      | Raise _ => None
      end
  | None => None
  end.

Definition save_scored (cache : NewsCache) (item : ScoredNewsItem)
    (target_date : date) (fs : FileSystem) : FileSystem :=
  let cache_key := _get_cache_key (item_id (s_raw item)) "score" (isoformat target_date) in
  let cache_file := _get_cache_file cache cache_key in
  match write_json cache_file (JDict (dump_scored item)) fs with
  | Ok fs' => fs'
  | Raise _ => fs
  end.

End Cache.

(** ** Classifier ([pipeline/classify.py]) *)

Definition CATEGORIES : list string :=
  [ "AI Models";
    "AI Infrastructure & Hardware";
    "AI Research";
    "AI Policy & Regulation";
    "Developer Tools & Platforms";
    "Tech Business & Strategy";
    "Other" ].

(** [float(n)] of an [int] raises [OverflowError] when [n], rounded to the
    nearest double, is no finite double: from [2^1024 - 2^970] on. *)
Definition float_int_bound : Z := 2 ^ 1024 - 2 ^ 970.

(** [float(x)] and [int(x)] on a value of a parsed JSON document. *)
Definition Qtruncate (q : Q) : Z :=
  if Qle_bool 0 q then Qfloor q else Qceiling q.

Section Builtins.
Context `{PyLib}.

Definition py_float (v : json) : result Q :=
  match v with
  | JFloat q => Ok q
  | JInt z =>
      if (Z.abs z <? float_int_bound)%Z then Ok (inject_Z z) else Raise OverflowError
  | JBool b => Ok (if b then 1%Q else 0%Q)
  | JStr s => float_of_str s
  | _ => Raise TypeError
  end.

Definition py_int (v : json) : result Z :=
  match v with
  | JInt z => Ok z
  | JFloat q => Ok (Qtruncate q)
  | JBool b => Ok (if b then 1%Z else 0%Z)
  | JStr s => int_of_str s
  | _ => Raise TypeError
  end.

(** [f"{x}"] *)
Definition py_format (v : json) : string :=
  match v with
  | JStr s => s
  | _ => py_str v
  end.
End Builtins.

(** [category = response.get(..); if category not in CATEGORIES: category = "Other"] *)
Definition checked_category (category : json) : string :=
  match category with
  | JStr s => if bool_decide (s ∈ CATEGORIES) then s else "Other"
  | _ => "Other"
  end.

Section Classifier.
Context `{PyLib} `{EnrichmentClient}.

Definition classify_prompt (item : RawNewsItem) (prompt_template : string) : string :=
  let input_data :=
    JDict [ ("title", JStr (title item));
            ("content", JStr (str_prefix 500 (content item))) ] in
  let input_json := json_dumps input_data in
  prompt_template +:+ newline +:+ newline +:+ "Input:" +:+ newline +:+ input_json.

(** The body of the [try:] up to the construction of the item; the two
    classifiers differ in the method label only. *)
Definition classify_try (item : RawNewsItem) (prompt_template method : string)
    : result ClassifiedNewsItem :=
  response ← call_llm_json (classify_prompt item prompt_template);
  category ← py_get response "category" (JStr "Other");
  confidence ← py_get response "confidence" (JFloat 0.5) ≫= py_float;
  let category := checked_category category in
  Ok {| c_raw := item;
        category := category;
        classification_confidence := confidence;
        classification_method := method |}.

(** The item of the [except Exception] branch. *)
Definition classify_fallback (item : RawNewsItem) (method : string) : ClassifiedNewsItem :=
  {| c_raw := item;
     category := "Other";
     classification_confidence := 0;
     classification_method := method |}.

(** [_classify_single_item] has one suspension point inside the
    semaphore, [await asyncio.to_thread(call_llm_json, ..)].
    [classify_start] is the code before it: a cache hit returns at once. *)
Definition classify_start (cache : option NewsCache) (target_date : date)
    (item : RawNewsItem) (fs : FileSystem) : option ClassifiedNewsItem :=
  match cache with
  | Some c => get_classified c (item_id item) target_date fs
  | None => None
  end.

(** [classify_finish] is the call and the code after it. *)
Definition classify_finish (cache : option NewsCache) (prompt_template : string)
    (target_date : date) (item : RawNewsItem) (fs : FileSystem)
    : ClassifiedNewsItem * FileSystem :=
  match classify_try item prompt_template "zero-shot" with
  | Ok classified_item =>
      (classified_item,
       match cache with
       | Some c => save_classified c classified_item target_date fs
       | None => fs
       end)
  | Raise e => (classify_fallback item "zero-shot", fs)
  end.

(** The coroutine run without interruption. *)
Definition _classify_single_item (item : RawNewsItem) (prompt_template : string)
    (cache : option NewsCache) (target_date : date) (fs : FileSystem)
    : ClassifiedNewsItem * FileSystem :=
  match classify_start cache target_date item fs with
  | Some cached => (cached, fs)
  | None => classify_finish cache prompt_template target_date item fs
  end.

(** The few-shot classifier has no cache and touches no shared state. *)
Definition _classify_single_item_few_shot (item : RawNewsItem)
    (prompt_template : string) : ClassifiedNewsItem :=
  match classify_try item prompt_template "few-shot" with
  | Ok classified_item => classified_item
  | Raise e => classify_fallback item "few-shot"
  end.

End Classifier.

(** ** Impact scorer ([pipeline/impact.py]) *)

Section Scorer.
Context `{PyLib} `{EnrichmentClient}.

Definition score_prompt (item : ClassifiedNewsItem) (prompt_template : string) : string :=
  let input_data :=
    JDict [ ("title", JStr (title (c_raw item)));
            ("content", JStr (str_prefix 800 (content (c_raw item))));
            ("category", JStr (category item)) ] in
  let input_json := json_dumps input_data in
  prompt_template +:+ newline +:+ newline +:+ "News item:" +:+ newline +:+ input_json.

(** [if not isinstance(impact_dimensions, list): impact_dimensions = []] *)
Definition checked_dimensions (impact_dimensions : json) : json :=
  match impact_dimensions with
  | JList l => JList l
  | _ => JList []
  end.

(** The constructor call [ScoredNewsItem(.., impact_score=.., ..)]:
    pydantic checks the two fields that come from the response. *)
Definition make_scored (item : ClassifiedNewsItem) (impact_score : Z)
    (impact_reason impact_dimensions : json) : result ScoredNewsItem :=
  match validate_str impact_reason, validate_list_str impact_dimensions with
  | Some reason, Some dimensions =>
      Ok {| s_base := item; impact_score := impact_score;
            impact_reason := reason; impact_dimensions := dimensions |}
  | _, _ => Raise ValidationError
  end.

Definition score_try (item : ClassifiedNewsItem) (prompt_template : string)
    : result ScoredNewsItem :=
  response ← call_llm_json (score_prompt item prompt_template);
  impact_score ← py_get response "impact_score" (JInt 3) ≫= py_int;
  impact_dimensions ← py_get response "impact_dimensions" (JList []);
  impact_reason ← py_get response "impact_reason" (JStr EmptyString);
  let impact_score := Z.max 1 (Z.min 5 impact_score) in
  let impact_dimensions := checked_dimensions impact_dimensions in
  make_scored item impact_score impact_reason impact_dimensions.

Definition score_fallback (item : ClassifiedNewsItem) : ScoredNewsItem :=
  {| s_base := item;
     impact_score := 3;
     impact_reason := "Error during scoring";
     impact_dimensions := [] |}.

Definition score_start (cache : option NewsCache) (target_date : date)
    (item : ClassifiedNewsItem) (fs : FileSystem) : option ScoredNewsItem :=
  match cache with
  | Some c => get_scored c (item_id (c_raw item)) target_date fs
  | None => None
  end.

Definition score_finish (cache : option NewsCache) (prompt_template : string)
    (target_date : date) (item : ClassifiedNewsItem) (fs : FileSystem)
    : ScoredNewsItem * FileSystem :=
  match score_try item prompt_template with
  | Ok scored_item =>
      (scored_item,
       match cache with
       | Some c => save_scored c scored_item target_date fs
       | None => fs
       end)
  | Raise e => (score_fallback item, fs)
  end.

Definition _score_single_item (item : ClassifiedNewsItem) (prompt_template : string)
    (cache : option NewsCache) (target_date : date) (fs : FileSystem)
    : ScoredNewsItem * FileSystem :=
  match score_start cache target_date item fs with
  | Some cached => (cached, fs)
  | None => score_finish cache prompt_template target_date item fs
  end.

End Scorer.

(** ** Cluster summarizer ([pipeline/summarize.py]) *)

Section Summarizer.
Context `{PyLib} `{EnrichmentClient}.

Definition article (member : ScoredNewsItem) : json :=
  JDict [ ("title", JStr (title (s_raw member)));
          ("content", JStr (str_prefix 500 (content (s_raw member))));
          ("source", JStr (source (s_raw member)));
          ("impact_score", JInt (impact_score member));
          ("impact_reason", JStr (impact_reason member)) ].

Definition summarize_prompt (cluster : ClusteredItem) (prompt_template : string) : string :=
  let articles := map article (members cluster) in
  let input_json := json_dumps (JDict [ ("articles", JList articles) ]) in
  prompt_template +:+ newline +:+ newline +:+ "Articles:" +:+ newline +:+ input_json.

(** The loop that fills [sources] and [raw_ids]. *)
Definition collect_step (acc : list string * list string) (member : ScoredNewsItem)
    : list string * list string :=
  let '(sources, raw_ids) := acc in
  (match url (s_raw member) with
   | Some u => sources ++ [url_str u]
   | None => sources
   end,
   raw_ids ++ [item_id (s_raw member)]).

Definition collect_sources (cluster : ClusteredItem) : list string * list string :=
  fold_left collect_step (members cluster) ([], []).

(** [list(set(sources))]: the elements of the set, in the set's order. *)
Definition list_set (l : list string) : list string :=
  elements (list_to_set l : gset string).

Definition summarize_try (cluster : ClusteredItem) (prompt_template : string)
    : result SummarizedCluster :=
  response ← call_llm_json (summarize_prompt cluster prompt_template);
  title_v ← py_get response "title" (JStr (title (s_raw (representative cluster))));
  summary_v ← py_get response "summary" (JStr EmptyString);
  responsible_ai_notes ← py_get response "responsible_ai_notes" (JStr EmptyString);
  let '(sources, raw_ids) := collect_sources cluster in
  let impact_reason := impact_reason (representative cluster) in
  let impact_reason :=
    if truthy responsible_ai_notes then
      impact_reason +:+ newline +:+ newline +:+ "Responsible AI Notes: "
                    +:+ py_format responsible_ai_notes
    else impact_reason in
  match validate_str title_v, validate_str summary_v with
  | Some title, Some summary =>
      Ok {| sc_cluster_id := cluster_id cluster;
            sc_category := category (s_base (representative cluster));
            sc_impact_score := impact_score (representative cluster);
            sc_title := title;
            sc_summary := summary;
            sc_impact_reason := impact_reason;
            sources := list_set sources;
            raw_ids := raw_ids |}
  | _, _ => Raise ValidationError
  end.

Definition summarize_fallback (cluster : ClusteredItem) (e : exn) : SummarizedCluster :=
  let '(sources, raw_ids) := collect_sources cluster in
  {| sc_cluster_id := cluster_id cluster;
     sc_category := category (s_base (representative cluster));
     sc_impact_score := impact_score (representative cluster);
     sc_title := title (s_raw (representative cluster));
     sc_summary := "Error generating summary: " +:+ exn_str e;
     sc_impact_reason := impact_reason (representative cluster);
     sources := list_set sources;
     raw_ids := raw_ids |}.

Definition _summarize_single_cluster (cluster : ClusteredItem)
    (prompt_template : string) : SummarizedCluster :=
  match summarize_try cluster prompt_template with
  | Ok summarized => summarized
  | Raise e => summarize_fallback cluster e
  end.

End Summarizer.

(** ** Concurrent stages: [asyncio.gather] under an [asyncio.Semaphore] *)

(** Each task of a stage is a coroutine
    [async with semaphore: before; await to_thread(call); after]. On the
    single-threaded event loop it runs without interruption from taking the
    semaphore to the [await] ([start]), and again from the completed call to
    its [return] ([finish]). A task is therefore in one of three states. *)
Inductive task_state (B : Type) : Type :=
  | Waiting            (* not started, or queued on the semaphore *)
  | InFlight           (* holds the semaphore, its call is running *)
  | Done (r : B).      (* returned [r], semaphore released *)
Arguments Waiting {B}.
Arguments InFlight {B}.
Arguments Done {B} r.

Record pool (B St : Type) := {
  tasks : list (task_state B);
  shared : St
}.
Arguments tasks {B St} p.
Arguments shared {B St} p.

Definition is_in_flight {B} (t : task_state B) : bool :=
  match t with
  | InFlight => true
  | _ => false
  end.

Definition task_result {B} (t : task_state B) : option B :=
  match t with
  | Done r => Some r
  | _ => None
  end.

Section Gather.
Context {A B St : Type}.
(** [start x s = Some r]: the task returns [r] before its [await]. *)
Variable start : A -> St -> option B.
Variable finish : A -> St -> B * St.

Definition in_flight (p : pool B St) : nat :=
  length (filter (fun t => is_in_flight t = true) (tasks p)).

(** The event loop resumes task [i]. A schedule is any sequence of such
    choices: a waiting task may take the semaphore whenever fewer than
    [max_concurrent] tasks hold it, and a running call may complete at any
    time, in any order. Resuming a task that is blocked or has returned
    changes nothing. *)
Definition resume (max_concurrent : nat) (inputs : list A) (p : pool B St) (i : nat)
    : pool B St :=
  match inputs !! i, tasks p !! i with
  | Some x, Some Waiting =>
      if Nat.ltb (in_flight p) max_concurrent then
        match start x (shared p) with
        | Some r => {| tasks := <[i := Done r]> (tasks p); shared := shared p |}
        | None => {| tasks := <[i := InFlight]> (tasks p); shared := shared p |}
        end
      else p
  | Some x, Some InFlight =>
      let '(r, s') := finish x (shared p) in
      {| tasks := <[i := Done r]> (tasks p); shared := s' |}
  | _, _ => p
  end.

Definition run_schedule (max_concurrent : nat) (inputs : list A)
    (schedule : list nat) (p : pool B St) : pool B St :=
  fold_left (resume max_concurrent inputs) schedule p.

Definition init_pool (inputs : list A) (s : St) : pool B St :=
  {| tasks := map (fun _ => Waiting) inputs; shared := s |}.

(** [results = await gather( *tasks); return list(results)]: the value of
    the stage once every task has returned, [None] while one has not. The
    result list is indexed like the task list. *)
Definition gather (max_concurrent : nat) (inputs : list A) (schedule : list nat)
    (s : St) : option (list B * St) :=
  let p := run_schedule max_concurrent inputs schedule (init_pool inputs s) in
  results ← mapM task_result (tasks p);
  Some (results, shared p).

(** The task run without interruption. *)
Definition run_task (x : A) (s : St) : B * St :=
  match start x s with
  | Some r => (r, s)
  | None => finish x s
  end.



(** What a task may have done, by its state: a running task missed its
    early return in some state; a returned task returned early, or missed
    and finished. *)
Definition task_ok (x : A) (t : task_state B) : Prop :=
  match t with
  | Waiting => True
  | InFlight => exists s, start x s = None
  | Done r =>
      exists s, start x s = Some r \/
                (start x s = None /\ exists s', r = fst (finish x s'))
  end.

Definition pool_ok (inputs : list A) (p : pool B St) : Prop :=
  length (tasks p) = length inputs /\
  forall i x t, inputs !! i = Some x -> tasks p !! i = Some t -> task_ok x t.

(** [r] is the result of the task of [x], run in some shared state. *)
Definition enriched (x : A) (r : B) : Prop :=
  exists s, r = fst (run_task x s).

End Gather.

Section Stages.
Context `{PyLib} `{EnrichmentClient}.

(** Each stage loads its prompt (a missing file raises), counts and prints
    the cache hits (a read-only pass, left out), and gathers its tasks. The
    result is [Ok None] while a task has not returned. *)
Definition classify_zero_shot_async (items : list RawNewsItem) (target_date : date)
    (cache : option NewsCache) (max_concurrent : nat)
    (schedule : list nat) (fs : FileSystem)
    : result (option (list ClassifiedNewsItem * FileSystem)) :=
  prompt_template ← load_prompt "classifier_prompt_zero_shot";
  Ok (gather (classify_start cache target_date)
             (classify_finish cache prompt_template target_date)
             max_concurrent items schedule fs).

Definition classify_few_shot_async (items : list RawNewsItem) (max_concurrent : nat)
    (schedule : list nat) : result (option (list ClassifiedNewsItem)) :=
  prompt_template ← load_prompt "classifier_prompt_few_shot";
  Ok (fst <$> gather (fun _ _ => None)
                     (fun item (_ : unit) =>
                        (_classify_single_item_few_shot item prompt_template, tt))
                     max_concurrent items schedule tt).

Definition score_impact_async (items : list ClassifiedNewsItem) (target_date : date)
    (cache : option NewsCache) (max_concurrent : nat)
    (schedule : list nat) (fs : FileSystem)
    : result (option (list ScoredNewsItem * FileSystem)) :=
  prompt_template ← load_prompt "impact_prompt";
  Ok (gather (score_start cache target_date)
             (score_finish cache prompt_template target_date)
             max_concurrent items schedule fs).

Definition summarize_clusters_async (clusters : list ClusteredItem)
    (max_concurrent : nat) (schedule : list nat)
    : result (option (list SummarizedCluster)) :=
  prompt_template ← load_prompt "summary_prompt";
  Ok (fst <$> gather (fun _ _ => None)
                     (fun cluster (_ : unit) =>
                        (_summarize_single_cluster cluster prompt_template, tt))
                     max_concurrent clusters schedule tt).

End Stages.


(** ** Markdown report ([pipeline/report.py]) *)

(** The string methods of Python that the report uses. *)
Class PyStr := {
  str_contains : string -> string -> bool;     (* [sub in s] *)
  split_first : string -> string -> string;    (* [s.split(sep)[0]] *)
  split_last : string -> string -> string;     (* [s.split(sep)[-1]] *)
  str_strip : string -> string                 (* [s.strip()] *)
}.

(** [sep.join(l)] *)
Fixpoint join (sep : string) (l : list string) : string :=
  match l with
  | [] => EmptyString
  | x :: rest =>
      match rest with
      | [] => x
      | _ :: _ => x +:+ sep +:+ join sep rest
      end
  end.

(** [sorted(clusters, key=lambda x: x.impact_score, reverse=True)]. Python's
    sort is stable, with [reverse=True] too: the result is the one list that
    is descending by score and keeps clusters of equal score in their input
    order. Each cluster is put before the first one that does not score
    more. *)
Fixpoint insert_by_impact (x : SummarizedCluster) (l : list SummarizedCluster)
    : list SummarizedCluster :=
  match l with
  | [] => [x]
  | y :: rest =>
      if (sc_impact_score x <? sc_impact_score y)%Z
      then y :: insert_by_impact x rest
      else x :: l
  end.

Definition sorted_by_impact (clusters : list SummarizedCluster) : list SummarizedCluster :=
  foldr insert_by_impact [] clusters.

(** [by_category[cluster.category].append(cluster)] on a [defaultdict(list)],
    which keeps its keys in the order of their first use. *)
Fixpoint group_append (category : string) (cluster : SummarizedCluster)
    (groups : list (string * list SummarizedCluster))
    : list (string * list SummarizedCluster) :=
  match groups with
  | [] => [(category, [cluster])]
  | (k, cs) :: rest =>
      if String.eqb k category then (k, cs ++ [cluster]) :: rest
      else (k, cs) :: group_append category cluster rest
  end.

Definition group_by_category (sorted_clusters : list SummarizedCluster)
    : list (string * list SummarizedCluster) :=
  fold_left (fun groups cluster => group_append (sc_category cluster) cluster groups)
            sorted_clusters [].

(** [by_category[category]] *)
Fixpoint group_items (category : string) (groups : list (string * list SummarizedCluster))
    : list SummarizedCluster :=
  match groups with
  | [] => []
  | (k, cs) :: rest => if String.eqb k category then cs else group_items category rest
  end.

(** [sorted(by_category.keys())]: strings in code point order. *)
Fixpoint insert_key (k : string) (l : list string) : list string :=
  match l with
  | [] => [k]
  | y :: rest => if String.leb k y then k :: l else y :: insert_key k rest
  end.

Definition sorted_keys (keys : list string) : list string := foldr insert_key [] keys.

(** The sections of "News by Category": the category names in ascending
    order, each with its clusters. *)
Definition category_sections (sorted_clusters : list SummarizedCluster)
    : list (string * list SummarizedCluster) :=
  let by_category := group_by_category sorted_clusters in
  map (fun category => (category, group_items category by_category))
      (sorted_keys (map fst by_category)).

(** [sorted_clusters[:min(5, len(sorted_clusters))]] *)
Definition top_items (sorted_clusters : list SummarizedCluster) : list SummarizedCluster :=
  take (Nat.min 5 (length sorted_clusters)) sorted_clusters.

Section Report.
Context `{PyLib} `{PyStr}.

Definition fmt_int (z : Z) : string := py_str (JInt z).
Definition fmt_len {A} (l : list A) : string := fmt_int (Z.of_nat (length l)).

Definition notes_marker : string := "Responsible AI Notes:".

(** The loop that collects the responsible AI notes. *)
Definition responsible_ai_note (cluster : SummarizedCluster) : option (string * string) :=
  if str_contains notes_marker (sc_impact_reason cluster) then
    let note := str_strip (split_last (sc_impact_reason cluster) notes_marker) in
    if negb (String.eqb note EmptyString) then Some (sc_title cluster, note) else None
  else None.

(** The "Sources" lines of an item, with at most [limit] links. *)
Definition source_lines (limit : nat) (srcs : list string) : list string :=
  match srcs with
  | [] => []
  | _ :: _ =>
      ["**Sources:**"] ++
      map (fun source => "- " +:+ source) (take limit srcs) ++
      (if Nat.ltb limit (length srcs)
       then ["- ... and " +:+ fmt_int (Z.of_nat (length srcs) - Z.of_nat limit) +:+ " more"]
       else []) ++
      [EmptyString]
  end.

Definition summary_lines (item : SummarizedCluster) : list string :=
  [ "- **" +:+ sc_title item +:+ "** (" +:+ sc_category item +:+ ", Impact: "
      +:+ fmt_int (sc_impact_score item) +:+ ")";
    "  " +:+ str_prefix 200 (sc_summary item) +:+ "...";
    EmptyString ].

Definition impact_5_lines (item : SummarizedCluster) : list string :=
  [ "### " +:+ sc_title item;
    "**Category:** " +:+ sc_category item;
    "**Impact Score:** " +:+ fmt_int (sc_impact_score item);
    EmptyString;
    "**Summary:**";
    sc_summary item;
    EmptyString;
    "**Why it matters:**";
    str_strip (split_first (sc_impact_reason item) notes_marker);
    EmptyString ] ++
  source_lines 3 (sources item).

Definition impact_4_lines (item : SummarizedCluster) : list string :=
  [ "### " +:+ sc_title item;
    "**Category:** " +:+ sc_category item;
    EmptyString;
    sc_summary item;
    EmptyString ] ++
  source_lines 2 (sources item).

Definition category_item_lines (item : SummarizedCluster) : list string :=
  [ "#### " +:+ sc_title item;
    "*Impact Score: " +:+ fmt_int (sc_impact_score item) +:+ "*";
    EmptyString;
    sc_summary item;
    EmptyString ] ++
  source_lines 2 (sources item).

Definition category_lines (section : string * list SummarizedCluster) : list string :=
  let '(category, category_items) := section in
  [ "### " +:+ category +:+ " (" +:+ fmt_len category_items +:+ " items)";
    EmptyString ] ++
  flat_map category_item_lines category_items.

Definition merged_item_lines (item : SummarizedCluster) : list string :=
  [ "- **" +:+ sc_title item +:+ "**: Merged from " +:+ fmt_len (sources item)
      +:+ " sources";
    "  - " +:+ join ", " (take 3 (sources item)) ] ++
  (if Nat.ltb 3 (length (sources item))
   then ["  - ... and " +:+ fmt_int (Z.of_nat (length (sources item)) - 3) +:+ " more"]
   else []) ++
  [EmptyString].

Definition note_lines (entry : string * string) : list string :=
  let '(title, note) := entry in
  [ "### " +:+ title; note; EmptyString ].

(** A section that is left out when it has no item. *)
Definition optional_section {A} (items : list A) (lines : list string) : list string :=
  match items with
  | [] => []
  | _ :: _ => lines
  end.

Definition report_lines (clusters : list SummarizedCluster) (report_date : date)
    : list string :=
  let sorted_clusters := sorted_by_impact clusters in
  let impact_5 := filter (fun c => sc_impact_score c = 5%Z) sorted_clusters in
  let impact_4 := filter (fun c => sc_impact_score c = 4%Z) sorted_clusters in
  let merged_items := filter (fun c => 1 < length (sources c)) sorted_clusters in
  let responsible_ai_notes := omap responsible_ai_note sorted_clusters in
  [ "# AI News Curator Daily Report";
    "**Date:** " +:+ isoformat report_date;
    "**Total Stories:** " +:+ fmt_len clusters;
    EmptyString;
    "## Executive Summary";
    EmptyString ] ++
  flat_map summary_lines (top_items sorted_clusters) ++
  optional_section impact_5
    ([ "## Most Important (Impact Score: 5)"; EmptyString ] ++
     flat_map impact_5_lines impact_5) ++
  optional_section impact_4
    ([ "## High Priority (Impact Score: 4)"; EmptyString ] ++
     flat_map impact_4_lines impact_4) ++
  [ "## News by Category"; EmptyString ] ++
  flat_map category_lines (category_sections sorted_clusters) ++
  optional_section merged_items
    ([ "## Merged / Duplicate Stories";
       EmptyString;
       "The following " +:+ fmt_len merged_items
         +:+ " stories were merged from multiple sources:";
       EmptyString ] ++
     flat_map merged_item_lines merged_items) ++
  optional_section responsible_ai_notes
    ([ "## Responsible AI Notes";
       EmptyString;
       "The following items include notes on potential concerns:";
       EmptyString ] ++
     flat_map note_lines responsible_ai_notes) ++
  [ "---"; EmptyString; "*Generated by AI News Curator*" ].

Definition generate_markdown_report (clusters : list SummarizedCluster)
    (report_date : date) : string :=
  join newline (report_lines clusters report_date).

End Report.

(** ** The daily pipeline ([main.py]) *)

(** What a run of [run_daily_pipeline] comes to. *)
Inductive outcome : Type :=
  | Pending                      (* a stage has not returned *)
  | NoNews                       (* nothing fetched: [return ""] *)
  | Curated (summarized_clusters : list SummarizedCluster) (markdown : string)
            (fs : FileSystem).   (* the content of the two files written *)

Section Pipeline.
Context `{PyLib} `{PyStr} `{EnrichmentClient}.

(** [run_daily_pipeline] from the fetched items on. [raw_items] is the
    result of [fetch_all_feeds], [cache] is [NewsCache() if use_cache else
    None], [fs] holds the cache files after [clear_old_cache]. Each stage
    runs in an [asyncio.run] of its own, under a schedule of its own. The
    summaries and the markdown are what the function then writes to the
    curated file and to the report file. *)
Definition run_daily_pipeline (raw_items : list RawNewsItem) (target_date : date)
    (cache : option NewsCache) (max_concurrent : nat)
    (schedule1 schedule2 schedule3 : list nat) (fs : FileSystem) : result outcome :=
  match raw_items with
  | [] => Ok NoNews
  | _ :: _ =>
      classified ←
        classify_zero_shot_async raw_items target_date cache max_concurrent schedule1 fs;
      match classified with
      | None => Ok Pending
      | Some (classified_items, fs1) =>
          scored ←
            score_impact_async classified_items target_date cache max_concurrent
              schedule2 fs1;
          match scored with
          | None => Ok Pending
          | Some (scored_items, fs2) =>
              clusters ← cluster_items scored_items None;
              summarized ← summarize_clusters_async clusters max_concurrent schedule3;
              match summarized with
              | None => Ok Pending
              | Some summarized_clusters =>
                  let markdown :=
                    generate_markdown_report summarized_clusters target_date in
                  Ok (Curated summarized_clusters markdown fs2)
              end
          end
      end
  end.

End Pipeline.

(** ** Predicates used in the statements *)

(** [i] is the first index of [l] that holds its maximum [m]. *)
Definition is_first_max (l : list Q) (i : nat) (m : Q) : Prop :=
  l !! i = Some m /\
  (forall k x, l !! k = Some x -> (x <= m)%Q) /\
  (forall k x, k < i -> l !! k = Some x -> (x < m)%Q).

(** The cluster list and the centroid list run in parallel. *)
Definition state_wf (st : ClusterState) : Prop :=
  length (clusters st) = length (cluster_embeddings st).

(** The invariant of a cluster. *)
Definition cluster_inv (c : ClusteredItem) : Prop :=
  representative c ∈ members c /\ 1 <= length (members c).

(** The state in which [item] has joined cluster [c], found at index [i]. *)
Definition joined (i : nat) (item : ScoredNewsItem) (embedding : Embedding)
    (c : ClusteredItem) (st : ClusterState) : ClusterState :=
  if (impact_score (representative c) <? impact_score item)%Z then
    {| clusters :=
         <[i := {| cluster_id := cluster_id c; representative := item;
                   members := members c ++ [item] |}]> (clusters st);
       cluster_representatives := cluster_representatives st;
       cluster_embeddings := <[i := embedding]> (cluster_embeddings st) |}
  else
    {| clusters :=
         <[i := {| cluster_id := cluster_id c; representative := representative c;
                   members := members c ++ [item] |}]> (clusters st);
       cluster_representatives := cluster_representatives st;
       cluster_embeddings := cluster_embeddings st |}.

(** A cache record that cannot be read back: the file cannot be opened, it
    holds no JSON, or its JSON does not validate as the model. *)
Inductive corrupt_record {A} (validate : json -> result A) : FileEntry -> Prop :=
  | corrupt_unreadable : corrupt_record validate Unreadable
  | corrupt_garbage : corrupt_record validate (Readable Garbage)
  | corrupt_invalid doc e :
      validate doc = Raise e -> corrupt_record validate (Readable (JsonText doc)).

(** The two writing operations of the cache. *)
Inductive cache_op : Type :=
  | SaveClassified (item : ClassifiedNewsItem) (target_date : date)
  | SaveScored (item : ScoredNewsItem) (target_date : date).

Section Statements.
Context `{PyLib}.

(** The file of the key [(item_id, operation, date)]. *)
Definition key_file (cache : NewsCache) (item_id operation : string) (d : date) : string :=
  _get_cache_file cache (_get_cache_key item_id operation (isoformat d)).

(** The file a writing operation opens. *)
Definition op_file (cache : NewsCache) (op : cache_op) : string :=
  match op with
  | SaveClassified item d => key_file cache (item_id (c_raw item)) "classify" d
  | SaveScored item d => key_file cache (item_id (s_raw item)) "score" d
  end.

Definition run_op (cache : NewsCache) (fs : FileSystem) (op : cache_op) : FileSystem :=
  match op with
  | SaveClassified item d => save_classified cache item d fs
  | SaveScored item d => save_scored cache item d fs
  end.

(** pydantic parses the text of the item's URL and of its datetime back to
    the same values. *)
Definition reparses (raw : RawNewsItem) : Prop :=
  (forall u, url raw = Some u -> validate_http_url (JStr (url_str u)) = Some u) /\
  (forall t, published_at raw = Some t -> validate_datetime (JStr (dt_iso t)) = Some t).

(** [float(response.get("confidence", 0.5))] *)
Definition reported_confidence (response : json) : result Q :=
  py_get response "confidence" (JFloat 0.5) ≫= py_float.

(** [str(member.url)] when the member has a URL. *)
Definition member_source (member : ScoredNewsItem) : option string :=
  url_str <$> url (s_raw member).

(** [sources] holds each URL of a member once, and nothing else; [raw_ids]
    holds the member ids in member order. *)
Definition sources_and_ids_ok (cluster : ClusteredItem) (s : SummarizedCluster) : Prop :=
  NoDup (sources s) /\
  (forall u, u ∈ sources s <->
             exists member hu, member ∈ members cluster /\
                               url (s_raw member) = Some hu /\ url_str hu = u) /\
  raw_ids s = map (fun member => item_id (s_raw member)) (members cluster) /\
  length (raw_ids s) = length (members cluster).

End Statements.

(** ** Further predicates on clusters *)

(** The members of all clusters, cluster after cluster. *)
Definition all_members (cs : list ClusteredItem) : list ScoredNewsItem :=
  concat (map members cs).

(** The representative is the first member that has the highest impact
    score of the cluster. *)
Definition first_best (c : ClusteredItem) : Prop :=
  exists before after,
    members c = before ++ representative c :: after /\
    Forall (fun m => (impact_score m < impact_score (representative c))%Z) before /\
    Forall (fun m => (impact_score m <= impact_score (representative c))%Z) after.

(** [e] is the embedding of the representative of [c]: the vector of an
    input position below [idx] that holds the representative. *)
Definition centroid_of (items : list ScoredNewsItem) (embeddings : list Embedding)
    (idx : nat) (c : ClusteredItem) (e : Embedding) : Prop :=
  exists k, k < idx /\ items !! k = Some (representative c) /\ embeddings !! k = Some e.

Section ClusterStatements.
Context `{PyLib} `{EnrichmentClient}.

(** The texts and the embedding calls of [cluster_items]. *)
Definition item_texts (items : list ScoredNewsItem) : list string :=
  map (fun item => title (s_raw item) +:+ newline
                   +:+ str_prefix 1000 (content (s_raw item))) items.

Definition text_batches (texts : list string) : list (list string) :=
  map (fun i => slice i (i + batch_size) texts) (range_step (length texts) batch_size).

End ClusterStatements.

(** ** A measure on task pools *)

(** The resumptions a task still needs before it has returned. *)
Definition steps_left {B} (t : task_state B) : nat :=
  match t with
  | Waiting => 2
  | InFlight => 1
  | Done _ => 0
  end.

Definition work_left {B St} (p : pool B St) : nat :=
  sum_list (map steps_left (tasks p)).

(** ** Orders used by the report *)

(** [a] may stand before [b] in a list that is descending by impact. *)
Definition by_impact (a b : SummarizedCluster) : Prop :=
  (sc_impact_score b <= sc_impact_score a)%Z.

(** [a] may stand before [b] in a list of names in code point order. *)
Definition key_le (a b : string) : Prop := String.leb a b = true.

(** ** The founder of a cluster *)

(** [r] opened the cluster [c]: it is its first member. *)
Definition founder (c : ClusteredItem) (r : ScoredNewsItem) : Prop :=
  head (members c) = Some r.

(** ** The shared state that a task finds *)



(** ** The enrichment calls of a run *)

Section Calls.
Context {A B St : Type}.
Variable start : A -> St -> option B.
Variable finish : A -> St -> B * St.

(** The tasks whose enrichment call returns during a schedule, in the order
    of the events: event [i] ends the call of task [i] when that task is in
    flight ([finish] runs then, and at no other event). *)
Fixpoint calls_completed (max_concurrent : nat) (inputs : list A)
    (schedule : list nat) (p : pool B St) : list nat :=
  match schedule with
  | [] => []
  | i :: rest =>
      match inputs !! i, tasks p !! i with
      | Some _, Some InFlight => [i]
      | _, _ => []
      end ++
      calls_completed max_concurrent inputs rest
        (resume start finish max_concurrent inputs p i)
  end.

End Calls.

(** ** Concrete library instances, for running the model *)

Module Demo.

Fixpoint dot (a b : Embedding) : Q :=
  match a, b with
  | x :: a', y :: b' => (x * y + dot a' b')%Q
  | _, _ => 0%Q
  end.

Definition lib : PyLib :=
  {| json_dumps := fun v =>
       match v with
       | JDict ((_, JStr s) :: _) => s
       | _ => "{}"
       end;
     py_str := fun _ => "<object>";
     exn_str := fun e =>
       match e with
       | ClientError msg => msg
       | _ => "error"
       end;
     float_of_str := fun _ => Raise ValueError;
     int_of_str := fun _ => Raise ValueError;
     md5_hexdigest := fun s => s;
     uuid4 := fun n => "uuid-" +:+ zfill 4 n;
     cosine_similarity := dot;
     settings_similarity_threshold := 0.8;
     validate_http_url := fun v =>
       match v with
       | JStr s => Some {| url_str := s |}
       | _ => None
       end;
     validate_datetime := fun v =>
       match v with
       | JStr s => Some {| dt_iso := s |}
       | _ => None
       end;
     lax_float_of_str := fun _ => None;
     lax_int_of_str := fun _ => None |}.

(** Embeds a text by its first letter. *)
Definition embed_text (t : string) : Embedding :=
  match t with
  | String ("A"%char) _ => [1; 0]%Q
  | String ("B"%char) _ => [0; 1]%Q
  | _ => [1; 1]%Q
  end.

Definition client_with (response : result json) : EnrichmentClient :=
  {| call_llm_json := fun _ => response;
     embed_texts := fun texts => Ok (map embed_text texts);
     prompts_dir :=
       {[ "classifier_prompt_zero_shot.txt" := "classifier_prompt_zero_shot";
          "classifier_prompt_few_shot.txt" := "classifier_prompt_few_shot";
          "impact_prompt.txt" := "impact_prompt";
          "summary_prompt.txt" := "summary_prompt" ]} |}.

Definition good_response : json :=
  JDict [ ("category", JStr "AI Research");
          ("confidence", JFloat 0.9);
          ("impact_score", JInt 4);
          ("impact_dimensions", JList [JStr "research"]);
          ("impact_reason", JStr "new result");
          ("title", JStr "Merged");
          ("summary", JStr "Two reports of one story") ].

Definition client : EnrichmentClient := client_with (Ok good_response).

Definition failing_client : EnrichmentClient :=
  client_with (Raise (ClientError "timeout")).

Definition overconfident_client : EnrichmentClient :=
  client_with (Ok (JDict [ ("category", JStr "AI Models");
                           ("confidence", JFloat 1.5) ])).

Definition score_client (raw_score : Z) : EnrichmentClient :=
  client_with (Ok (JDict [ ("impact_score", JInt raw_score);
                           ("impact_dimensions", JList [JStr "industry"]);
                           ("impact_reason", JStr "big") ])).

Definition today : date := {| year := 2024; month := 5; day := 17 |}.

Definition cache : NewsCache := {| cache_dir := "data/cache" |}.

Definition empty_fs : FileSystem := {| files := ∅; writable := true |}.

Definition raw (id ttl : string) (u : option string) : RawNewsItem :=
  {| item_id := id; title := ttl;
     url := (fun s => {| url_str := s |}) <$> u;
     source := "feed"; published_at := Some {| dt_iso := "2024-05-17T08:00:00" |};
     content := "body" |}.

Definition classified (id ttl : string) (u : option string) : ClassifiedNewsItem :=
  {| c_raw := raw id ttl u; category := "AI Research";
     classification_confidence := 0.75; classification_method := "zero-shot" |}.

Definition scored (id ttl : string) (u : option string) (score : Z) : ScoredNewsItem :=
  {| s_base := classified id ttl u; impact_score := score;
     impact_reason := "because"; impact_dimensions := ["industry"] |}.

(** Three stories: A and B are unrelated, C is equally close to both. *)
Definition item_A : ScoredNewsItem := scored "1" "A one" (Some "http://a.example/story") 2.
Definition item_B : ScoredNewsItem := scored "2" "B one" None 3.
Definition item_C : ScoredNewsItem := scored "3" "C one" (Some "http://a.example/story") 4.

Definition threshold : Q := 0.5.

Definition embeddings_ABC : list Embedding := [[1; 0]; [0; 1]; [1; 1]]%Q.

Definition cluster_A : ClusteredItem :=
  {| cluster_id := "uuid-0000"; representative := item_A; members := [item_A] |}.

Definition cluster_B : ClusteredItem :=
  {| cluster_id := "uuid-0001"; representative := item_B; members := [item_B] |}.

Definition cluster_AC : ClusteredItem :=
  {| cluster_id := "uuid-0000"; representative := item_C; members := [item_A; item_C] |}.

(** The state after A and B, and after C has joined the cluster of A. *)
Definition state_AB : ClusterState :=
  {| clusters := [cluster_A; cluster_B];
     cluster_representatives := [item_A; item_B];
     cluster_embeddings := [[1; 0]; [0; 1]]%Q |}.

Definition state_ABC : ClusterState :=
  {| clusters := [cluster_AC; cluster_B];
     cluster_representatives := [item_A; item_B];
     cluster_embeddings := [[1; 1]; [0; 1]]%Q |}.

Definition raw_items : list RawNewsItem := [raw "1" "A one" None; raw "2" "B one" None].

Definition classified_items : list ClassifiedNewsItem :=
  [classified "1" "A one" None; classified "2" "B one" None].

(** The second task starts first and the first task completes last. *)
Definition interleaved : list nat := [1; 0; 1; 0].

(** A cache directory in which the record of item "1" was overwritten with
    bytes that are no JSON. *)
Definition damaged_fs : FileSystem :=
  {| files := {[ key_file (H:=lib) cache "1" "classify" today := Readable Garbage;
                 key_file (H:=lib) cache "1" "score" today := Unreadable ]};
     writable := true |}.

End Demo.

(** ** Further instances *)

Module Sample.

(** String methods, for texts that hold the separator at most once and have
    no outer white space. *)
Definition strings : PyStr :=
  {| str_contains := fun sub s =>
       match String.index 0 sub s with
       | Some _ => true
       | None => false
       end;
     split_first := fun s sep =>
       match String.index 0 sep s with
       | Some n => String.substring 0 n s
       | None => s
       end;
     split_last := fun s sep =>
       match String.index 0 sep s with
       | Some n =>
           String.substring (n + String.length sep)
                            (String.length s - (n + String.length sep)) s
       | None => s
       end;
     str_strip := fun s => s |}.

(** A client whose embedding call returns one vector, whatever the batch. *)
Definition short_client : EnrichmentClient :=
  {| call_llm_json := fun _ => Ok Demo.good_response;
     embed_texts := fun _ => Ok [[1; 0]%Q];
     prompts_dir := ∅ |}.

(** A client whose embedding call returns two vectors of different
    length. *)
Definition ragged_client : EnrichmentClient :=
  {| call_llm_json := fun _ => Ok Demo.good_response;
     embed_texts := fun _ => Ok [[1; 0]; [1]]%Q;
     prompts_dir := ∅ |}.

(** A client whose embedding call fails. *)
Definition no_embedding_client : EnrichmentClient :=
  {| call_llm_json := fun _ => Ok Demo.good_response;
     embed_texts := fun _ => Raise (ClientError "down");
     prompts_dir := ∅ |}.

(** An answer of the model that gives dimensions that are no list, and
    nothing else. *)
Definition bare_client : EnrichmentClient :=
  Demo.client_with (Ok (JDict [ ("impact_dimensions", JStr "industry") ])).

Definition read_only_fs : FileSystem := {| files := ∅; writable := false |}.

(** The two raw items of [Demo.raw_items], classified and scored by
    [Demo.client]. *)
Definition classified_1 : ClassifiedNewsItem :=
  {| c_raw := Demo.raw "1" "A one" None; category := "AI Research";
     classification_confidence := 0.9; classification_method := "zero-shot" |}.

Definition scored_1 : ScoredNewsItem :=
  {| s_base := Demo.classified "1" "A one" None; impact_score := 4;
     impact_reason := "new result"; impact_dimensions := ["research"] |}.

(** A run of the pipeline on [Demo.raw_items], without a cache. *)
Definition pipeline_run : result outcome :=
  Eval vm_compute in
    run_daily_pipeline (H:=Demo.lib) (H0:=strings) (H1:=Demo.client)
      Demo.raw_items Demo.today None 2 Demo.interleaved Demo.interleaved
      Demo.interleaved Demo.empty_fs.

Definition pipeline_summaries : list SummarizedCluster :=
  match pipeline_run with
  | Ok (Curated summarized _ _) => summarized
  | _ => []
  end.

Definition pipeline_markdown : string :=
  match pipeline_run with
  | Ok (Curated _ markdown _) => markdown
  | _ => EmptyString
  end.

End Sample.

(** * Properties *)

(** ** Basic facts about [result] and about rational comparison *)

Lemma bind_Ok_inv {A B} (m : result A) (f : A -> result B) (b : B) :
  m ≫= f = Ok b -> exists a, m = Ok a /\ f a = Ok b.
Proof. destruct m as [a|e]; simpl; [eauto | discriminate]. Qed.

Lemma py_index_Ok {A} (l : list A) (i : nat) (x : A) :
  py_index l i = Ok x <-> l !! i = Some x.
Proof.
  unfold py_index. destruct (l !! i); split; intros E; congruence.
Qed.

Lemma Qlt_bool_true (x y : Q) : Qlt_bool x y = true <-> (x < y)%Q.
Proof.
  unfold Qlt_bool. rewrite negb_true_iff. split.
  - intros E. apply Qnot_le_lt. intros L. apply Qle_bool_iff in L. congruence.
  - intros L. destruct (Qle_bool y x) eqn:E; [|reflexivity].
    apply Qle_bool_iff in E. exfalso. exact (Qlt_not_le _ _ L E).
Qed.

Lemma Qlt_bool_false (x y : Q) : Qlt_bool x y = false <-> (y <= x)%Q.
Proof.
  unfold Qlt_bool. rewrite negb_false_iff. apply Qle_bool_iff.
Qed.

(** ** [np.argmax] returns the first index that holds the maximum *)

Lemma is_first_max_head (x : Q) (l : list Q) :
  (forall k y, l !! k = Some y -> (y <= x)%Q) -> is_first_max (x :: l) 0 x.
Proof.
  intros Hall. split; [reflexivity|]. split.
  - intros [|k] y Hy; simpl in Hy.
    + injection Hy as <-. apply Qle_refl.
    + exact (Hall k y Hy).
  - intros k y Hk. lia.
Qed.

Lemma is_first_max_tail (x m : Q) (l : list Q) (k : nat) :
  is_first_max l k m -> (x < m)%Q -> is_first_max (x :: l) (S k) m.
Proof.
  intros (Hk & Hmax & Hfirst) Hlt. split; [exact Hk|]. split.
  - intros [|j] y Hy; simpl in Hy.
    + injection Hy as <-. apply Qlt_le_weak. exact Hlt.
    + exact (Hmax j y Hy).
  - intros [|j] y Hj Hy; simpl in Hy.
    + injection Hy as <-. exact Hlt.
    + apply (Hfirst j); [lia | exact Hy].
Qed.

Lemma argmax_from_spec (l : list Q) :
  forall best_idx best i,
    (argmax_from best_idx best i l = best_idx /\
     forall k x, l !! k = Some x -> (x <= best)%Q)
    \/ (exists k m, argmax_from best_idx best i l = i + k /\
                    (best < m)%Q /\ is_first_max l k m).
Proof.
  induction l as [|x l IH]; intros best_idx best i; simpl.
  - left. split; [reflexivity|]. intros k y E. destruct k; discriminate.
  - destruct (Qlt_bool best x) eqn:C.
    + apply Qlt_bool_true in C. right.
      destruct (IH i x (S i)) as [[E Hall]|(k & m & E & Hlt & Hfm)].
      * exists 0, x. rewrite E. split; [lia|]. split; [exact C|].
        apply is_first_max_head. exact Hall.
      * exists (S k), m. rewrite E. split; [lia|]. split.
        -- eapply Qlt_trans; eauto.
        -- apply is_first_max_tail; assumption.
    + apply Qlt_bool_false in C.
      destruct (IH best_idx best (S i)) as [[E Hall]|(k & m & E & Hlt & Hfm)].
      * left. split; [exact E|].
        intros [|k] y Hy; simpl in Hy.
        -- injection Hy as <-. exact C.
        -- exact (Hall k y Hy).
      * right. exists (S k), m. rewrite E. split; [lia|]. split; [exact Hlt|].
        apply is_first_max_tail; [assumption|].
        eapply Qle_lt_trans; eauto.
Qed.

Lemma argmax_spec (l : list Q) :
  l <> [] -> exists i m, argmax l = Ok i /\ is_first_max l i m.
Proof.
  destruct l as [|x l]; [congruence|]. intros _. simpl.
  destruct (argmax_from_spec l 0 x 1) as [[E Hall]|(k & m & E & Hlt & Hfm)].
  - exists 0, x. rewrite E. split; [reflexivity|].
    apply is_first_max_head. exact Hall.
  - exists (S k), m. rewrite E. split; [reflexivity|].
    apply is_first_max_tail; assumption.
Qed.

(** The first maximum is the lowest index among all that tie for it. *)
Lemma is_first_max_least (l : list Q) (i j : nat) (m mj : Q) :
  is_first_max l i m ->
  l !! j = Some mj ->
  (forall k x, l !! k = Some x -> (x <= mj)%Q) ->
  i <= j /\ (m == mj)%Q.
Proof.
  intros (Hi & Hmax & Hfirst) Hj Hmaxj.
  assert (Heq : (m == mj)%Q).
  { apply Qle_antisym; [exact (Hmaxj _ _ Hi) | exact (Hmax _ _ Hj)]. }
  split; [|exact Heq].
  destruct (decide (i <= j)) as [L|L]; [exact L|].
  assert (Hlt : (mj < m)%Q) by (apply (Hfirst j); [lia | exact Hj]).
  rewrite Heq in Hlt. exfalso. exact (Qlt_irrefl _ Hlt).
Qed.

(** ** The clustering loop *)

Section ClustererFacts.
Context `{PyLib} `{EnrichmentClient}.

(** What one iteration does, by cases. *)
Lemma cluster_step_cases thr item embedding st :
  state_wf st ->
  (clusters st = [] /\
   cluster_step thr item embedding st = Ok (new_cluster item embedding st))
  \/ (exists i m c,
        is_first_max (map (cosine_similarity embedding) (cluster_embeddings st)) i m /\
        clusters st !! i = Some c /\
        cluster_step thr item embedding st =
          Ok (if Qle_bool thr m then joined i item embedding c st
              else new_cluster item embedding st)).
Proof.
  intros Hwf. unfold cluster_step.
  destruct (clusters st) as [|c0 cs] eqn:Ecs; [left; split; reflexivity|].
  right.
  set (sims := map (cosine_similarity embedding) (cluster_embeddings st)).
  assert (Hlen : length sims = length (clusters st)).
  { unfold sims. rewrite length_map. symmetry. exact Hwf. }
  assert (Hne : sims <> []).
  { intros E. rewrite E, Ecs in Hlen. discriminate. }
  destruct (argmax_spec sims Hne) as (i & m & Earg & Hfm).
  pose proof Hfm as (Hi & _ & _).
  assert (Hlt : i < length (clusters st)).
  { rewrite <- Hlen. eapply lookup_lt_Some; eauto. }
  destruct (lookup_lt_is_Some_2 _ _ Hlt) as [c Hc].
  exists i, m, c. split; [exact Hfm|]. split; [rewrite <- Ecs; exact Hc|].
  rewrite Earg. simpl.
  rewrite (proj2 (py_index_Ok sims i m) Hi). simpl.
  destruct (Qle_bool thr m); [|reflexivity].
  rewrite <- Ecs.
  rewrite (proj2 (py_index_Ok (clusters st) i c) Hc). simpl.
  unfold joined. destruct (impact_score (representative c) <? impact_score item)%Z;
    reflexivity.
Qed.

Lemma new_cluster_wf item embedding st :
  state_wf st -> state_wf (new_cluster item embedding st).
Proof.
  unfold state_wf, new_cluster. simpl. rewrite !length_app. simpl. lia.
Qed.

Lemma joined_wf i item embedding c st :
  state_wf st -> state_wf (joined i item embedding c st).
Proof.
  unfold state_wf, joined.
  destruct (impact_score (representative c) <? impact_score item)%Z; simpl;
    rewrite ?length_insert; auto.
Qed.

Lemma cluster_step_total thr item embedding st :
  state_wf st -> exists st', cluster_step thr item embedding st = Ok st' /\ state_wf st'.
Proof.
  intros Hwf.
  destruct (cluster_step_cases thr item embedding st Hwf)
    as [[_ E]|(i & m & c & _ & _ & E)]; rewrite E.
  - eexists. split; [reflexivity|]. by apply new_cluster_wf.
  - eexists. split; [reflexivity|].
    destruct (Qle_bool thr m); [by apply joined_wf | by apply new_cluster_wf].
Qed.

Lemma cluster_step_wf thr item embedding st st' :
  state_wf st -> cluster_step thr item embedding st = Ok st' -> state_wf st'.
Proof.
  intros Hwf E. destruct (cluster_step_total thr item embedding st Hwf) as (st2 & E2 & W).
  congruence.
Qed.

Lemma new_cluster_inv item embedding st :
  Forall cluster_inv (clusters st) ->
  Forall cluster_inv (clusters (new_cluster item embedding st)).
Proof.
  intros Hinv. unfold new_cluster. simpl. apply Forall_app_2; [exact Hinv|].
  constructor; [|constructor].
  unfold cluster_inv. simpl. split; [apply list_elem_of_here | lia].
Qed.

Lemma joined_inv i item embedding c st :
  clusters st !! i = Some c ->
  Forall cluster_inv (clusters st) ->
  Forall cluster_inv (clusters (joined i item embedding c st)).
Proof.
  intros Hc Hinv.
  assert (Hci : cluster_inv c) by (eapply Forall_lookup_1; eauto).
  destruct Hci as [Hin Hlen].
  unfold joined.
  destruct (impact_score (representative c) <? impact_score item)%Z; simpl;
    (apply Forall_insert; [exact Hinv|]); unfold cluster_inv; simpl;
    rewrite length_app; simpl; (split; [|lia]); apply elem_of_app.
  - right. apply list_elem_of_here.
  - left. exact Hin.
Qed.

Lemma cluster_step_inv thr item embedding st st' :
  state_wf st ->
  Forall cluster_inv (clusters st) ->
  cluster_step thr item embedding st = Ok st' ->
  Forall cluster_inv (clusters st').
Proof.
  intros Hwf Hinv E.
  destruct (cluster_step_cases thr item embedding st Hwf)
    as [[_ E2]|(i & m & c & _ & Hc & E2)]; rewrite E2 in E; injection E as <-.
  - by apply new_cluster_inv.
  - destruct (Qle_bool thr m); [by apply joined_inv | by apply new_cluster_inv].
Qed.

(** Both invariants hold along the whole loop. *)
Lemma cluster_loop_inv thr embeddings items :
  forall idx st st',
    state_wf st ->
    Forall cluster_inv (clusters st) ->
    cluster_loop thr embeddings idx items st = Ok st' ->
    state_wf st' /\ Forall cluster_inv (clusters st').
Proof.
  induction items as [|item rest IH]; intros idx st st' Hwf Hinv E; simpl in E.
  - injection E as <-. split; assumption.
  - apply bind_Ok_inv in E as (embedding & _ & E).
    apply bind_Ok_inv in E as (checked & _ & E).
    apply bind_Ok_inv in E as (st1 & Estep & E).
    eapply IH; [| |exact E].
    + eapply cluster_step_wf; eauto.
    + eapply cluster_step_inv; eauto.
Qed.

Lemma init_state_wf : state_wf init_state.
Proof. reflexivity. Qed.

Lemma init_state_inv : Forall cluster_inv (clusters init_state).
Proof. constructor. Qed.

(** Every state of a pass that starts from no clusters is well formed. *)
Lemma reachable_inv thr embeddings items st :
  cluster_loop thr embeddings 0 items init_state = Ok st ->
  state_wf st /\ Forall cluster_inv (clusters st).
Proof.
  intros E. eapply cluster_loop_inv; [apply init_state_wf | apply init_state_inv | exact E].
Qed.

(** The loop over [pre ++ post] passes through the state after [pre]. *)
Lemma cluster_loop_app thr embeddings pre post :
  forall idx st,
    cluster_loop thr embeddings idx (pre ++ post) st =
    cluster_loop thr embeddings idx pre st ≫=
      cluster_loop thr embeddings (idx + length pre) post.
Proof.
  induction pre as [|item pre IH]; intros idx st; simpl.
  - rewrite Nat.add_0_r. reflexivity.
  - destruct (py_index embeddings idx) as [embedding|e]; simpl; [|reflexivity].
    destruct (check_pairwise embedding st) as [checked|e]; simpl; [|reflexivity].
    destruct (cluster_step thr item embedding st) as [st1|e]; simpl; [|reflexivity].
    rewrite IH. replace (S idx + length pre) with (idx + S (length pre)) by lia.
    reflexivity.
Qed.

(** Vectors of one positive length pass the validation of the similarity
    call, and the centroids stay of that length. *)
Lemma forallb_width (d : nat) (l : list Embedding) :
  Forall (fun v => length v = d) l ->
  forallb (fun v => Nat.eqb (length v) d) l = true.
Proof.
  induction 1 as [|v l Hv _ IH]; simpl; [reflexivity|].
  rewrite IH, (proj2 (Nat.eqb_eq _ _) Hv). reflexivity.
Qed.

Lemma check_pairwise_ok (d : nat) embedding st :
  0 < d ->
  length embedding = d ->
  Forall (fun v => length v = d) (cluster_embeddings st) ->
  check_pairwise embedding st = Ok tt.
Proof.
  intros Hd He Hall. unfold check_pairwise.
  destruct (clusters st); [reflexivity|].
  rewrite He. destruct (Nat.eqb_spec d 0) as [->|_]; [lia|].
  rewrite (forallb_width d _ Hall). reflexivity.
Qed.

Lemma cluster_step_widths (d : nat) thr item embedding st st' :
  state_wf st ->
  length embedding = d ->
  Forall (fun v => length v = d) (cluster_embeddings st) ->
  cluster_step thr item embedding st = Ok st' ->
  Forall (fun v => length v = d) (cluster_embeddings st').
Proof.
  intros Hwf He Hall E.
  assert (Hnew : Forall (fun v => length v = d)
                        (cluster_embeddings (new_cluster item embedding st))).
  { unfold new_cluster. simpl. apply Forall_app_2; [exact Hall|].
    constructor; [exact He | constructor]. }
  destruct (cluster_step_cases thr item embedding st Hwf)
    as [[_ E2]|(i & m & c & _ & _ & E2)]; rewrite E2 in E; injection E as <-.
  - exact Hnew.
  - destruct (Qle_bool thr m); [|exact Hnew].
    unfold joined. destruct (impact_score (representative c) <? impact_score item)%Z;
      simpl; [|exact Hall].
    apply Forall_insert; assumption.
Qed.


(** With enough embeddings, all of one positive length, the loop does not
    raise. *)
Lemma cluster_loop_total (d : nat) thr (embeddings : list Embedding) items :
  0 < d ->
  Forall (fun v => length v = d) embeddings ->
  forall idx st,
    state_wf st ->
    Forall (fun v => length v = d) (cluster_embeddings st) ->
    idx + length items <= length embeddings ->
    exists st', cluster_loop thr embeddings idx items st = Ok st'.
Proof.
  intros Hd Hrows.
  induction items as [|item rest IH]; intros idx st Hwf Hcen Hlen; simpl.
  - eauto.
  - simpl in Hlen.
    destruct (lookup_lt_is_Some_2 embeddings idx) as [embedding He]; [lia|].
    unfold py_index. rewrite He. simpl.
    assert (Hw : length embedding = d) by exact (Forall_lookup_1 _ _ _ _ Hrows He).
    rewrite (check_pairwise_ok d embedding st Hd Hw Hcen). simpl.
    destruct (cluster_step_total thr item embedding st Hwf) as (st1 & E & Hwf1).
    rewrite E. simpl. apply IH; [exact Hwf1 | | lia].
    exact (cluster_step_widths d thr item embedding st st1 Hwf Hw Hcen E).
Qed.

End ClustererFacts.

(** ** The batches of [cluster_items] cover the texts *)

Lemma batches_concat {A} (step : nat) (l : list A) :
  0 < step ->
  concat (map (fun i => slice i (i + step) l) (range_step (length l) step)) = l.
Proof.
  intros Hstep. unfold range_step, slice. rewrite map_map.
  assert (Hpre : forall k,
    concat (map (fun j => take (j * step + step - j * step) (drop (j * step) l)) (seq 0 k))
    = take (k * step) l).
  { induction k as [|k IH].
    - reflexivity.
    - rewrite seq_S, map_app, concat_app, IH. simpl. rewrite app_nil_r.
      replace (k * step + step - k * step) with step by lia.
      rewrite take_take_drop. f_equal. lia. }
  rewrite Hpre. apply take_ge.
  pose proof (Nat.div_mod_eq (length l + step - 1) step) as Hdm.
  pose proof (Nat.mod_upper_bound (length l + step - 1) step) as Hub.
  nia.
Qed.

Section EmbeddingFacts.
Context `{PyLib} `{EnrichmentClient}.

Lemma embed_batches_length (batches : list (list string)) :
  (forall batch, exists es, embed_texts batch = Ok es /\ length es = length batch) ->
  exists es, embed_batches batches = Ok es /\ length es = length (concat batches).
Proof.
  intros Hembed. induction batches as [|batch rest IH]; simpl.
  - exists []. split; reflexivity.
  - destruct (Hembed batch) as (es1 & E1 & L1).
    destruct IH as (es2 & E2 & L2).
    rewrite E1. simpl. rewrite E2. simpl.
    exists (es1 ++ es2). split; [reflexivity|]. rewrite !length_app. lia.
Qed.

Lemma embed_batches_rows (d : nat) (batches : list (list string)) :
  (forall batch, exists es, embed_texts batch = Ok es /\ length es = length batch /\
                           Forall (fun v => length v = d) es) ->
  exists es, embed_batches batches = Ok es /\ length es = length (concat batches) /\
             Forall (fun v => length v = d) es.
Proof.
  intros Hembed. induction batches as [|batch rest IH]; simpl.
  - exists []. split; [reflexivity|]. split; [reflexivity | constructor].
  - destruct (Hembed batch) as (es1 & E1 & L1 & W1).
    destruct IH as (es2 & E2 & L2 & W2).
    rewrite E1. simpl. rewrite E2. simpl.
    exists (es1 ++ es2). split; [reflexivity|].
    split; [rewrite !length_app; lia | by apply Forall_app_2].
Qed.

Lemma np_array_ok (d : nat) (rows : list Embedding) :
  Forall (fun v => length v = d) rows -> np_array rows = Ok rows.
Proof.
  intros Hall. unfold np_array. destruct rows as [|row rest]; [reflexivity|].
  apply Forall_cons in Hall as [Hrow Hrest]. rewrite Hrow.
  rewrite (forallb_width d rest Hrest). reflexivity.
Qed.

Lemma np_array_Ok_inv (rows rows' : list Embedding) :
  np_array rows = Ok rows' -> rows' = rows.
Proof.
  unfold np_array. destruct rows as [|row rest]; [congruence|].
  destruct (forallb (fun r => Nat.eqb (length r) (length row)) rest);
    [congruence | discriminate].
Qed.

Lemma joined_clusters i item embedding c st :
  exists c',
    clusters (joined i item embedding c st) = <[i := c']> (clusters st) /\
    members c' = members c ++ [item] /\
    cluster_id c' = cluster_id c /\
    representative c' =
      (if (impact_score (representative c) <? impact_score item)%Z
       then item else representative c).
Proof.
  unfold joined.
  destruct (impact_score (representative c) <? impact_score item)%Z;
    eexists; simpl; repeat split; reflexivity.
Qed.

Lemma members_grow_ne (c : ClusteredItem) (item : ScoredNewsItem) :
  members c <> members c ++ [item].
Proof.
  intros E. apply (f_equal length) in E. rewrite length_app in E. simpl in E. lia.
Qed.

(** C1: when the similarities of an item to several existing centroids
    tie for the maximum [m] (index [j] is any centroid that attains it) and
    [m] is at least the threshold, the item is appended to the cluster of
    the lowest index that attains the maximum, and to no other cluster; no
    cluster is created. This holds in every state that the loop reaches on
    any input prefix, for every threshold. *)
Theorem tie_break_earliest_cluster thr embeddings prefix st item embedding j m :
  cluster_loop thr embeddings 0 prefix init_state = Ok st ->
  map (cosine_similarity embedding) (cluster_embeddings st) !! j = Some m ->
  (forall k x, map (cosine_similarity embedding) (cluster_embeddings st) !! k = Some x ->
               (x <= m)%Q) ->
  (thr <= m)%Q ->
  exists i mi c st',
    is_first_max (map (cosine_similarity embedding) (cluster_embeddings st)) i mi /\
    (mi == m)%Q /\ i <= j /\
    clusters st !! i = Some c /\
    cluster_step thr item embedding st = Ok st' /\
    (exists c', clusters st' !! i = Some c' /\
                members c' = members c ++ [item] /\
                cluster_id c' = cluster_id c) /\
    (forall k, k <> i -> clusters st' !! k = clusters st !! k) /\
    length (clusters st') = length (clusters st).
Proof.
  intros Hloop Hj Hmax Hthr.
  destruct (reachable_inv _ _ _ _ Hloop) as [Hwf _].
  destruct (cluster_step_cases thr item embedding st Hwf)
    as [[Hnil _]|(i & mi & c & Hfm & Hc & Estep)].
  - apply lookup_lt_Some in Hj. rewrite length_map in Hj.
    unfold state_wf in Hwf. rewrite Hnil in Hwf. simpl in Hwf. lia.
  - destruct (is_first_max_least _ _ _ _ _ Hfm Hj Hmax) as [Hle Heq].
    assert (Hb : Qle_bool thr mi = true).
    { apply Qle_bool_iff. rewrite Heq. exact Hthr. }
    rewrite Hb in Estep.
    destruct (joined_clusters i item embedding c st) as (c' & Ecs & Hm & Hid & _).
    exists i, mi, c, (joined i item embedding c st).
    split; [exact Hfm|]. split; [exact Heq|]. split; [exact Hle|].
    split; [exact Hc|]. split; [exact Estep|].
    rewrite Ecs. split; [|split].
    + exists c'. split; [|split; assumption].
      apply list_lookup_insert_eq. eapply lookup_lt_Some; eauto.
    + intros k Hk. apply list_lookup_insert_ne. congruence.
    + apply length_insert.
Qed.

(** C2: when an item joins an existing cluster (cluster [i] gains it as
    its last member) and its impact score strictly exceeds that of the
    current representative, it becomes the representative and the centroid
    of that cluster becomes the item's embedding; when it does not exceed,
    representative and centroids are unchanged. *)
Theorem representative_promotion thr embeddings prefix st item embedding st' i c c' :
  cluster_loop thr embeddings 0 prefix init_state = Ok st ->
  cluster_step thr item embedding st = Ok st' ->
  clusters st !! i = Some c ->
  clusters st' !! i = Some c' ->
  members c' = members c ++ [item] ->
  ((impact_score (representative c) < impact_score item)%Z ->
     representative c' = item /\
     cluster_embeddings st' = <[i := embedding]> (cluster_embeddings st) /\
     cluster_embeddings st' !! i = Some embedding) /\
  ((impact_score item <= impact_score (representative c))%Z ->
     representative c' = representative c /\
     cluster_embeddings st' = cluster_embeddings st).
Proof.
  intros Hloop Estep Hc Hc' Hm.
  destruct (reachable_inv _ _ _ _ Hloop) as [Hwf _].
  assert (Hi : i < length (clusters st)) by (eapply lookup_lt_Some; eauto).
  assert (Hnew : forall st2, clusters st2 = clusters st ++ drop (length (clusters st)) (clusters st2) ->
                             st' = st2 -> False).
  { intros st2 E ->. rewrite E, lookup_app_l in Hc' by exact Hi.
    rewrite Hc in Hc'. injection Hc' as <-. exact (members_grow_ne _ _ Hm). }
  destruct (cluster_step_cases thr item embedding st Hwf)
    as [[Hnil _]|(i0 & m & c0 & Hfm & Hc0 & E2)].
  { rewrite Hnil in Hi. simpl in Hi. lia. }
  rewrite E2 in Estep. injection Estep as Est.
  destruct (Qle_bool thr m).
  2:{ exfalso. apply (Hnew (new_cluster item embedding st)); [|congruence].
      unfold new_cluster. simpl. rewrite drop_app_length. reflexivity. }
  destruct (decide (i = i0)) as [->|Hne].
  2:{ exfalso. subst st'.
      destruct (joined_clusters i0 item embedding c0 st) as (c2 & Ecs & _).
      rewrite Ecs, list_lookup_insert_ne in Hc' by congruence.
      rewrite Hc in Hc'. injection Hc' as <-. exact (members_grow_ne _ _ Hm). }
  rewrite Hc in Hc0. injection Hc0 as <-. subst st'.
  unfold joined in *. split; intros Hcmp.
  - apply Z.ltb_lt in Hcmp. rewrite Hcmp in *. simpl in *.
    rewrite list_lookup_insert_eq in Hc' by exact Hi. injection Hc' as <-. simpl.
    split; [reflexivity|]. split; [reflexivity|].
    apply list_lookup_insert_eq. unfold state_wf in Hwf. lia.
  - apply Z.ltb_ge in Hcmp. rewrite Hcmp in *. simpl in *.
    rewrite list_lookup_insert_eq in Hc' by exact Hi. injection Hc' as <-. simpl.
    split; reflexivity.
Qed.

(** C3: every cluster of every state that the pass goes through (the
    state after any prefix [pre] of the input), and every cluster of the
    list that [cluster_items] returns, has its representative among its
    members and has at least one member; so does a cluster between the two
    updates of one iteration (after the append, before and after the
    promotion); and when every embedding call answers with one vector per
    text, all vectors of one positive length, [cluster_items] does
    return. *)
Theorem cluster_invariant_every_step (items : list ScoredNewsItem)
    (similarity_threshold : option Q) :
  (forall thr embeddings pre post st,
      items = pre ++ post ->
      cluster_loop thr embeddings 0 pre init_state = Ok st ->
      Forall cluster_inv (clusters st)) /\
  (forall c item,
      cluster_inv c ->
      cluster_inv (append_member item c) /\
      cluster_inv (set_representative item (append_member item c))) /\
  (forall cs, cluster_items items similarity_threshold = Ok cs ->
              Forall cluster_inv cs) /\
  (forall d,
     0 < d ->
     (forall batch, exists es, embed_texts batch = Ok es /\ length es = length batch /\
                              Forall (fun v => length v = d) es) ->
     exists cs, cluster_items items similarity_threshold = Ok cs /\
                Forall cluster_inv cs).
Proof.
  assert (Hret : forall cs, cluster_items items similarity_threshold = Ok cs ->
                            Forall cluster_inv cs).
  { intros cs E. unfold cluster_items in E.
    destruct items as [|item0 rest]; [injection E as <-; constructor|].
    apply bind_Ok_inv in E as (embeddings0 & _ & E).
    apply bind_Ok_inv in E as (embeddings & _ & E).
    apply bind_Ok_inv in E as (st & Hloop & E). injection E as <-.
    exact (proj2 (reachable_inv _ _ _ _ Hloop)). }
  split; [|split; [|split; [exact Hret|]]].
  - intros thr embeddings pre post st _ Hloop.
    exact (proj2 (reachable_inv _ _ _ _ Hloop)).
  - intros c item [Hin Hlen]. unfold cluster_inv, append_member, set_representative.
    simpl. rewrite length_app. simpl.
    split; (split; [apply elem_of_app|lia]).
    + left. exact Hin.
    + right. apply list_elem_of_here.
  - intros d Hd Hembed.
    assert (Hex : exists cs, cluster_items items similarity_threshold = Ok cs).
    { unfold cluster_items. destruct items as [|item0 rest] eqn:Eitems; [eauto|].
      rewrite <- Eitems.
      set (texts := map _ items).
      destruct (embed_batches_rows d
                  (map (fun i => slice i (i + batch_size) texts)
                       (range_step (length texts) batch_size)) Hembed)
        as (es & Ees & Les & Wes).
      rewrite Ees. simpl. rewrite (np_array_ok d es Wes). simpl.
      rewrite batches_concat in Les by (unfold batch_size; lia).
      destruct (cluster_loop_total d
                  (default settings_similarity_threshold similarity_threshold)
                  es items Hd Wes 0 init_state init_state_wf) as (st & Est).
      { constructor. }
      { unfold texts in Les. rewrite length_map in Les. simpl. lia. }
      rewrite Est. simpl. eauto. }
    destruct Hex as (cs & E). exists cs. split; [exact E | exact (Hret cs E)].
Qed.

End EmbeddingFacts.

(** ** The result cache *)

Section CacheFacts.
Context `{PyLib}.

Lemma get_classified_absent cache id d fs :
  files fs !! key_file cache id "classify" d = None ->
  get_classified cache id d fs = None.
Proof. unfold get_classified, key_file. intros ->. reflexivity. Qed.

Lemma get_scored_absent cache id d fs :
  files fs !! key_file cache id "score" d = None ->
  get_scored cache id d fs = None.
Proof. unfold get_scored, key_file. intros ->. reflexivity. Qed.

Lemma get_classified_corrupt cache id d fs entry :
  files fs !! key_file cache id "classify" d = Some entry ->
  corrupt_record validate_classified entry ->
  get_classified cache id d fs = None.
Proof.
  unfold get_classified, key_file. intros -> Hc.
  destruct Hc as [| |doc e Hv]; simpl; [reflexivity..|]. rewrite Hv. reflexivity.
Qed.

Lemma get_scored_corrupt cache id d fs entry :
  files fs !! key_file cache id "score" d = Some entry ->
  corrupt_record validate_scored entry ->
  get_scored cache id d fs = None.
Proof.
  unfold get_scored, key_file. intros -> Hc.
  destruct Hc as [| |doc e Hv]; simpl; [reflexivity..|]. rewrite Hv. reflexivity.
Qed.

(** A save touches the file of its own key only. *)
Lemma run_op_other_file cache fs op path :
  op_file cache op <> path ->
  files (run_op cache fs op) !! path = files fs !! path.
Proof.
  intros Hne. destruct op as [item d|item d]; simpl in *;
    unfold save_classified, save_scored, write_json, key_file in *;
    destruct (writable fs); simpl; try reflexivity;
    by rewrite lookup_insert_ne.
Qed.

Lemma run_ops_other_file cache ops :
  forall fs path,
    Forall (fun op => op_file cache op <> path) ops ->
    files (fold_left (run_op cache) ops fs) !! path = files fs !! path.
Proof.
  induction ops as [|op ops IH]; intros fs path Hall; simpl; [reflexivity|].
  inversion Hall as [|? ? Hop Hrest]; subst.
  rewrite IH by exact Hrest. by apply run_op_other_file.
Qed.

(** C7: a get on a key whose file was never written returns [None], for
    both operations: when there is no file for the key, and still after any
    sequence of saves that write other files. A get whose record is corrupt
    (the file cannot be opened, holds no JSON, or holds JSON that is no such
    item) returns [None] as well; the result type has no error case. *)
Theorem cache_get_absent_or_corrupt_is_none (cache : NewsCache) (id : string)
    (d : date) (fs : FileSystem) :
  (forall ops,
     files fs !! key_file cache id "classify" d = None ->
     Forall (fun op => op_file cache op <> key_file cache id "classify" d) ops ->
     get_classified cache id d (fold_left (run_op cache) ops fs) = None) /\
  (forall ops,
     files fs !! key_file cache id "score" d = None ->
     Forall (fun op => op_file cache op <> key_file cache id "score" d) ops ->
     get_scored cache id d (fold_left (run_op cache) ops fs) = None) /\
  (forall entry,
     files fs !! key_file cache id "classify" d = Some entry ->
     corrupt_record validate_classified entry ->
     get_classified cache id d fs = None) /\
  (forall entry,
     files fs !! key_file cache id "score" d = Some entry ->
     corrupt_record validate_scored entry ->
     get_scored cache id d fs = None).
Proof.
  split; [|split; [|split]].
  - intros ops Hnone Hall. apply get_classified_absent.
    rewrite run_ops_other_file by exact Hall. exact Hnone.
  - intros ops Hnone Hall. apply get_scored_absent.
    rewrite run_ops_other_file by exact Hall. exact Hnone.
  - intros entry. apply get_classified_corrupt.
  - intros entry. apply get_scored_corrupt.
Qed.

(** Validation reads back what [model_dump] wrote. *)
Lemma validate_raw_dump raw rest :
  reparses raw -> validate_raw (dump_raw raw ++ rest) = Ok raw.
Proof.
  intros [Hurl Hdt]. destruct raw as [id ttl u src pub cnt]. simpl in *.
  unfold validate_raw, required, optional. simpl.
  destruct u as [u|]; simpl.
  - rewrite (Hurl u eq_refl). simpl.
    destruct pub as [t|]; simpl; [rewrite (Hdt t eq_refl)|]; reflexivity.
  - destruct pub as [t|]; simpl; [rewrite (Hdt t eq_refl)|]; reflexivity.
Qed.

Lemma validate_classified_dump item rest :
  reparses (c_raw item) ->
  validate_classified_fields (dump_classified item ++ rest) = Ok item.
Proof.
  intros Hre. unfold validate_classified_fields, dump_classified.
  rewrite <- app_assoc, (validate_raw_dump _ _ Hre).
  destruct item as [raw cat conf meth]. destruct raw as [id ttl u src pub cnt].
  simpl. unfold required. simpl. reflexivity.
Qed.

Lemma mapM_validate_str (l : list string) : mapM validate_str (map JStr l) = Some l.
Proof.
  induction l as [|x l IH]; simpl; [reflexivity|]. rewrite IH. reflexivity.
Qed.

Lemma validate_scored_dump item :
  reparses (s_raw item) ->
  validate_scored_fields (dump_scored item) = Ok item.
Proof.
  intros Hre. unfold validate_scored_fields, dump_scored.
  rewrite (validate_classified_dump _ _ Hre).
  destruct item as [[raw cat conf meth] score reason dims].
  destruct raw as [id ttl u src pub cnt].
  simpl. unfold required. simpl. rewrite mapM_validate_str. reflexivity.
Qed.

(** C8: saving an item and then getting the key of the same id, operation
    and date returns an item equal to the saved one, when the write succeeds
    (the read then succeeds too), for classified and for scored items. *)
Theorem cache_round_trip (cache : NewsCache) (target_date : date) (fs : FileSystem)
    (r : ClassifiedNewsItem) (r' : ScoredNewsItem) :
  writable fs = true ->
  reparses (c_raw r) ->
  reparses (s_raw r') ->
  get_classified cache (item_id (c_raw r)) target_date
    (save_classified cache r target_date fs) = Some r /\
  get_scored cache (item_id (s_raw r')) target_date
    (save_scored cache r' target_date fs) = Some r'.
Proof.
  intros Hw Hr Hr'. split.
  - unfold get_classified, save_classified, write_json. rewrite Hw. simpl.
    rewrite lookup_insert_eq. simpl.
    pose proof (validate_classified_dump r [] Hr) as E. rewrite app_nil_r in E.
    rewrite E. reflexivity.
  - unfold get_scored, save_scored, write_json. rewrite Hw. simpl.
    rewrite lookup_insert_eq. simpl.
    rewrite (validate_scored_dump r' Hr'). reflexivity.
Qed.

End CacheFacts.

(** ** Classifier and scorer *)

Section EnrichmentFacts.
Context `{PyLib} `{EnrichmentClient}.

(** The classifier's [try:] succeeds exactly when a confidence can be read,
    and stores that number as it is. *)
Lemma classify_try_confidence item prompt_template method :
  match call_llm_json (classify_prompt item prompt_template) ≫= reported_confidence with
  | Ok q =>
      exists c, classify_try item prompt_template method = Ok c /\
                classification_confidence c = q
  | Raise e => classify_try item prompt_template method = Raise e
  end.
Proof.
  unfold classify_try, reported_confidence.
  destruct (call_llm_json (classify_prompt item prompt_template)) as [response|e];
    simpl; [|reflexivity].
  destruct response; simpl; try reflexivity.
  destruct (py_float _) as [q|e]; simpl; [|reflexivity].
  eexists. split; reflexivity.
Qed.

Lemma zero_in_unit_interval : (0 <= 0)%Q /\ (0 <= 1)%Q.
Proof. split; discriminate. Qed.

(** C4, as the code has it: the classifier stores the confidence that the
    model reports, [float(response.get("confidence", 0.5))], as it is and
    without clamping, 0.0 on the failure fallback, and on a cache hit the
    confidence of the cached record, unchanged. This is an equation on every
    path of both classifiers. The stored confidence therefore lies in [0,1]
    on every path when the reported confidence and the cached record's
    do. *)
Theorem classifier_confidence_in_range_when_reported (item : RawNewsItem)
    (prompt_template : string) (cache : option NewsCache) (target_date : date)
    (fs : FileSystem) :
  let zero_shot := fst (_classify_single_item item prompt_template cache target_date fs) in
  let few_shot := _classify_single_item_few_shot item prompt_template in
  let reported :=
    call_llm_json (classify_prompt item prompt_template) ≫= reported_confidence in
  classification_confidence zero_shot =
    match classify_start cache target_date item fs with
    | Some cached => classification_confidence cached
    | None =>
        match reported with
        | Ok q => q
        | Raise _ => 0%Q
        end
    end /\
  classification_confidence few_shot =
    match reported with
    | Ok q => q
    | Raise _ => 0%Q
    end /\
  ((forall q, reported = Ok q -> (0 <= q)%Q /\ (q <= 1)%Q) ->
   (forall cached, classify_start cache target_date item fs = Some cached ->
                   (0 <= classification_confidence cached)%Q /\
                   (classification_confidence cached <= 1)%Q) ->
   ((0 <= classification_confidence zero_shot)%Q /\
    (classification_confidence zero_shot <= 1)%Q) /\
   ((0 <= classification_confidence few_shot)%Q /\
    (classification_confidence few_shot <= 1)%Q)).
Proof.
  intros zero_shot few_shot reported.
  pose proof (classify_try_confidence item prompt_template "zero-shot") as Hz.
  pose proof (classify_try_confidence item prompt_template "few-shot") as Hf.
  fold reported in Hz, Hf.
  assert (Ez : classification_confidence zero_shot =
               match classify_start cache target_date item fs with
               | Some cached => classification_confidence cached
               | None => match reported with Ok q => q | Raise _ => 0%Q end
               end).
  { subst zero_shot. unfold _classify_single_item, classify_finish.
    destruct (classify_start cache target_date item fs) as [cached|]; [reflexivity|].
    destruct reported as [q|e].
    - destruct Hz as (cz & -> & Qz). exact Qz.
    - rewrite Hz. reflexivity. }
  assert (Ef : classification_confidence few_shot =
               match reported with Ok q => q | Raise _ => 0%Q end).
  { subst few_shot. unfold _classify_single_item_few_shot.
    destruct reported as [q|e].
    - destruct Hf as (cf & -> & Qf). exact Qf.
    - rewrite Hf. reflexivity. }
  split; [exact Ez|]. split; [exact Ef|].
  intros Hrep Hhit. rewrite Ez, Ef. split.
  - destruct (classify_start cache target_date item fs) as [cached|].
    + exact (Hhit cached eq_refl).
    + destruct reported as [q|e]; [exact (Hrep q eq_refl) | exact zero_in_unit_interval].
  - destruct reported as [q|e]; [exact (Hrep q eq_refl) | exact zero_in_unit_interval].
Qed.

(** The scorer's [try:], for a response that is a JSON object. *)
Lemma score_try_dict item prompt_template d raw_score :
  call_llm_json (score_prompt item prompt_template) = Ok (JDict d) ->
  py_int (default (JInt 3) (dict_lookup "impact_score" d)) = Ok raw_score ->
  score_try item prompt_template =
    make_scored item (Z.max 1 (Z.min 5 raw_score))
      (default (JStr EmptyString) (dict_lookup "impact_reason" d))
      (checked_dimensions (default (JList []) (dict_lookup "impact_dimensions" d))).
Proof.
  intros Ecall Eint. unfold score_try. rewrite Ecall. simpl. rewrite Eint. reflexivity.
Qed.

(** Whatever the response, a computed score lies in 1..5. *)
Lemma score_finish_in_range cache prompt_template target_date item fs :
  (1 <= impact_score (fst (score_finish cache prompt_template target_date item fs)) <= 5)%Z.
Proof.
  unfold score_finish.
  destruct (score_try item prompt_template) as [s|e] eqn:E; simpl; [|lia].
  unfold score_try in E.
  apply bind_Ok_inv in E as (response & _ & E).
  apply bind_Ok_inv in E as (raw_score & _ & E).
  apply bind_Ok_inv in E as (dims & _ & E).
  apply bind_Ok_inv in E as (reason & _ & E).
  unfold make_scored in E.
  destruct (validate_str reason); [|discriminate].
  destruct (validate_list_str _); [|discriminate].
  injection E as <-. simpl. lia.
Qed.

(** C5, as the code has it: when the enrichment call succeeds with a JSON
    object whose raw score is an integer, the scorer clips the score into
    1..5 (5 for a raw score above 5, 1 for one below 1, the raw score itself
    otherwise) and returns an item, not the fallback, provided that the
    item constructor accepts the reason and the dimensions of the answer (a
    string; a list of strings, or no list). When it does not, the
    constructor raises inside the [try], and the scorer returns the fallback
    item with score 3 whatever the raw score was, and writes nothing. *)
Theorem scorer_clamps_impact_score (item : ClassifiedNewsItem) (prompt_template : string)
    (cache : option NewsCache) (target_date : date) (fs : FileSystem)
    (d : list (string * json)) (raw_score : Z) :
  score_start cache target_date item fs = None ->
  call_llm_json (score_prompt item prompt_template) = Ok (JDict d) ->
  dict_lookup "impact_score" d = Some (JInt raw_score) ->
  let reason := default (JStr EmptyString) (dict_lookup "impact_reason" d) in
  let dimensions :=
    checked_dimensions (default (JList []) (dict_lookup "impact_dimensions" d)) in
  let scored := fst (_score_single_item item prompt_template cache target_date fs) in
  (is_Some (validate_str reason) ->
   is_Some (validate_list_str dimensions) ->
   score_try item prompt_template = Ok scored /\
   impact_score scored = Z.max 1 (Z.min 5 raw_score) /\
   (1 <= impact_score scored <= 5)%Z /\
   ((5 < raw_score)%Z -> impact_score scored = 5%Z) /\
   ((raw_score < 1)%Z -> impact_score scored = 1%Z) /\
   ((1 <= raw_score <= 5)%Z -> impact_score scored = raw_score)) /\
  (validate_str reason = None \/ validate_list_str dimensions = None ->
   score_try item prompt_template = Raise ValidationError /\
   _score_single_item item prompt_template cache target_date fs
     = (score_fallback item, fs) /\
   impact_score scored = 3%Z).
Proof.
  intros Hmiss Ecall Hscore reason dimensions scored. subst scored.
  assert (Etry : score_try item prompt_template =
                 make_scored item (Z.max 1 (Z.min 5 raw_score)) reason dimensions).
  { apply (score_try_dict item prompt_template d raw_score Ecall).
    rewrite Hscore. reflexivity. }
  unfold _score_single_item. rewrite Hmiss. unfold score_finish. rewrite Etry.
  unfold make_scored. split.
  - intros [r Hr] [ds Hds]. rewrite Hr, Hds. simpl.
    split; [reflexivity|]. split; [reflexivity|]. repeat split; lia.
  - intros [Hr|Hds].
    + rewrite Hr. simpl. repeat split.
    + rewrite Hds. destruct (validate_str reason); simpl; repeat split.
Qed.

Lemma score_try_call_raises item prompt_template e :
  call_llm_json (score_prompt item prompt_template) = Raise e ->
  score_try item prompt_template = Raise e.
Proof. intros E. unfold score_try. rewrite E. reflexivity. Qed.

End EnrichmentFacts.

(** ** [asyncio.gather]: results by position, whatever the schedule *)

Section GatherFacts.
Context {A B St : Type}.
Variable start : A -> St -> option B.
Variable finish : A -> St -> B * St.

Lemma init_pool_ok inputs s : pool_ok start finish inputs (init_pool inputs s).
Proof.
  split; simpl; [apply length_map|].
  intros i x t _ Ht. rewrite list_lookup_fmap in Ht.
  destruct (inputs !! i); simpl in Ht; [|discriminate]. injection Ht as <-. exact I.
Qed.

Lemma pool_ok_insert inputs (p : pool B St) i x t s' :
  pool_ok start finish inputs p ->
  inputs !! i = Some x ->
  task_ok start finish x t ->
  pool_ok start finish inputs {| tasks := <[i := t]> (tasks p); shared := s' |}.
Proof.
  intros [Hlen Hall] Hx Ht. split; simpl; [by rewrite length_insert|].
  intros j y u Hy Hu. destruct (decide (i = j)) as [->|Hne].
  - rewrite list_lookup_insert_eq in Hu.
    + injection Hu as <-. rewrite Hx in Hy. injection Hy as <-. exact Ht.
    + rewrite Hlen. eapply lookup_lt_Some; eauto.
  - rewrite list_lookup_insert_ne in Hu by exact Hne. eauto.
Qed.

Lemma resume_ok cap inputs p i :
  pool_ok start finish inputs p -> pool_ok start finish inputs (resume start finish cap inputs p i).
Proof.
  intros Hok. unfold resume.
  destruct (inputs !! i) as [x|] eqn:Hx; [|exact Hok].
  destruct (tasks p !! i) as [[| |r]|] eqn:Ht; try exact Hok.
  - destruct (Nat.ltb (in_flight p) cap); [|exact Hok].
    destruct (start x (shared p)) as [r|] eqn:Es.
    + eapply pool_ok_insert; eauto. simpl. eauto.
    + eapply pool_ok_insert; eauto. simpl. eauto.
  - destruct Hok as [Hlen Hall].
    destruct (Hall i x InFlight Hx Ht) as [s0 Hs0].
    destruct (finish x (shared p)) as [r s'] eqn:Ef.
    eapply pool_ok_insert; eauto; [split; assumption|].
    simpl. exists s0. right. split; [exact Hs0|]. exists (shared p). rewrite Ef. reflexivity.
Qed.

Lemma run_schedule_ok cap inputs schedule :
  forall p, pool_ok start finish inputs p ->
            pool_ok start finish inputs (run_schedule start finish cap inputs schedule p).
Proof.
  unfold run_schedule.
  induction schedule as [|i schedule IH]; intros p Hok; simpl; [exact Hok|].
  apply IH. apply resume_ok. exact Hok.
Qed.

(** Every result of a completed [gather] stands at the position of its
    input and was computed from that input. *)
Lemma gather_by_position cap inputs schedule s out s' :
  (forall x s1 s2, fst (finish x s1) = fst (finish x s2)) ->
  gather start finish cap inputs schedule s = Some (out, s') ->
  length out = length inputs /\
  forall i x, inputs !! i = Some x ->
              exists r, out !! i = Some r /\ enriched start finish x r.
Proof.
  intros Hfin E. unfold gather in E.
  set (p := run_schedule start finish cap inputs schedule (init_pool inputs s)) in *.
  assert (Hok : pool_ok start finish inputs p)
    by (apply run_schedule_ok, init_pool_ok).
  destruct (mapM task_result (tasks p)) as [results|] eqn:Em; simpl in E; [|discriminate].
  injection E as <- <-.
  apply mapM_Some in Em. destruct Hok as [Hlen Hall].
  pose proof (Forall2_length _ _ _ Em) as Hlen2.
  split; [congruence|].
  intros i x Hx.
  destruct (lookup_lt_is_Some_2 (tasks p) i) as [t Ht].
  { rewrite Hlen. eapply lookup_lt_Some; eauto. }
  destruct (Forall2_lookup_l _ _ _ _ _ Em Ht) as (r & Hr & Htr).
  exists r. split; [exact Hr|].
  destruct t as [| |r0]; simpl in Htr; try discriminate. injection Htr as ->.
  destruct (Hall i x (Done r) Hx Ht) as (s0 & [Hs|[Hs (s1 & ->)]]).
  - exists s0. unfold run_task. rewrite Hs. reflexivity.
  - exists s0. unfold run_task. rewrite Hs. apply Hfin.
Qed.

Lemma in_flight_settled (done : list B) (rest : list A) (s : St) :
  in_flight {| tasks := map Done done ++ map (fun _ => Waiting) rest; shared := s |} = 0.
Proof.
  unfold in_flight. simpl. rewrite filter_app, length_app.
  assert (H1 : filter (fun t : task_state B => is_in_flight t = true) (map Done done) = []).
  { induction done as [|r done IH]; simpl; [reflexivity|].
    rewrite filter_cons_False by (simpl; discriminate). exact IH. }
  assert (H2 : filter (fun t : task_state B => is_in_flight t = true)
                      (map (fun _ : A => Waiting) rest) = []).
  { induction rest as [|x rest IH]; simpl; [reflexivity|].
    rewrite filter_cons_False by (simpl; discriminate). exact IH. }
  rewrite H1, H2. reflexivity.
Qed.




End GatherFacts.

(** ** The concurrent stages *)

Section StageFacts.
Context `{PyLib} `{EnrichmentClient}.

Lemma classify_finish_result cache prompt_template target_date item fs1 fs2 :
  fst (classify_finish cache prompt_template target_date item fs1) =
  fst (classify_finish cache prompt_template target_date item fs2).
Proof.
  unfold classify_finish. destruct (classify_try item prompt_template "zero-shot");
    reflexivity.
Qed.

Lemma score_finish_result cache prompt_template target_date item fs1 fs2 :
  fst (score_finish cache prompt_template target_date item fs1) =
  fst (score_finish cache prompt_template target_date item fs2).
Proof.
  unfold score_finish. destruct (score_try item prompt_template); reflexivity.
Qed.

(** A stage whose tasks share no state returns the map of its transform. *)
Lemma stateless_gather {A B} (f : A -> B) cap (inputs : list A) schedule out :
  fst <$> gather (fun _ _ => None) (fun x (_ : unit) => (f x, tt)) cap inputs schedule tt
    = Some out ->
  out = map f inputs.
Proof.
  intros E.
  destruct (gather _ _ cap inputs schedule tt) as [[out' u]|] eqn:Eg; [|discriminate].
  simpl in E. injection E as ->.
  destruct (gather_by_position (fun _ _ => None) (fun x (_ : unit) => (f x, tt))
              cap inputs schedule tt out u (fun _ _ _ => eq_refl) Eg)
    as [Hlen Hpos].
  apply list_eq. intros i. rewrite list_lookup_fmap.
  destruct (inputs !! i) as [x|] eqn:Hx; simpl.
  - destruct (Hpos i x Hx) as (r & Hr & (s & ->)). exact Hr.
  - apply lookup_ge_None. rewrite Hlen. apply lookup_ge_None. exact Hx.
Qed.


(** C6: when the enrichment call of an item raises, the scorer returns the
    item with impact score 3, reason "Error during scoring" and no
    dimensions, and leaves the cache as it was; the error reaches no one: in
    a batch, the stage still returns one result per item, and the result of
    this item is the fallback (or, when the cache already held it, the
    cached item, and then the call was never made). *)
Theorem scorer_falls_back_on_failure (item : ClassifiedNewsItem) (prompt_template : string)
    (cache : option NewsCache) (target_date : date) (fs : FileSystem) (e : exn) :
  load_prompt "impact_prompt" = Ok prompt_template ->
  call_llm_json (score_prompt item prompt_template) = Raise e ->
  score_start cache target_date item fs = None ->
  _score_single_item item prompt_template cache target_date fs
    = (score_fallback item, fs) /\
  s_base (score_fallback item) = item /\
  impact_score (score_fallback item) = 3%Z /\
  impact_reason (score_fallback item) = "Error during scoring" /\
  impact_dimensions (score_fallback item) = [] /\
  (forall items max_concurrent schedule fs0 out fs1 i,
     items !! i = Some item ->
     score_impact_async items target_date cache max_concurrent schedule fs0
       = Ok (Some (out, fs1)) ->
     length out = length items /\
     exists r, out !! i = Some r /\
               (r = score_fallback item \/
                exists fs_i, score_start cache target_date item fs_i = Some r)).
Proof.
  intros Hload Ecall Hmiss.
  pose proof (score_try_call_raises _ _ _ Ecall) as Etry.
  split; [|split; [|split; [|split; [|split]]]]; try reflexivity.
  - unfold _score_single_item, score_finish. rewrite Hmiss, Etry. reflexivity.
  - intros items max_concurrent schedule fs0 out fs1 i Hi Eg.
    unfold score_impact_async in Eg. rewrite Hload in Eg. simpl in Eg.
    injection Eg as Eg.
    destruct (gather_by_position _ _ _ _ _ _ _ _
                (fun x s1 s2 => score_finish_result cache _ target_date x s1 s2) Eg)
      as [Hlen Hpos].
    split; [exact Hlen|].
    destruct (Hpos _ _ Hi) as (r & Hr & (fs_i & ->)).
    eexists. split; [exact Hr|]. unfold run_task.
    destruct (score_start cache target_date item fs_i) as [cached|] eqn:Es.
    + right. exists fs_i. exact Es.
    + left. unfold score_finish. rewrite Etry. reflexivity.
Qed.

End StageFacts.

(** ** Cluster summarizer *)

Section SummarizerFacts.
Context `{PyLib} `{EnrichmentClient}.

Lemma collect_fold (ms : list ScoredNewsItem) :
  forall acc,
    fold_left collect_step ms acc =
    (fst acc ++ omap member_source ms,
     snd acc ++ map (fun member => item_id (s_raw member)) ms).
Proof.
  induction ms as [|member ms IH]; intros [srcs ids]; simpl.
  - rewrite !app_nil_r. reflexivity.
  - rewrite IH. unfold member_source. simpl.
    destruct (url (s_raw member)) as [u|]; simpl; rewrite <- ?app_assoc; reflexivity.
Qed.

Lemma collect_sources_eq (cluster : ClusteredItem) :
  collect_sources cluster =
  (omap member_source (members cluster),
   map (fun member => item_id (s_raw member)) (members cluster)).
Proof. unfold collect_sources. rewrite collect_fold. reflexivity. Qed.

Lemma collected_ok (cluster : ClusteredItem) (s : SummarizedCluster) :
  sources s = list_set (fst (collect_sources cluster)) ->
  raw_ids s = snd (collect_sources cluster) ->
  sources_and_ids_ok cluster s.
Proof.
  rewrite collect_sources_eq. simpl. intros Hs Hr.
  unfold sources_and_ids_ok. rewrite Hs, Hr. unfold list_set.
  split; [apply NoDup_elements|]. split; [|split; [reflexivity | apply length_map]].
  intros u. rewrite elem_of_elements, elem_of_list_to_set, list_elem_of_omap.
  unfold member_source. split.
  - intros (member & Hin & Hsrc).
    destruct (url (s_raw member)) as [hu|] eqn:Eu; simpl in Hsrc; [|discriminate].
    injection Hsrc as <-. exists member, hu. auto.
  - intros (member & hu & Hin & Eu & <-). exists member. rewrite Eu. auto.
Qed.

(** C10: the summarized cluster, on the success path and on the failure
    path alike, lists every URL of a member once and nothing else in
    [sources], and the member ids in member order in [raw_ids], whose length
    is therefore the number of members. Members without a URL add no
    source. *)
Theorem summarizer_sources_and_raw_ids (cluster : ClusteredItem) (prompt_template : string) :
  (forall s, summarize_try cluster prompt_template = Ok s -> sources_and_ids_ok cluster s) /\
  (forall e, sources_and_ids_ok cluster (summarize_fallback cluster e)) /\
  sources_and_ids_ok cluster (_summarize_single_cluster cluster prompt_template).
Proof.
  assert (Hok : forall s, summarize_try cluster prompt_template = Ok s ->
                          sources_and_ids_ok cluster s).
  { intros s E. unfold summarize_try in E.
    apply bind_Ok_inv in E as (response & _ & E).
    apply bind_Ok_inv in E as (title_v & _ & E).
    apply bind_Ok_inv in E as (summary_v & _ & E).
    apply bind_Ok_inv in E as (notes & _ & E).
    destruct (collect_sources cluster) as [srcs ids] eqn:Ec.
    destruct (validate_str title_v); [|discriminate].
    destruct (validate_str summary_v); [|discriminate].
    injection E as <-. apply collected_ok; simpl; rewrite Ec; reflexivity. }
  assert (Hfb : forall e, sources_and_ids_ok cluster (summarize_fallback cluster e)).
  { intros e. unfold summarize_fallback.
    destruct (collect_sources cluster) as [srcs ids] eqn:Ec.
    apply collected_ok; simpl; rewrite Ec; reflexivity. }
  split; [exact Hok|]. split; [exact Hfb|].
  unfold _summarize_single_cluster.
  destruct (summarize_try cluster prompt_template) as [s|e] eqn:E; auto.
Qed.

End SummarizerFacts.

(** * Further properties of the code *)

(** ** The clustering loop, by input position *)

Section ClusterLoopFacts.
Context `{PyLib}.

(** What a successful iteration did. *)
Lemma cluster_step_outcome thr item embedding st st' :
  state_wf st ->
  cluster_step thr item embedding st = Ok st' ->
  (st' = new_cluster item embedding st /\
   (clusters st = [] \/
    exists i m,
      is_first_max (map (cosine_similarity embedding) (cluster_embeddings st)) i m /\
      (m < thr)%Q))
  \/ (exists i m c,
        is_first_max (map (cosine_similarity embedding) (cluster_embeddings st)) i m /\
        (thr <= m)%Q /\
        clusters st !! i = Some c /\
        st' = joined i item embedding c st).
Proof.
  intros Hwf E.
  destruct (cluster_step_cases thr item embedding st Hwf)
    as [[Hnil E2]|(i & m & c & Hfm & Hc & E2)]; rewrite E2 in E; injection E as <-.
  - left. split; [reflexivity | left; exact Hnil].
  - destruct (Qle_bool thr m) eqn:Hb.
    + right. exists i, m, c. apply Qle_bool_iff in Hb. auto.
    + left. split; [reflexivity|]. right. exists i, m. split; [exact Hfm|].
      apply Qnot_le_lt. intros Hle. apply Qle_bool_iff in Hle. congruence.
Qed.

Lemma lookup_map_Some {A B} (f : A -> B) (l : list A) (i : nat) (y : B) :
  map f l !! i = Some y -> exists x, l !! i = Some x /\ y = f x.
Proof.
  revert i. induction l as [|a l IH]; intros [|i] E; simpl in E; try discriminate.
  - injection E as <-. eauto.
  - apply IH. exact E.
Qed.

(** Induction along the loop, with the input position of each item. *)
Lemma cluster_loop_positions thr embeddings (all_items : list ScoredNewsItem)
    (Inv : nat -> ClusterState -> Prop) :
  (forall idx item embedding st st',
      state_wf st -> Inv idx st ->
      all_items !! idx = Some item ->
      embeddings !! idx = Some embedding ->
      cluster_step thr item embedding st = Ok st' ->
      Inv (S idx) st') ->
  forall rest idx st st',
    state_wf st -> Inv idx st ->
    (forall k item, rest !! k = Some item -> all_items !! (idx + k) = Some item) ->
    cluster_loop thr embeddings idx rest st = Ok st' ->
    Inv (idx + length rest) st'.
Proof.
  intros Hstep. induction rest as [|item rest IH]; intros idx st st' Hwf Hinv Hat E.
  - simpl in E. injection E as <-. simpl. rewrite Nat.add_0_r. exact Hinv.
  - simpl in E.
    apply bind_Ok_inv in E as (embedding & He & E). apply py_index_Ok in He.
    apply bind_Ok_inv in E as (checked & _ & E).
    apply bind_Ok_inv in E as (st1 & Estep & E).
    assert (Hitem : all_items !! idx = Some item).
    { specialize (Hat 0 item eq_refl). rewrite Nat.add_0_r in Hat. exact Hat. }
    simpl. replace (idx + S (length rest)) with (S idx + length rest) by lia.
    apply (IH (S idx) st1 st'); [| |  |exact E].
    + eapply cluster_step_wf; eauto.
    + eapply Hstep; eauto.
    + intros k x Hk. specialize (Hat (S k) x Hk).
      replace (S idx + k) with (idx + S k) by lia. exact Hat.
Qed.

Lemma cluster_loop_from_start thr embeddings (items : list ScoredNewsItem)
    (Inv : nat -> ClusterState -> Prop) st :
  (forall idx item embedding st st',
      state_wf st -> Inv idx st ->
      items !! idx = Some item ->
      embeddings !! idx = Some embedding ->
      cluster_step thr item embedding st = Ok st' ->
      Inv (S idx) st') ->
  Inv 0 init_state ->
  cluster_loop thr embeddings 0 items init_state = Ok st ->
  Inv (length items) st.
Proof.
  intros Hstep H0 E.
  apply (cluster_loop_positions thr embeddings items Inv Hstep items 0 init_state st
           init_state_wf H0); [|exact E].
  intros k item Hk. exact Hk.
Qed.

(** *** Members: nothing lost, nothing twice, input order kept *)

Lemma all_members_new item embedding st :
  all_members (clusters (new_cluster item embedding st)) = all_members (clusters st) ++ [item].
Proof.
  unfold all_members, new_cluster. simpl. rewrite map_app, concat_app. simpl.
  reflexivity.
Qed.

Lemma all_members_joined i item embedding c st :
  clusters st !! i = Some c ->
  all_members (clusters (joined i item embedding c st)) ≡ₚ all_members (clusters st) ++ [item].
Proof.
  intros Hc. destruct (joined_clusters i item embedding c st) as (c' & -> & Hm & _).
  unfold all_members.
  assert (Hi : i < length (clusters st)) by (eapply lookup_lt_Some; eauto).
  rewrite insert_take_drop by exact Hi.
  rewrite <- (take_drop_middle (clusters st) i c Hc) at 3.
  rewrite !map_app, !concat_app. simpl. rewrite Hm.
  rewrite <- !app_assoc. apply Permutation_app_head.
  apply Permutation_app_head. apply Permutation_app_comm.
Qed.

Lemma cluster_loop_members thr embeddings items st :
  cluster_loop thr embeddings 0 items init_state = Ok st ->
  all_members (clusters st) ≡ₚ items /\
  Forall (fun c => members c `sublist_of` items) (clusters st).
Proof.
  intros E.
  pose proof (cluster_loop_from_start thr embeddings items
    (fun idx st => all_members (clusters st) ≡ₚ take idx items /\
                   Forall (fun c => members c `sublist_of` take idx items) (clusters st)) st)
    as Hind.
  cbv beta in Hind. rewrite (take_ge items (length items)) in Hind by lia. apply Hind; [|split; [reflexivity | constructor]|exact E].
  clear. intros idx item embedding st st' Hwf [Hperm Hsub] Hitem _ Estep.
  rewrite (take_S_r _ _ _ Hitem).
  assert (Hold : Forall (fun c => members c `sublist_of` take idx items ++ [item])
                        (clusters st)).
  { eapply Forall_impl; [exact Hsub|]. intros c Hc. by apply sublist_inserts_r. }
  destruct (cluster_step_outcome _ _ _ _ _ Hwf Estep)
    as [[-> _]|(i & m & c & _ & _ & Hc & ->)].
  - split.
    + rewrite all_members_new, Hperm. reflexivity.
    + unfold new_cluster. simpl. apply Forall_app_2; [exact Hold|].
      constructor; [|constructor]. simpl. by apply sublist_inserts_l.
  - split.
    + rewrite (all_members_joined _ _ _ _ _ Hc), Hperm. reflexivity.
    + destruct (joined_clusters i item embedding c st) as (c' & -> & Hm & _).
      apply Forall_insert; [exact Hold|]. rewrite Hm.
      apply sublist_app; [|reflexivity].
      exact (Forall_lookup_1 _ _ _ _ Hsub Hc).
Qed.

(** *** The representative is the first member of highest impact *)

Lemma first_best_singleton id item :
  first_best {| cluster_id := id; representative := item; members := [item] |}.
Proof. exists [], []. simpl. repeat split; constructor. Qed.

Lemma first_best_joined i item embedding c st :
  clusters st !! i = Some c ->
  Forall first_best (clusters st) ->
  Forall first_best (clusters (joined i item embedding c st)).
Proof.
  intros Hc Hall.
  destruct (Forall_lookup_1 _ _ _ _ Hall Hc) as (before & after & Hm & Hb & Ha).
  unfold joined.
  destruct (impact_score (representative c) <? impact_score item)%Z eqn:Hcmp; simpl;
    (apply Forall_insert; [exact Hall|]).
  - apply Z.ltb_lt in Hcmp.
    exists (members c), []. simpl. split; [reflexivity|]. split; [|constructor].
    rewrite Hm. apply Forall_app_2.
    + eapply Forall_impl; [exact Hb|]. simpl. intros. lia.
    + constructor; [exact Hcmp|].
      eapply Forall_impl; [exact Ha|]. simpl. intros. lia.
  - apply Z.ltb_ge in Hcmp.
    exists before, (after ++ [item]). simpl.
    split; [rewrite Hm, <- app_assoc; reflexivity|]. split; [exact Hb|].
    apply Forall_app_2; [exact Ha|]. constructor; [exact Hcmp | constructor].
Qed.

Lemma cluster_loop_first_best thr embeddings items st :
  cluster_loop thr embeddings 0 items init_state = Ok st ->
  Forall first_best (clusters st).
Proof.
  intros E.
  apply (cluster_loop_from_start thr embeddings items
           (fun _ st => Forall first_best (clusters st)) st); [|constructor|exact E].
  clear. intros idx item embedding st st' Hwf Hall _ _ Estep.
  destruct (cluster_step_outcome _ _ _ _ _ Hwf Estep)
    as [[-> _]|(i & m & c & _ & _ & Hc & ->)].
  - unfold new_cluster. simpl. apply Forall_app_2; [exact Hall|].
    constructor; [apply first_best_singleton | constructor].
  - by apply first_best_joined.
Qed.

(** *** Each centroid is the embedding of its cluster's representative *)

Lemma centroid_step thr (items : list ScoredNewsItem) embeddings idx item embedding st st' :
  state_wf st ->
  Forall2 (centroid_of items embeddings idx) (clusters st) (cluster_embeddings st) ->
  items !! idx = Some item ->
  embeddings !! idx = Some embedding ->
  cluster_step thr item embedding st = Ok st' ->
  Forall2 (centroid_of items embeddings (S idx)) (clusters st') (cluster_embeddings st').
Proof.
  intros Hwf Hall Hitem Hemb Estep.
  assert (Hold : Forall2 (centroid_of items embeddings (S idx))
                         (clusters st) (cluster_embeddings st)).
  { eapply Forall2_impl; [exact Hall|]. intros c e (k & Hk & Hi & He).
    exists k. split; [lia | auto]. }
  assert (Hnew : forall id ms,
             centroid_of items embeddings (S idx)
               {| cluster_id := id; representative := item; members := ms |} embedding).
  { intros id ms. exists idx. simpl. split; [lia | auto]. }
  destruct (cluster_step_outcome _ _ _ _ _ Hwf Estep)
    as [[-> _]|(i & m & c & Hfm & _ & Hc & ->)].
  - unfold new_cluster. simpl. apply Forall2_app; [exact Hold|].
    constructor; [apply Hnew | constructor].
  - unfold joined.
    destruct (impact_score (representative c) <? impact_score item)%Z; simpl.
    + apply Forall2_insert; [exact Hold | apply Hnew].
    + destruct (Forall2_lookup_l _ _ _ _ _ Hold Hc) as (e & He & (k & Hk & Hi & Hek)).
      rewrite <- (list_insert_id _ _ _ He).
      apply Forall2_insert; [exact Hold|]. exists k. simpl. auto.
Qed.

(** The similarity that an iteration compares with the threshold is the
    similarity to the vector of an earlier input position. *)
Lemma first_max_is_earlier_vector (items : list ScoredNewsItem) embeddings idx embedding st i m :
  Forall2 (centroid_of items embeddings idx) (clusters st) (cluster_embeddings st) ->
  is_first_max (map (cosine_similarity embedding) (cluster_embeddings st)) i m ->
  exists k e, k < idx /\ embeddings !! k = Some e /\ m = cosine_similarity embedding e.
Proof.
  intros Hall (Hi & _ & _).
  apply lookup_map_Some in Hi as (e & He & ->).
  destruct (Forall2_lookup_r _ _ _ _ _ Hall He) as (c & _ & (k & Hk & _ & Hek)).
  exists k, e. auto.
Qed.

End ClusterLoopFacts.

(** ** [cluster_items] as a whole *)

Section ClusterItemsFacts.
Context `{PyLib} `{EnrichmentClient}.

(** [cluster_items] is the loop over the vectors of the batched calls. *)
Lemma cluster_items_loop items similarity_threshold cs :
  cluster_items items similarity_threshold = Ok cs ->
  exists embeddings st,
    cluster_loop (default settings_similarity_threshold similarity_threshold)
      embeddings 0 items init_state = Ok st /\
    clusters st = cs.
Proof.
  intros E. unfold cluster_items in E. destruct items as [|item0 rest].
  - injection E as <-. exists [], init_state. split; reflexivity.
  - apply bind_Ok_inv in E as (embeddings0 & _ & E).
    apply bind_Ok_inv in E as (embeddings & _ & E).
    apply bind_Ok_inv in E as (st & Hloop & E). injection E as <-.
    exists embeddings, st. split; [exact Hloop | reflexivity].
Qed.

Lemma clusters_at_most_members (cs : list ClusteredItem) :
  Forall cluster_inv cs -> length cs <= length (all_members cs).
Proof.
  induction 1 as [|c cs [_ Hc] _ IH]; simpl; [lia|].
  unfold all_members in *. simpl. rewrite length_app. lia.
Qed.

(** X1: clustering loses no item and repeats none: the members of the
    returned clusters, taken together, are the input items, each as often as
    it stands in the input; the members of each cluster stand in input
    order; there are at most as many clusters as items, and at least one
    when there is an item. *)
Theorem clustering_partitions_the_items (items : list ScoredNewsItem)
    (similarity_threshold : option Q) (cs : list ClusteredItem) :
  cluster_items items similarity_threshold = Ok cs ->
  all_members cs ≡ₚ items /\
  Forall (fun c => members c `sublist_of` items) cs /\
  length cs <= length items /\
  (items <> [] -> cs <> []).
Proof.
  intros E.
  destruct (cluster_items_loop _ _ _ E) as (embeddings & st & Hloop & <-).
  destruct (cluster_loop_members _ _ _ _ Hloop) as [Hperm Hsub].
  destruct (reachable_inv _ _ _ _ Hloop) as [_ Hinv].
  split; [exact Hperm|]. split; [exact Hsub|]. split.
  - rewrite <- (Permutation_length Hperm). by apply clusters_at_most_members.
  - intros Hne Hnil. rewrite Hnil in Hperm. simpl in Hperm.
    apply Permutation_nil in Hperm. congruence.
Qed.

(** X2: in every returned cluster the representative is the first member
    (in input order) that has the highest impact score of the cluster: every
    earlier member scores strictly less, no member scores more. *)
Theorem representative_is_first_of_highest_impact (items : list ScoredNewsItem)
    (similarity_threshold : option Q) (cs : list ClusteredItem) :
  cluster_items items similarity_threshold = Ok cs ->
  Forall first_best cs /\
  forall c m, c ∈ cs -> m ∈ members c ->
              (impact_score m <= impact_score (representative c))%Z.
Proof.
  intros E.
  destruct (cluster_items_loop _ _ _ E) as (embeddings & st & Hloop & <-).
  pose proof (cluster_loop_first_best _ _ _ _ Hloop) as Hfb.
  split; [exact Hfb|]. intros c m Hc Hm.
  rewrite Forall_forall in Hfb. destruct (Hfb c Hc) as (before & after & Hms & Hb & Ha).
  rewrite Hms in Hm. apply elem_of_app in Hm as [Hm|Hm].
  - rewrite Forall_forall in Hb. specialize (Hb m Hm). simpl in Hb. lia.
  - apply elem_of_cons in Hm as [->|Hm]; [lia|].
    rewrite Forall_forall in Ha. exact (Ha m Hm).
Qed.

End ClusterItemsFacts.

Section ClusterExtremes.
Context `{PyLib}.

(** X3: after the clustering loop, the centroid kept for each cluster is the
    vector of an input position that holds the cluster's representative; the
    cluster list and the centroid list have the same length. *)
Theorem centroids_are_representative_embeddings thr embeddings
    (items : list ScoredNewsItem) (st : ClusterState) :
  cluster_loop thr embeddings 0 items init_state = Ok st ->
  length (clusters st) = length (cluster_embeddings st) /\
  Forall2 (centroid_of items embeddings (length items))
          (clusters st) (cluster_embeddings st).
Proof.
  intros E. split; [exact (proj1 (reachable_inv _ _ _ _ E))|].
  apply (cluster_loop_from_start thr embeddings items
           (fun idx st => Forall2 (centroid_of items embeddings idx)
                                  (clusters st) (cluster_embeddings st)) st);
    [|constructor|exact E].
  intros idx item embedding st0 st1 Hwf Hall Hitem Hemb Estep.
  eapply centroid_step; eauto.
Qed.

(** When no vector is as similar as the threshold to an earlier one, every
    item opens a cluster of its own. *)
Lemma loop_singletons thr embeddings
    (items : list ScoredNewsItem) (st : ClusterState) :
  (forall i j ei ej, j < i -> embeddings !! i = Some ei -> embeddings !! j = Some ej ->
                     (cosine_similarity ei ej < thr)%Q) ->
  cluster_loop thr embeddings 0 items init_state = Ok st ->
  map members (clusters st) = map (fun item => [item]) items /\
  map representative (clusters st) = items.
Proof.
  intros Hfar E.
  pose proof (cluster_loop_from_start thr embeddings items
    (fun idx st => Forall2 (centroid_of items embeddings idx)
                           (clusters st) (cluster_embeddings st) /\
                   map members (clusters st) = map (fun item => [item]) (take idx items) /\
                   map representative (clusters st) = take idx items) st) as Hind.
  cbv beta in Hind. rewrite (take_ge items (length items)) in Hind by lia.
  apply Hind; [|split; [constructor | split; reflexivity]|exact E].
  clear Hind E st.
  intros idx item embedding st st' Hwf (Hcen & Hms & Hreps) Hitem Hemb Estep.
  split; [eapply centroid_step; eauto|].
  rewrite (take_S_r _ _ _ Hitem).
  destruct (cluster_step_outcome _ _ _ _ _ Hwf Estep)
    as [[-> _]|(i & m & c & Hfm & Hthr & _ & _)].
  - unfold new_cluster. simpl. rewrite !map_app, Hms, Hreps. simpl. split; reflexivity.
  - exfalso.
    destruct (first_max_is_earlier_vector _ _ _ _ _ _ _ Hcen Hfm) as (k & e & Hk & He & ->).
    specialize (Hfar idx k embedding e Hk Hemb He).
    exact (Qlt_not_le _ _ Hfar Hthr).
Qed.

(** When every vector is as similar as the threshold to every earlier one,
    all items end in one cluster. *)
Lemma loop_one_cluster thr embeddings
    (items : list ScoredNewsItem) (st : ClusterState) :
  (forall i j ei ej, j < i -> embeddings !! i = Some ei -> embeddings !! j = Some ej ->
                     (thr <= cosine_similarity ei ej)%Q) ->
  items <> [] ->
  cluster_loop thr embeddings 0 items init_state = Ok st ->
  exists c, clusters st = [c] /\ members c = items.
Proof.
  intros Hnear Hne E.
  pose proof (cluster_loop_from_start thr embeddings items
    (fun idx st => Forall2 (centroid_of items embeddings idx)
                           (clusters st) (cluster_embeddings st) /\
                   ((idx = 0 /\ clusters st = []) \/
                    exists c, clusters st = [c] /\ members c = take idx items)) st) as Hind.
  cbv beta in Hind. rewrite (take_ge items (length items)) in Hind by lia.
  destruct Hind as [_ [[Hlen _]|Hone]]; [| |exact E| |exact Hone].
  - clear E st.
    intros idx item embedding st st' Hwf (Hcen & Hshape) Hitem Hemb Estep.
    split; [eapply centroid_step; eauto|]. right.
    rewrite (take_S_r _ _ _ Hitem).
    destruct (cluster_step_outcome _ _ _ _ _ Hwf Estep)
      as [[-> [Hnil|(i & m & Hfm & Hlt)]]|(i & m & c & _ & _ & Hc & ->)].
    + destruct Hshape as [[-> _]|(c & Hc & _)]; [|congruence].
      unfold new_cluster. rewrite Hnil. simpl. eexists. split; reflexivity.
    + exfalso.
      destruct (first_max_is_earlier_vector _ _ _ _ _ _ _ Hcen Hfm)
        as (k & e & Hk & He & ->).
      specialize (Hnear idx k embedding e Hk Hemb He).
      exact (Qlt_not_le _ _ Hlt Hnear).
    + destruct Hshape as [[_ Hnil]|(c0 & Hc0 & Hm0)].
      { rewrite Hnil in Hc. discriminate. }
      rewrite Hc0 in Hc. destruct i as [|i]; [|discriminate]. injection Hc as <-.
      destruct (joined_clusters 0 item embedding c0 st) as (c' & -> & Hm & _).
      rewrite Hc0. simpl. exists c'. split; [reflexivity|]. rewrite Hm, Hm0. reflexivity.
  - split; [constructor|]. left. split; reflexivity.
  - destruct items; [congruence | discriminate].
Qed.

(** With fewer vectors than items, all of one positive length, the loop
    raises [IndexError]. *)
Lemma loop_index_error (d : nat) thr (embeddings : list Embedding)
    (items : list ScoredNewsItem) :
  0 < d ->
  Forall (fun v => length v = d) embeddings ->
  length embeddings < length items ->
  cluster_loop thr embeddings 0 items init_state = Raise IndexError.
Proof.
  intros Hd Hrows.
  assert (Hgen : forall items idx st,
             state_wf st ->
             Forall (fun v => length v = d) (cluster_embeddings st) ->
             idx <= length embeddings ->
             length embeddings < idx + length items ->
             cluster_loop thr embeddings idx items st = Raise IndexError).
  { clear items. induction items as [|item rest IH]; intros idx st Hwf Hcen Hle Hlt;
      simpl in *.
    - lia.
    - destruct (embeddings !! idx) as [embedding|] eqn:He.
      + rewrite (proj2 (py_index_Ok embeddings idx embedding) He). simpl.
        assert (Hw : length embedding = d) by exact (Forall_lookup_1 _ _ _ _ Hrows He).
        rewrite (check_pairwise_ok d embedding st Hd Hw Hcen). simpl.
        destruct (cluster_step_total thr item embedding st Hwf) as (st1 & E1 & Hwf1).
        rewrite E1. simpl. apply lookup_lt_Some in He.
        apply IH; [exact Hwf1 | | lia | lia].
        exact (cluster_step_widths d thr item embedding st st1 Hwf Hw Hcen E1).
      + unfold py_index. rewrite He. reflexivity. }
  intros Hlt. apply Hgen; [apply init_state_wf | constructor | lia | simpl; lia].
Qed.

End ClusterExtremes.

Section ClusterItemsEmbedding.
Context `{PyLib} `{EnrichmentClient}.

(** [cluster_items] on a non-empty input: the batched calls, then the loop. *)
Lemma cluster_items_unfold items similarity_threshold :
  items <> [] ->
  cluster_items items similarity_threshold =
  (embeddings ← embed_batches (text_batches (item_texts items));
   embeddings ← np_array embeddings;
   st ← cluster_loop (default settings_similarity_threshold similarity_threshold)
          embeddings 0 items init_state;
   Ok (clusters st)).
Proof. destruct items; [congruence | reflexivity]. Qed.

Lemma cluster_items_with items similarity_threshold embeddings cs :
  embed_batches (text_batches (item_texts items)) = Ok embeddings ->
  cluster_items items similarity_threshold = Ok cs ->
  items = [] /\ cs = [] \/
  exists st,
    cluster_loop (default settings_similarity_threshold similarity_threshold)
      embeddings 0 items init_state = Ok st /\ clusters st = cs.
Proof.
  intros Hemb E. destruct items as [|item0 rest].
  - left. injection E as <-. split; reflexivity.
  - right. rewrite cluster_items_unfold in E by discriminate.
    rewrite Hemb in E. change (Ok embeddings ≫= ?f) with (f embeddings) in E.
    cbv beta in E.
    apply bind_Ok_inv in E as (rows & Hrows & E).
    apply np_array_Ok_inv in Hrows. subst rows.
    apply bind_Ok_inv in E as (st & Hloop & E). injection E as <-.
    exists st. split; [exact Hloop | reflexivity].
Qed.

Lemma embed_batches_raise (batches : list (list string)) e :
  batches <> [] ->
  (forall batch, embed_texts batch = Raise e) ->
  embed_batches batches = Raise e.
Proof.
  intros Hne Hfail. destruct batches as [|batch rest]; [congruence|].
  simpl. rewrite Hfail. reflexivity.
Qed.

(** X4: when no item's vector is as similar as the threshold to the vector
    of an earlier item, every item opens a cluster of its own: the clusters
    are the singletons of the items, in input order, each item its own
    representative. *)
Theorem no_similarity_reaches_threshold_gives_singletons
    (items : list ScoredNewsItem) (similarity_threshold : option Q)
    (embeddings : list Embedding) (cs : list ClusteredItem) :
  embed_batches (text_batches (item_texts items)) = Ok embeddings ->
  (forall i j ei ej, j < i -> embeddings !! i = Some ei -> embeddings !! j = Some ej ->
     (cosine_similarity ei ej
        < default settings_similarity_threshold similarity_threshold)%Q) ->
  cluster_items items similarity_threshold = Ok cs ->
  map members cs = map (fun item => [item]) items /\
  map representative cs = items.
Proof.
  intros Hemb Hfar E.
  destruct (cluster_items_with _ _ _ _ Hemb E) as [[-> ->]|(st & Hloop & <-)].
  - split; reflexivity.
  - exact (loop_singletons _ _ _ _ Hfar Hloop).
Qed.

(** X5: when every item's vector is at least as similar as the threshold to
    the vector of every earlier item, all items of a non-empty input end in
    one cluster, whose members are the items in input order. *)
Theorem every_similarity_reaches_threshold_gives_one_cluster
    (items : list ScoredNewsItem) (similarity_threshold : option Q)
    (embeddings : list Embedding) (cs : list ClusteredItem) :
  embed_batches (text_batches (item_texts items)) = Ok embeddings ->
  (forall i j ei ej, j < i -> embeddings !! i = Some ei -> embeddings !! j = Some ej ->
     (default settings_similarity_threshold similarity_threshold
        <= cosine_similarity ei ej)%Q) ->
  items <> [] ->
  cluster_items items similarity_threshold = Ok cs ->
  exists c, cs = [c] /\ members c = items.
Proof.
  intros Hemb Hnear Hne E.
  destruct (cluster_items_with _ _ _ _ Hemb E) as [[-> _]|(st & Hloop & <-)].
  - congruence.
  - exact (loop_one_cluster _ _ _ _ Hnear Hne Hloop).
Qed.

Lemma np_array_ragged (rows : list Embedding) i j v w :
  rows !! i = Some v -> rows !! j = Some w -> length v <> length w ->
  np_array rows = Raise ValueError.
Proof.
  intros Hv Hw Hne. unfold np_array. destruct rows as [|row rest]; [discriminate|].
  destruct (forallb (fun r => Nat.eqb (length r) (length row)) rest) eqn:E;
    [|reflexivity].
  exfalso. rewrite forallb_forall in E.
  assert (Hall : forall k r, (row :: rest) !! k = Some r -> length r = length row).
  { intros [|k] r Hr; simpl in Hr; [congruence|].
    apply Nat.eqb_eq, E, list_elem_of_In. eapply list_elem_of_lookup_2. exact Hr. }
  rewrite (Hall _ _ Hv), (Hall _ _ Hw) in Hne. congruence.
Qed.

(** X6: the vectors that the embedding calls return are not checked
    against the items. When they have one positive length but are fewer
    than the items, the loop runs out of vectors and [cluster_items] raises
    [IndexError]; when two of them differ in length, [np.array] raises
    [ValueError] before the loop. No partial clustering is returned. *)
Theorem too_few_embeddings_raise_index_error
    (items : list ScoredNewsItem) (similarity_threshold : option Q)
    (embeddings : list Embedding) :
  embed_batches (text_batches (item_texts items)) = Ok embeddings ->
  (forall d, 0 < d ->
             Forall (fun v => length v = d) embeddings ->
             length embeddings < length items ->
             cluster_items items similarity_threshold = Raise IndexError) /\
  (forall i j v w,
      embeddings !! i = Some v -> embeddings !! j = Some w ->
      length v <> length w ->
      cluster_items items similarity_threshold = Raise ValueError).
Proof.
  intros Hemb. split.
  - intros d Hd Hrows Hlt. rewrite cluster_items_unfold.
    + rewrite Hemb. change (Ok embeddings ≫= ?f) with (f embeddings). cbv beta.
      rewrite (np_array_ok d embeddings Hrows).
      change (Ok embeddings ≫= ?f) with (f embeddings). cbv beta.
      rewrite (loop_index_error d _ _ _ Hd Hrows Hlt). reflexivity.
    + intros ->. simpl in Hlt. lia.
  - intros i j v w Hv Hw Hne. rewrite cluster_items_unfold.
    + rewrite Hemb. change (Ok embeddings ≫= ?f) with (f embeddings). cbv beta.
      rewrite (np_array_ragged embeddings i j v w Hv Hw Hne). reflexivity.
    + intros ->. simpl in Hemb. injection Hemb as <-. discriminate.
Qed.

(** X8: when every embedding call returns one vector per text and all
    vectors have one positive length, [cluster_items] returns a clustering:
    neither [np.array], nor the similarity call, nor an index raises. *)
Theorem clustering_succeeds_with_one_vector_per_text
    (items : list ScoredNewsItem) (similarity_threshold : option Q) (d : nat) :
  0 < d ->
  (forall batch, exists es, embed_texts batch = Ok es /\ length es = length batch /\
                           Forall (fun v => length v = d) es) ->
  exists cs, cluster_items items similarity_threshold = Ok cs.
Proof.
  intros Hd Hembed. destruct items as [|item0 rest]; [by exists []|].
  assert (Hne : item0 :: rest <> []) by discriminate.
  remember (item0 :: rest) as items eqn:Hitems. clear Hitems.
  rewrite cluster_items_unfold by exact Hne.
  destruct (embed_batches_rows d (text_batches (item_texts items)) Hembed)
    as (es & Hes & Hlen & Hrows).
  destruct (cluster_loop_total d
              (default settings_similarity_threshold similarity_threshold)
              es items Hd Hrows 0 init_state init_state_wf) as [st Hst].
  - constructor.
  - rewrite Hlen. unfold text_batches.
    rewrite batches_concat by (unfold batch_size; lia).
    unfold item_texts. rewrite length_map. simpl. lia.
  - rewrite Hes. simpl. rewrite (np_array_ok d es Hrows). simpl.
    rewrite Hst. simpl. eauto.
Qed.

(** X9: an empty input is answered with no cluster and without an embedding
    call, whatever the client does; on a non-empty input an embedding call
    that raises makes [cluster_items] raise the same exception. *)
Theorem embedding_failure_propagates (items : list ScoredNewsItem)
    (similarity_threshold : option Q) (e : exn) :
  (forall batch, embed_texts batch = Raise e) ->
  cluster_items items similarity_threshold =
  match items with [] => Ok [] | _ :: _ => Raise e end.
Proof.
  intros Hfail. destruct items as [|item0 rest]; [reflexivity|].
  rewrite cluster_items_unfold by discriminate.
  rewrite (embed_batches_raise _ e); [reflexivity| |exact Hfail].
  unfold text_batches, range_step, item_texts, batch_size. simpl length.
  intros Hnil. apply (f_equal (@length _)) in Hnil. rewrite !length_map, length_seq in Hnil.
  simpl length in Hnil.
  assert (1 <= (S (length rest) + 100 - 1) / 100).
  { apply Nat.div_le_lower_bound; lia. }
  lia.
Qed.

End ClusterItemsEmbedding.

(** ** The embedding batches *)

(** X7: the texts go to the embedding call in consecutive batches: the
    batches put together are the texts, every batch holds at least one and
    at most 100 texts, and there are ceil(n/100) of them (none for no
    text). *)
Theorem batches_cover_texts_in_hundreds (texts : list string) :
  concat (text_batches texts) = texts /\
  Forall (fun batch => 1 <= length batch <= 100) (text_batches texts) /\
  length (text_batches texts) = (length texts + 99) / 100.
Proof.
  unfold text_batches. split; [apply batches_concat; unfold batch_size; lia|].
  unfold range_step, batch_size. split.
  - rewrite map_map. apply Forall_forall. intros batch Hin.
    apply list_elem_of_In, in_map_iff in Hin as (k & <- & Hk).
    apply in_seq in Hk. unfold slice.
    replace (k * 100 + 100 - k * 100) with 100 by lia.
    rewrite length_take, length_drop.
    pose proof (Nat.div_mod_eq (length texts + 100 - 1) 100) as Hdm.
    pose proof (Nat.mod_upper_bound (length texts + 100 - 1) 100) as Hub.
    lia.
  - rewrite !length_map, length_seq. f_equal. lia.
Qed.


(** ** Classifier and scorer, on every response *)

Section EnrichmentResults.
Context `{PyLib} `{EnrichmentClient}.

Lemma other_is_category : "Other" ∈ CATEGORIES.
Proof. apply (bool_decide_unpack _). reflexivity. Qed.

Lemma checked_category_in (v : json) : checked_category v ∈ CATEGORIES.
Proof.
  destruct v; simpl; try exact other_is_category.
  destruct (bool_decide (s ∈ CATEGORIES)) eqn:E; [|exact other_is_category].
  by apply bool_decide_eq_true in E.
Qed.

Lemma classify_try_fields item prompt_template method c :
  classify_try item prompt_template method = Ok c ->
  c_raw c = item /\ category c ∈ CATEGORIES /\ classification_method c = method.
Proof.
  intros E. unfold classify_try in E.
  apply bind_Ok_inv in E as (response & _ & E).
  apply bind_Ok_inv in E as (cat & _ & E).
  apply bind_Ok_inv in E as (conf & _ & E).
  injection E as <-. simpl. split; [reflexivity|]. split; [|reflexivity].
  apply checked_category_in.
Qed.

(** X10: whatever the model answers and whether or not the call fails, an
    item that the classifier computes (one not taken from the cache) carries
    the fields of the raw item unchanged, a category out of [CATEGORIES]
    (an answer outside the list, or one that is no string, becomes
    "Other"), and the method label of its classifier. *)
Theorem classifier_result_is_well_formed (item : RawNewsItem) (prompt_template : string)
    (cache : option NewsCache) (target_date : date) (fs : FileSystem) :
  let zero_shot := fst (classify_finish cache prompt_template target_date item fs) in
  let few_shot := _classify_single_item_few_shot item prompt_template in
  (c_raw zero_shot = item /\ category zero_shot ∈ CATEGORIES /\
   classification_method zero_shot = "zero-shot") /\
  (c_raw few_shot = item /\ category few_shot ∈ CATEGORIES /\
   classification_method few_shot = "few-shot").
Proof.
  intros zero_shot few_shot. subst zero_shot few_shot.
  unfold classify_finish, _classify_single_item_few_shot. split.
  - destruct (classify_try item prompt_template "zero-shot") as [c|e] eqn:E; simpl.
    + exact (classify_try_fields _ _ _ _ E).
    + split; [reflexivity|]. split; [exact other_is_category | reflexivity].
  - destruct (classify_try item prompt_template "few-shot") as [c|e] eqn:E; simpl.
    + exact (classify_try_fields _ _ _ _ E).
    + split; [reflexivity|]. split; [exact other_is_category | reflexivity].
Qed.

(** X11: when the enrichment call raises, or its answer is no JSON object,
    or the confidence in it cannot be made a float, both classifiers return
    the item with category "Other" and confidence 0.0; the zero-shot
    classifier then writes nothing to the cache, so the failure is not
    remembered. *)
Theorem classifier_falls_back_on_failure (item : RawNewsItem) (prompt_template : string)
    (cache : option NewsCache) (target_date : date) (fs : FileSystem) (e : exn) :
  call_llm_json (classify_prompt item prompt_template) ≫= reported_confidence = Raise e ->
  classify_start cache target_date item fs = None ->
  _classify_single_item item prompt_template cache target_date fs
    = (classify_fallback item "zero-shot", fs) /\
  _classify_single_item_few_shot item prompt_template = classify_fallback item "few-shot" /\
  classify_start cache target_date item
    (snd (_classify_single_item item prompt_template cache target_date fs)) = None /\
  forall method, category (classify_fallback item method) = "Other" /\
                 (classification_confidence (classify_fallback item method) == 0)%Q.
Proof.
  intros Efail Hmiss.
  pose proof (classify_try_confidence item prompt_template "zero-shot") as Hz.
  pose proof (classify_try_confidence item prompt_template "few-shot") as Hf.
  rewrite Efail in Hz, Hf.
  assert (E : _classify_single_item item prompt_template cache target_date fs
              = (classify_fallback item "zero-shot", fs)).
  { unfold _classify_single_item, classify_finish. rewrite Hmiss, Hz. reflexivity. }
  split; [exact E|]. split.
  - unfold _classify_single_item_few_shot. rewrite Hf. reflexivity.
  - rewrite E. simpl. split; [exact Hmiss|]. intros method. split; reflexivity.
Qed.

Lemma score_try_fields item prompt_template s :
  score_try item prompt_template = Ok s ->
  s_base s = item /\ (1 <= impact_score s <= 5)%Z.
Proof.
  intros E. unfold score_try in E.
  apply bind_Ok_inv in E as (response & _ & E).
  apply bind_Ok_inv in E as (raw_score & _ & E).
  apply bind_Ok_inv in E as (dims & _ & E).
  apply bind_Ok_inv in E as (reason & _ & E).
  unfold make_scored in E.
  destruct (validate_str reason); [|discriminate].
  destruct (validate_list_str _); [|discriminate].
  injection E as <-. simpl. split; [reflexivity | lia].
Qed.

(** X12: whatever the model answers and whether or not the call fails, an
    item that the scorer computes (one not taken from the cache) carries the
    classified item unchanged and an impact score in 1..5; without a cache
    this holds for every result of [_score_single_item]. *)
Theorem scorer_result_is_well_formed (item : ClassifiedNewsItem) (prompt_template : string)
    (cache : option NewsCache) (target_date : date) (fs : FileSystem) :
  let computed := fst (score_finish cache prompt_template target_date item fs) in
  let uncached := fst (_score_single_item item prompt_template None target_date fs) in
  (s_base computed = item /\ (1 <= impact_score computed <= 5)%Z) /\
  (s_base uncached = item /\ (1 <= impact_score uncached <= 5)%Z).
Proof.
  assert (Hfin : forall cache',
    let r := fst (score_finish cache' prompt_template target_date item fs) in
    s_base r = item /\ (1 <= impact_score r <= 5)%Z).
  { intros cache'. unfold score_finish.
    destruct (score_try item prompt_template) as [s|e] eqn:E; simpl.
    - exact (score_try_fields _ _ _ E).
    - split; [reflexivity | lia]. }
  intros computed uncached. subst computed uncached. split; [apply Hfin|].
  unfold _score_single_item. simpl. apply Hfin.
Qed.

(** X13: what the answer lacks is filled in: for a JSON object without the
    keys "impact_score" and "impact_reason", whose "impact_dimensions" are
    missing or are no list, the scorer returns score 3, an empty reason and
    no dimensions: dimensions that are no list are replaced by the empty
    list, not rejected. *)
Theorem scorer_defaults_for_missing_fields (item : ClassifiedNewsItem)
    (prompt_template : string) (d : list (string * json)) :
  call_llm_json (score_prompt item prompt_template) = Ok (JDict d) ->
  dict_lookup "impact_score" d = None ->
  dict_lookup "impact_reason" d = None ->
  (forall v, dict_lookup "impact_dimensions" d = Some v -> forall l, v <> JList l) ->
  score_try item prompt_template =
    Ok {| s_base := item; impact_score := 3;
          impact_reason := EmptyString; impact_dimensions := [] |}.
Proof.
  intros Ecall Hscore Hreason Hdims.
  rewrite (score_try_dict item prompt_template d 3 Ecall)
    by (rewrite Hscore; reflexivity).
  rewrite Hreason. simpl.
  destruct (dict_lookup "impact_dimensions" d) as [v|] eqn:Ev; simpl.
  - specialize (Hdims v eq_refl). destruct v; try reflexivity.
    exfalso. by eapply Hdims.
  - reflexivity.
Qed.

End EnrichmentResults.


(** ** A computed item is served from the cache afterwards *)

(** X14: once the zero-shot classifier has classified an item with a
    working call and a cache whose directory can be written, a later run for
    the same item and date returns the same item from the cache and leaves
    the files as they are, whatever the client or the prompt then is: the
    enrichment call is not repeated. *)
Theorem classified_item_is_served_from_cache (lib : PyLib)
    (first later : EnrichmentClient) (item : RawNewsItem)
    (prompt_template prompt_template' : string) (cache : NewsCache)
    (target_date : date) (fs : FileSystem) (c : ClassifiedNewsItem) :
  writable fs = true ->
  reparses item ->
  @classify_try lib first item prompt_template "zero-shot" = Ok c ->
  @classify_start lib (Some cache) target_date item fs = None ->
  let run1 := @_classify_single_item lib first item prompt_template
                (Some cache) target_date fs in
  fst run1 = c /\
  @_classify_single_item lib later item prompt_template' (Some cache) target_date
    (snd run1) = (c, snd run1).
Proof.
  intros Hw Hre Etry Hmiss run1. subst run1.
  destruct (@classify_try_fields lib first _ _ _ _ Etry) as (Hraw & _ & _).
  assert (E1 : @_classify_single_item lib first item prompt_template
                 (Some cache) target_date fs
               = (c, save_classified cache c target_date fs)).
  { unfold _classify_single_item. rewrite Hmiss.
    unfold classify_finish. rewrite Etry. reflexivity. }
  rewrite E1. simpl. split; [reflexivity|].
  unfold _classify_single_item, classify_start.
  replace (item_id item) with (item_id (c_raw c)) by (rewrite Hraw; reflexivity).
  assert (Hre' : reparses (c_raw c)) by (rewrite Hraw; exact Hre).
  unfold get_classified, save_classified, write_json. rewrite Hw. simpl.
  rewrite lookup_insert_eq. simpl.
  pose proof (validate_classified_dump c [] Hre') as E. rewrite app_nil_r in E.
  rewrite E. reflexivity.
Qed.

(** X15: the same for the scorer: an item scored with a working call and a
    writable cache is returned from the cache by a later run for the same
    item and date, without a call and without a write. *)
Theorem scored_item_is_served_from_cache (lib : PyLib)
    (first later : EnrichmentClient) (item : ClassifiedNewsItem)
    (prompt_template prompt_template' : string) (cache : NewsCache)
    (target_date : date) (fs : FileSystem) (s : ScoredNewsItem) :
  writable fs = true ->
  reparses (c_raw item) ->
  @score_try lib first item prompt_template = Ok s ->
  @score_start lib (Some cache) target_date item fs = None ->
  let run1 := @_score_single_item lib first item prompt_template
                (Some cache) target_date fs in
  fst run1 = s /\
  @_score_single_item lib later item prompt_template' (Some cache) target_date
    (snd run1) = (s, snd run1).
Proof.
  intros Hw Hre Etry Hmiss run1. subst run1.
  destruct (@score_try_fields lib first _ _ _ Etry) as (Hbase & _).
  assert (E1 : @_score_single_item lib first item prompt_template
                 (Some cache) target_date fs
               = (s, save_scored cache s target_date fs)).
  { unfold _score_single_item. rewrite Hmiss.
    unfold score_finish. rewrite Etry. reflexivity. }
  rewrite E1. simpl. split; [reflexivity|].
  unfold _score_single_item, score_start.
  replace (item_id (c_raw item)) with (item_id (s_raw s))
    by (unfold s_raw; rewrite Hbase; reflexivity).
  assert (Hre' : reparses (s_raw s)) by (unfold s_raw; rewrite Hbase; exact Hre).
  unfold get_scored, save_scored, write_json. rewrite Hw. simpl.
  rewrite lookup_insert_eq. simpl.
  rewrite (validate_scored_dump s Hre'). reflexivity.
Qed.


(** ** The semaphore *)

Section SemaphoreFacts.
Context {A B St : Type}.
Variable start : A -> St -> option B.
Variable finish : A -> St -> B * St.

Lemma in_flight_cons (t : task_state B) (l : list (task_state B)) (s : St) :
  in_flight {| tasks := t :: l; shared := s |} =
  (if is_in_flight t then 1 else 0) + in_flight {| tasks := l; shared := s |}.
Proof.
  unfold in_flight. cbn [tasks]. destruct t; cbn [is_in_flight].
  - rewrite filter_cons_False by (simpl; discriminate). reflexivity.
  - rewrite filter_cons_True by reflexivity. reflexivity.
  - rewrite filter_cons_False by (simpl; discriminate). reflexivity.
Qed.

Lemma in_flight_shared (l : list (task_state B)) (s s' : St) :
  in_flight {| tasks := l; shared := s |} = in_flight {| tasks := l; shared := s' |}.
Proof. reflexivity. Qed.

Lemma in_flight_insert (l : list (task_state B)) (s s' : St) :
  forall i t t',
    l !! i = Some t ->
    in_flight {| tasks := <[i := t']> l; shared := s' |} + (if is_in_flight t then 1 else 0)
    = in_flight {| tasks := l; shared := s |} + (if is_in_flight t' then 1 else 0).
Proof.
  induction l as [|u l IH]; intros i t t' Hi; [discriminate|].
  destruct i as [|i]; simpl in *.
  - injection Hi as ->. rewrite !in_flight_cons.
    rewrite (in_flight_shared l s' s). lia.
  - rewrite !in_flight_cons. specialize (IH i t t' Hi). lia.
Qed.

Lemma resume_in_flight cap inputs (p : pool B St) i :
  in_flight p <= cap -> in_flight (resume start finish cap inputs p i) <= cap.
Proof.
  intros Hle. unfold resume.
  destruct (inputs !! i) as [x|]; [|exact Hle].
  destruct (tasks p !! i) as [[| |r]|] eqn:Ht; try exact Hle.
  - destruct (Nat.ltb (in_flight p) cap) eqn:Hlt; [|exact Hle].
    apply Nat.ltb_lt in Hlt. destruct p as [l s]. simpl in *.
    destruct (start x s) as [r|].
    + pose proof (in_flight_insert l s s i Waiting (Done r) Ht) as E. simpl in E. lia.
    + pose proof (in_flight_insert l s s i Waiting InFlight Ht) as E. simpl in E. lia.
  - destruct p as [l s]. simpl in *. destruct (finish x s) as [r s'].
    pose proof (in_flight_insert l s s' i InFlight (Done r) Ht) as E. simpl in E. lia.
Qed.

Lemma in_flight_init (inputs : list A) (s : St) :
  in_flight (init_pool (B:=B) inputs s) = 0.
Proof. exact (in_flight_settled [] inputs s). Qed.

(** X16: the semaphore holds: under every schedule, at every moment of a
    stage, at most [max_concurrent] tasks are between taking the semaphore
    and the return of their enrichment call. *)
Theorem semaphore_bounds_calls_in_flight (max_concurrent : nat) (inputs : list A)
    (schedule : list nat) (s : St) :
  in_flight (run_schedule start finish max_concurrent inputs schedule (init_pool inputs s))
    <= max_concurrent.
Proof.
  assert (Hgen : forall p, in_flight p <= max_concurrent ->
            in_flight (run_schedule start finish max_concurrent inputs schedule p)
              <= max_concurrent).
  { unfold run_schedule. induction schedule as [|i schedule IH]; intros p Hp; simpl.
    - exact Hp.
    - apply IH. by apply resume_in_flight. }
  apply Hgen. rewrite in_flight_init. lia.
Qed.

(** A task that has returned is not run again. *)
Lemma resume_done cap inputs (p : pool B St) i j r :
  tasks p !! j = Some (Done r) ->
  tasks (resume start finish cap inputs p i) !! j = Some (Done r).
Proof.
  intros Hj. unfold resume.
  destruct (inputs !! i) as [x|]; [|exact Hj].
  destruct (tasks p !! i) as [[| |r0]|] eqn:Ht; try exact Hj.
  - destruct (Nat.ltb (in_flight p) cap); [|exact Hj].
    assert (i <> j) by congruence.
    destruct (start x (shared p)); simpl; by rewrite list_lookup_insert_ne.
  - assert (i <> j) by congruence.
    destruct (finish x (shared p)); simpl. by rewrite list_lookup_insert_ne.
Qed.

Lemma resume_zero_init inputs (s : St) i :
  resume start finish 0 inputs (init_pool inputs s) i = init_pool inputs s.
Proof.
  unfold resume. destruct (inputs !! i) as [x|] eqn:Hx; [|reflexivity].
  simpl. rewrite list_lookup_fmap, Hx. reflexivity.
Qed.

(** With a cap of zero no task ever takes the semaphore. *)
Lemma gather_zero inputs schedule (s : St) :
  inputs <> [] ->
  gather start finish 0 inputs schedule s = None.
Proof.
  intros Hne. unfold gather, run_schedule.
  assert (E : fold_left (resume start finish 0 inputs) schedule (init_pool inputs s)
              = init_pool inputs s).
  { induction schedule as [|i schedule IH]; simpl; [reflexivity|].
    rewrite resume_zero_init. exact IH. }
  rewrite E. destruct inputs as [|x rest]; [congruence|]. reflexivity.
Qed.

(** *** No deadlock *)

Lemma work_left_insert (l : list (task_state B)) (s s' : St) :
  forall i t t',
    l !! i = Some t ->
    work_left {| tasks := <[i := t']> l; shared := s' |} + steps_left t
    = work_left {| tasks := l; shared := s |} + steps_left t'.
Proof.
  unfold work_left. simpl.
  induction l as [|u l IH]; intros i t t' Hi; [discriminate|].
  destruct i as [|i]; simpl in *.
  - injection Hi as ->. lia.
  - specialize (IH i t t' Hi). lia.
Qed.

Lemma work_left_zero (l : list (task_state B)) (s : St) :
  work_left {| tasks := l; shared := s |} = 0 ->
  exists results, mapM task_result l = Some results.
Proof.
  unfold work_left. simpl. induction l as [|t l IH]; simpl; intros E.
  - by exists [].
  - destruct t as [| |r]; simpl in E; try lia.
    destruct (IH E) as [rs ->]. by exists (r :: rs).
Qed.

(** A pool with work left has a task that is running, or none is running
    and one is waiting. *)
Lemma pending_task (l : list (task_state B)) (s : St) :
  0 < work_left {| tasks := l; shared := s |} ->
  (exists i, l !! i = Some InFlight) \/
  (in_flight {| tasks := l; shared := s |} = 0 /\ exists i, l !! i = Some Waiting).
Proof.
  unfold work_left. simpl. induction l as [|t l IH]; simpl; intros Hpos; [lia|].
  destruct t as [| |r].
  - destruct (Nat.eq_dec (sum_list (map steps_left l)) 0) as [Hz|Hnz].
    + right. rewrite in_flight_cons. simpl. split; [|by exists 0].
      clear IH Hpos. induction l as [|u l IHl]; [reflexivity|].
      simpl in Hz. destruct u; simpl in Hz; try lia.
      rewrite in_flight_cons. simpl. apply IHl. exact Hz.
    + destruct IH as [[i Hi]|[Hz [i Hi]]]; [lia| |].
      * left. by exists (S i).
      * right. rewrite in_flight_cons. simpl. split; [exact Hz | by exists 0].
  - left. by exists 0.
  - simpl in Hpos. destruct (IH Hpos) as [[i Hi]|[Hz [i Hi]]].
    + left. by exists (S i).
    + right. rewrite in_flight_cons. simpl. split; [exact Hz | by exists (S i)].
Qed.

Lemma resume_progress cap inputs (p : pool B St) :
  1 <= cap ->
  length (tasks p) = length inputs ->
  0 < work_left p ->
  exists i, work_left (resume start finish cap inputs p i) < work_left p /\
            length (tasks (resume start finish cap inputs p i)) = length inputs.
Proof.
  intros Hcap Hlen Hpos. destruct p as [l s]. simpl in Hlen.
  destruct (pending_task l s Hpos) as [[i Hi]|[Hz [i Hi]]].
  - exists i. unfold resume. simpl.
    destruct (lookup_lt_is_Some_2 inputs i) as [x Hx].
    { rewrite <- Hlen. eapply lookup_lt_Some; eauto. }
    rewrite Hx, Hi. destruct (finish x s) as [r s'].
    pose proof (work_left_insert l s s' i InFlight (Done r) Hi) as E. simpl in *.
    rewrite length_insert. split; [lia | exact Hlen].
  - exists i. unfold resume. simpl.
    destruct (lookup_lt_is_Some_2 inputs i) as [x Hx].
    { rewrite <- Hlen. eapply lookup_lt_Some; eauto. }
    rewrite Hx, Hi, Hz.
    replace (Nat.ltb 0 cap) with true by (symmetry; apply Nat.ltb_lt; lia).
    destruct (start x s) as [r|]; simpl; rewrite length_insert.
    + pose proof (work_left_insert l s s i Waiting (Done r) Hi) as E. simpl in E.
      split; [lia | exact Hlen].
    + pose proof (work_left_insert l s s i Waiting InFlight Hi) as E. simpl in E.
      split; [lia | exact Hlen].
Qed.

Lemma resume_length cap inputs (p : pool B St) i :
  length (tasks (resume start finish cap inputs p i)) = length (tasks p).
Proof.
  unfold resume.
  destruct (inputs !! i) as [x|]; [|reflexivity].
  destruct (tasks p !! i) as [[| |r]|]; try reflexivity.
  - destruct (Nat.ltb (in_flight p) cap); [|reflexivity].
    destruct (start x (shared p)); simpl; by rewrite length_insert.
  - destruct (finish x (shared p)). simpl. by rewrite length_insert.
Qed.

Lemma pool_can_finish cap inputs :
  1 <= cap ->
  forall n (p : pool B St),
    work_left p <= n ->
    length (tasks p) = length inputs ->
    exists rest results,
      mapM task_result (tasks (run_schedule start finish cap inputs rest p))
      = Some results.
Proof.
  intros Hcap. induction n as [|n IH]; intros p Hn Hlen.
  - exists []. simpl. destruct p as [l s]. apply (work_left_zero l s). lia.
  - destruct (Nat.eq_dec (work_left p) 0) as [Hz|Hnz].
    + exists []. simpl. destruct p as [l s]. by apply (work_left_zero l s).
    + destruct (resume_progress cap inputs p Hcap Hlen) as (i & Hlt & Hlen'); [lia|].
      destruct (IH (resume start finish cap inputs p i)) as (rest & results & E);
        [lia | exact Hlen' |].
      exists (i :: rest), results. exact E.
Qed.

(** X18: with a cap of at least one the semaphore cannot block a stage for
    good: whatever the event loop has done so far, there is a way on that
    lets every task return, so the stage returns. *)
Theorem stage_can_always_complete (max_concurrent : nat) (inputs : list A)
    (schedule : list nat) (s : St) :
  1 <= max_concurrent ->
  exists rest out,
    gather start finish max_concurrent inputs (schedule ++ rest) s = Some out.
Proof.
  intros Hcap.
  set (p := run_schedule start finish max_concurrent inputs schedule (init_pool inputs s)).
  assert (Hlen : length (tasks p) = length inputs).
  { subst p. unfold run_schedule.
    assert (Hgen : forall q : pool B St, length (tasks q) = length inputs ->
              length (tasks (fold_left (resume start finish max_concurrent inputs)
                                       schedule q)) = length inputs).
    { induction schedule as [|i schedule IH]; intros q Hq; simpl; [exact Hq|].
      apply IH. rewrite resume_length. exact Hq. }
    apply Hgen. simpl. apply length_map. }
  destruct (pool_can_finish max_concurrent inputs Hcap (work_left p) p (le_n _) Hlen)
    as (rest & results & E).
  exists rest. unfold gather, run_schedule in *. rewrite fold_left_app.
  fold p. rewrite E. simpl. eauto.
Qed.

End SemaphoreFacts.

(** *** No task calls twice *)

Section CallFacts.
Context {A B St : Type}.
Variable start : A -> St -> option B.
Variable finish : A -> St -> B * St.

Lemma calls_not_done cap (inputs : list A) schedule :
  forall (p : pool B St),
    NoDup (calls_completed start finish cap inputs schedule p) /\
    forall i r, i ∈ calls_completed start finish cap inputs schedule p ->
                tasks p !! i <> Some (Done r).
Proof.
  induction schedule as [|i rest IH]; intros p; simpl.
  - split; [constructor|]. intros j r Hj. by apply elem_of_nil in Hj.
  - destruct (IH (resume start finish cap inputs p i)) as [Hnd Hdone].
    assert (Hlater : forall j r,
              j ∈ calls_completed start finish cap inputs rest
                    (resume start finish cap inputs p i) ->
              tasks p !! j <> Some (Done r)).
    { intros j r Hj Hp. eapply Hdone; [exact Hj|].
      apply resume_done. exact Hp. }
    destruct (inputs !! i) as [x|] eqn:Hx; [|split; [exact Hnd | exact Hlater]].
    destruct (tasks p !! i) as [[| |r0]|] eqn:Ht;
      try (split; [exact Hnd | exact Hlater]).
    simpl. split.
    + apply NoDup_cons. split; [|exact Hnd].
      intros Hin. unfold resume in Hdone. rewrite Hx, Ht in Hdone.
      destruct (finish x (shared p)) as [r s'] eqn:Ef. simpl in Hdone.
      apply (Hdone i r); [unfold resume in Hin; rewrite Hx, Ht, Ef in Hin; exact Hin|].
      apply list_lookup_insert_eq. eapply lookup_lt_Some; eauto.
    + intros j r Hj. apply elem_of_cons in Hj as [->|Hj]; [congruence | by apply Hlater].
Qed.

Lemma calls_are_tasks cap (inputs : list A) schedule :
  forall (p : pool B St) i,
    i ∈ calls_completed start finish cap inputs schedule p -> i < length inputs.
Proof.
  induction schedule as [|j rest IH]; intros p i Hi; simpl in Hi.
  - by apply elem_of_nil in Hi.
  - apply elem_of_app in Hi as [Hi|Hi]; [|by eapply IH].
    destruct (inputs !! j) as [x|] eqn:Hx; [|by apply elem_of_nil in Hi].
    destruct (tasks p !! j) as [[| |r0]|]; try (by apply elem_of_nil in Hi).
    apply list_elem_of_singleton in Hi. subst i. eapply lookup_lt_Some; eauto.
Qed.

Lemma done_was_called cap (inputs : list A) schedule :
  (forall x s, start x s = None) ->
  forall (p : pool B St) i r,
    tasks (run_schedule start finish cap inputs schedule p) !! i = Some (Done r) ->
    tasks p !! i = Some (Done r) \/
    i ∈ calls_completed start finish cap inputs schedule p.
Proof.
  intros Hmiss. induction schedule as [|j rest IH]; intros p i r Hi; simpl in *.
  - by left.
  - destruct (IH _ _ _ Hi) as [Hdone|Hin]; [|right; apply elem_of_app; by right].
    unfold resume in Hdone.
    destruct (inputs !! j) as [x|] eqn:Hx; [|by left].
    destruct (tasks p !! j) as [[| |r0]|] eqn:Ht; try (by left).
    + destruct (Nat.ltb (in_flight p) cap); [|by left].
      rewrite Hmiss in Hdone. simpl in Hdone.
      destruct (decide (j = i)) as [->|Hne].
      * rewrite list_lookup_insert_eq in Hdone by (eapply lookup_lt_Some; eauto).
        discriminate.
      * rewrite list_lookup_insert_ne in Hdone by exact Hne. by left.
    + destruct (finish x (shared p)) as [r1 s']. simpl in Hdone.
      destruct (decide (j = i)) as [->|Hne].
      * right. apply elem_of_app. left. apply list_elem_of_here.
      * rewrite list_lookup_insert_ne in Hdone by exact Hne. by left.
Qed.

(** X17: under every schedule no task's enrichment call returns twice: a
    task that has returned is never run again, and a running task ends its
    call once. In a stage without a cache that returns, the call of every
    input has been made, so each input is enriched by exactly one call. *)
Theorem every_task_calls_at_most_once (max_concurrent : nat) (inputs : list A)
    (schedule : list nat) (s : St) :
  NoDup (calls_completed start finish max_concurrent inputs schedule
           (init_pool inputs s)) /\
  ((forall x s0, start x s0 = None) ->
   forall out,
     gather start finish max_concurrent inputs schedule s = Some out ->
     forall i, i ∈ calls_completed start finish max_concurrent inputs schedule
                    (init_pool inputs s)
               <-> i < length inputs).
Proof.
  split; [exact (proj1 (calls_not_done _ _ _ _))|].
  intros Hmiss out E i. split; [apply calls_are_tasks|].
  intros Hi. unfold gather in E.
  set (p := run_schedule start finish max_concurrent inputs schedule (init_pool inputs s))
    in *.
  destruct (mapM task_result (tasks p)) as [results|] eqn:Em; [|discriminate].
  apply mapM_Some in Em.
  assert (Hlen : length (tasks p) = length inputs).
  { destruct (run_schedule_ok start finish max_concurrent inputs schedule
                (init_pool inputs s) (init_pool_ok start finish inputs s)) as [Hl _].
    exact Hl. }
  destruct (lookup_lt_is_Some_2 (tasks p) i) as [t Ht]; [lia|].
  destruct (Forall2_lookup_l _ _ _ _ _ Em Ht) as (r & _ & Htr).
  destruct t as [| |r0]; simpl in Htr; try discriminate.
  destruct (done_was_called max_concurrent inputs schedule Hmiss _ _ _ Ht) as [Hinit|Hin];
    [|exact Hin].
  simpl in Hinit. rewrite list_lookup_fmap in Hinit.
  destruct (inputs !! i); discriminate.
Qed.

End CallFacts.


(** ** Each result is the run of its input in the state that its task found *)

Section GatherOrder.
Context {A B St : Type}.
Variable start : A -> St -> option B.
Variable finish : A -> St -> B * St.






End GatherOrder.

(** ** The concurrent stages: results in input order *)

Section StageOrder.
Context `{PyLib} `{EnrichmentClient}.




End StageOrder.

(** ** The stages at their edges *)

Section StageEdges.
Context `{PyLib} `{EnrichmentClient}.

Lemma gather_nil {A B St} (start : A -> St -> option B) (finish : A -> St -> B * St)
    cap schedule (s : St) :
  gather start finish cap [] schedule s = Some ([], s).
Proof.
  unfold gather, run_schedule.
  assert (E : fold_left (resume start finish cap []) schedule
                (init_pool (A:=A) (B:=B) [] s)
              = init_pool (A:=A) (B:=B) [] s).
  { induction schedule as [|i schedule IH]; simpl; [reflexivity|]. exact IH. }
  rewrite E. reflexivity.
Qed.

Lemma gather_zero_cases {A B St} (start : A -> St -> option B)
    (finish : A -> St -> B * St) inputs schedule (s : St) :
  gather start finish 0 inputs schedule s =
  match inputs with [] => Some ([], s) | _ :: _ => None end.
Proof.
  destruct inputs as [|x rest]; [apply gather_nil | by apply gather_zero].
Qed.

(** X19: [max_concurrent = 0] is accepted and makes a semaphore that no
    task can take: under every schedule a stage with at least one input
    never returns, while a stage without input returns the empty list (the
    prompt is loaded first in both cases). *)
Theorem zero_concurrency_never_returns (raw_items : list RawNewsItem)
    (classified_items : list ClassifiedNewsItem) (cluster_list : list ClusteredItem)
    (target_date : date) (cache : option NewsCache) (schedule : list nat)
    (fs : FileSystem) :
  classify_zero_shot_async raw_items target_date cache 0 schedule fs =
    (load_prompt "classifier_prompt_zero_shot" ≫= fun _ =>
     Ok (match raw_items with [] => Some ([], fs) | _ :: _ => None end)) /\
  classify_few_shot_async raw_items 0 schedule =
    (load_prompt "classifier_prompt_few_shot" ≫= fun _ =>
     Ok (match raw_items with [] => Some [] | _ :: _ => None end)) /\
  score_impact_async classified_items target_date cache 0 schedule fs =
    (load_prompt "impact_prompt" ≫= fun _ =>
     Ok (match classified_items with [] => Some ([], fs) | _ :: _ => None end)) /\
  summarize_clusters_async cluster_list 0 schedule =
    (load_prompt "summary_prompt" ≫= fun _ =>
     Ok (match cluster_list with [] => Some [] | _ :: _ => None end)).
Proof.
  unfold classify_zero_shot_async, classify_few_shot_async, score_impact_async,
    summarize_clusters_async.
  split; [|split; [|split]].
  - destruct (load_prompt _); simpl; [|reflexivity]. by rewrite gather_zero_cases.
  - destruct (load_prompt _); simpl; [|reflexivity]. rewrite gather_zero_cases.
    by destruct raw_items.
  - destruct (load_prompt _); simpl; [|reflexivity]. by rewrite gather_zero_cases.
  - destruct (load_prompt _); simpl; [|reflexivity]. rewrite gather_zero_cases.
    by destruct cluster_list.
Qed.

(** X20: each stage reads its prompt file before it looks at any item or at
    the cache: when the file is missing the stage raises
    [FileNotFoundError], for every input (the empty one and one that the
    cache could answer alike), cap and schedule, and writes nothing. *)
Theorem missing_prompt_file_stops_the_stage (raw_items : list RawNewsItem)
    (classified_items : list ClassifiedNewsItem) (cluster_list : list ClusteredItem)
    (target_date : date) (cache : option NewsCache) (max_concurrent : nat)
    (schedule : list nat) (fs : FileSystem) :
  (prompts_dir !! "classifier_prompt_zero_shot.txt" = None ->
   classify_zero_shot_async raw_items target_date cache max_concurrent schedule fs
     = Raise FileNotFoundError) /\
  (prompts_dir !! "classifier_prompt_few_shot.txt" = None ->
   classify_few_shot_async raw_items max_concurrent schedule = Raise FileNotFoundError) /\
  (prompts_dir !! "impact_prompt.txt" = None ->
   score_impact_async classified_items target_date cache max_concurrent schedule fs
     = Raise FileNotFoundError) /\
  (prompts_dir !! "summary_prompt.txt" = None ->
   summarize_clusters_async cluster_list max_concurrent schedule
     = Raise FileNotFoundError).
Proof.
  unfold classify_zero_shot_async, classify_few_shot_async, score_impact_async,
    summarize_clusters_async, load_prompt.
  repeat split; intros E;
    match goal with
    | |- context [prompts_dir !! (?a +:+ ?b)] =>
        let v := eval vm_compute in (a +:+ b) in change (a +:+ b) with v
    end; rewrite E; reflexivity.
Qed.

End StageEdges.


(** ** The summarizer's other fields *)

Section SummaryFields.
Context `{PyLib} `{EnrichmentClient}.

Lemma string_app_empty (s : string) : s +:+ EmptyString = s.
Proof.
  induction s as [|a s IH]; [reflexivity|].
  change (String a (s +:+ EmptyString) = String a s). f_equal. exact IH.
Qed.

(** X21: on the success path and on the failure path alike, the summary of
    a cluster takes its cluster id from the cluster and its category and
    impact score from the representative, and its impact reason begins with
    the representative's (the model's notes can only be appended). *)
Theorem summary_inherits_from_representative (cluster : ClusteredItem)
    (prompt_template : string) :
  let s := _summarize_single_cluster cluster prompt_template in
  sc_cluster_id s = cluster_id cluster /\
  sc_category s = category (s_base (representative cluster)) /\
  sc_impact_score s = impact_score (representative cluster) /\
  exists notes, sc_impact_reason s = impact_reason (representative cluster) +:+ notes.
Proof.
  intros s. subst s. unfold _summarize_single_cluster.
  destruct (summarize_try cluster prompt_template) as [s|e] eqn:E.
  - unfold summarize_try in E.
    apply bind_Ok_inv in E as (response & _ & E).
    apply bind_Ok_inv in E as (title_v & _ & E).
    apply bind_Ok_inv in E as (summary_v & _ & E).
    apply bind_Ok_inv in E as (notes & _ & E).
    destruct (collect_sources cluster) as [srcs ids].
    destruct (validate_str title_v); [|discriminate].
    destruct (validate_str summary_v); [|discriminate].
    injection E as <-. simpl. repeat split.
    destruct (truthy notes).
    + eexists. reflexivity.
    + exists EmptyString. by rewrite string_app_empty.
  - unfold summarize_fallback. destruct (collect_sources cluster) as [srcs ids]. simpl.
    repeat split. exists EmptyString. by rewrite string_app_empty.
Qed.

(** X22: when the enrichment call of a cluster raises, the summary is the
    fallback: the representative's title and impact reason, and a summary
    text that reports the error; nothing is raised to the caller. *)
Theorem summarizer_falls_back_on_failure (cluster : ClusteredItem)
    (prompt_template : string) (e : exn) :
  call_llm_json (summarize_prompt cluster prompt_template) = Raise e ->
  let s := _summarize_single_cluster cluster prompt_template in
  s = summarize_fallback cluster e /\
  sc_title s = title (s_raw (representative cluster)) /\
  sc_summary s = "Error generating summary: " +:+ exn_str e /\
  sc_impact_reason s = impact_reason (representative cluster).
Proof.
  intros Ecall s. subst s. unfold _summarize_single_cluster, summarize_try.
  rewrite Ecall. simpl. unfold summarize_fallback.
  destruct (collect_sources cluster) as [srcs ids]. simpl. repeat split.
Qed.

End SummaryFields.

(** ** The cache under writes to other keys and under failing writes *)

Section CacheFrame.
Context `{PyLib}.

(** X23: a get depends on the file of its own key only: any sequence of
    saves that open other files leaves its answer, a hit or a miss, as it
    was. *)
Theorem cache_get_unchanged_by_other_saves (cache : NewsCache) (id : string)
    (d : date) (fs : FileSystem) (ops : list cache_op) :
  (Forall (fun op => op_file cache op <> key_file cache id "classify" d) ops ->
   get_classified cache id d (fold_left (run_op cache) ops fs)
     = get_classified cache id d fs) /\
  (Forall (fun op => op_file cache op <> key_file cache id "score" d) ops ->
   get_scored cache id d (fold_left (run_op cache) ops fs)
     = get_scored cache id d fs).
Proof.
  split; intros Hall.
  - unfold get_classified. fold (key_file cache id "classify" d).
    rewrite run_ops_other_file by exact Hall. reflexivity.
  - unfold get_scored. fold (key_file cache id "score" d).
    rewrite run_ops_other_file by exact Hall. reflexivity.
Qed.

(** X24: a save whose write fails is dropped without an error: on a cache
    directory that cannot be written, any sequence of saves leaves the files
    as they are, so every get answers as before. *)
Theorem failed_saves_change_nothing (cache : NewsCache) (fs : FileSystem)
    (ops : list cache_op) :
  writable fs = false ->
  fold_left (run_op cache) ops fs = fs.
Proof.
  intros Hw. induction ops as [|op ops IH]; simpl; [reflexivity|].
  assert (E : run_op cache fs op = fs).
  { destruct op; simpl; unfold save_classified, save_scored, write_json;
      rewrite Hw; reflexivity. }
  rewrite E. exact IH.
Qed.

End CacheFrame.


(** ** The report: order and grouping *)

Section ReportFacts.

Lemma insert_by_impact_perm x l : insert_by_impact x l ≡ₚ x :: l.
Proof.
  induction l as [|y rest IH]; simpl; [reflexivity|].
  destruct (sc_impact_score x <? sc_impact_score y)%Z; [|reflexivity].
  rewrite IH. apply Permutation_swap.
Qed.

Lemma sorted_by_impact_perm clusters : sorted_by_impact clusters ≡ₚ clusters.
Proof.
  induction clusters as [|x l IH]; simpl; [reflexivity|].
  rewrite insert_by_impact_perm. by rewrite IH.
Qed.

Lemma insert_by_impact_sorted x l :
  StronglySorted by_impact l -> StronglySorted by_impact (insert_by_impact x l).
Proof.
  induction 1 as [|y rest Hs IH Hy]; simpl.
  - constructor; constructor.
  - destruct (sc_impact_score x <? sc_impact_score y)%Z eqn:E.
    + apply Z.ltb_lt in E. constructor; [exact IH|].
      rewrite insert_by_impact_perm. constructor; [unfold by_impact; lia | exact Hy].
    + apply Z.ltb_ge in E. constructor; [by constructor|].
      constructor; [exact E|].
      eapply Forall_impl; [exact Hy|]. unfold by_impact. intros z Hz. lia.
Qed.

Lemma sorted_by_impact_sorted clusters : StronglySorted by_impact (sorted_by_impact clusters).
Proof.
  induction clusters as [|x l IH]; simpl; [constructor|].
  by apply insert_by_impact_sorted.
Qed.

Lemma insert_by_impact_stable (k : Z) x l :
  filter (fun c => sc_impact_score c = k) (insert_by_impact x l)
  = filter (fun c => sc_impact_score c = k) (x :: l).
Proof.
  induction l as [|y rest IH]; simpl; [reflexivity|].
  destruct (sc_impact_score x <? sc_impact_score y)%Z eqn:E; [|reflexivity].
  apply Z.ltb_lt in E.
  rewrite (filter_cons _ y (insert_by_impact x rest)), IH.
  rewrite !filter_cons.
  destruct (decide (sc_impact_score y = k)), (decide (sc_impact_score x = k));
    try reflexivity.
  lia.
Qed.

Lemma sorted_by_impact_stable (k : Z) clusters :
  filter (fun c => sc_impact_score c = k) (sorted_by_impact clusters)
  = filter (fun c => sc_impact_score c = k) clusters.
Proof.
  induction clusters as [|x l IH]; simpl; [reflexivity|].
  rewrite insert_by_impact_stable, !filter_cons, IH. reflexivity.
Qed.

Lemma strongly_sorted_split (l1 l2 : list SummarizedCluster) :
  StronglySorted by_impact (l1 ++ l2) ->
  forall a b, a ∈ l1 -> b ∈ l2 -> by_impact a b.
Proof.
  induction l1 as [|x l1 IH]; simpl; intros Hs a b Ha Hb.
  - by apply elem_of_nil in Ha.
  - apply StronglySorted_inv in Hs as [Hs Hx].
    apply elem_of_cons in Ha as [->|Ha]; [|by eapply IH].
    rewrite Forall_forall in Hx. apply Hx. apply elem_of_app. by right.
Qed.

(** X25: the report orders the clusters by impact score, highest first,
    and keeps clusters of equal score in their input order; its executive
    summary lists the first five of them (all when there are fewer), so no
    cluster left out of the summary scores more than one that is in it. *)
Theorem executive_summary_has_highest_impact (clusters : list SummarizedCluster) :
  let sorted_clusters := sorted_by_impact clusters in
  let top := top_items sorted_clusters in
  sorted_clusters ≡ₚ clusters /\
  StronglySorted by_impact sorted_clusters /\
  (forall k, filter (fun c => sc_impact_score c = k) sorted_clusters
             = filter (fun c => sc_impact_score c = k) clusters) /\
  length top = Nat.min 5 (length clusters) /\
  exists rest, sorted_clusters = top ++ rest /\
               forall a b, a ∈ top -> b ∈ rest -> by_impact a b.
Proof.
  intros sorted_clusters top. subst top sorted_clusters.
  pose proof (sorted_by_impact_perm clusters) as Hperm.
  pose proof (sorted_by_impact_sorted clusters) as Hsorted.
  split; [exact Hperm|]. split; [exact Hsorted|].
  split; [intros k; apply sorted_by_impact_stable|].
  unfold top_items. rewrite (Permutation_length Hperm). split.
  - rewrite length_take, (Permutation_length Hperm). lia.
  - exists (drop (Nat.min 5 (length clusters)) (sorted_by_impact clusters)).
    split; [by rewrite take_drop|].
    apply strongly_sorted_split. by rewrite take_drop.
Qed.

(** *** Grouping *)

Lemma group_append_keys k c groups :
  map fst (group_append k c groups) =
  if bool_decide (k ∈ map fst groups) then map fst groups else map fst groups ++ [k].
Proof.
  induction groups as [|[k0 cs] rest IH]; simpl.
  - reflexivity.
  - destruct (String.eqb_spec k0 k) as [->|Hne]; simpl.
    + rewrite bool_decide_eq_true_2; [reflexivity|]. apply list_elem_of_here.
    + rewrite IH. destruct (bool_decide (k ∈ map fst rest)) eqn:E.
      * apply bool_decide_eq_true in E.
        rewrite bool_decide_eq_true_2; [reflexivity|]. by apply list_elem_of_further.
      * apply bool_decide_eq_false in E.
        rewrite bool_decide_eq_false_2; [reflexivity|].
        intros Hin. apply elem_of_cons in Hin as [->|Hin]; [congruence | contradiction].
Qed.

Lemma group_items_append k' k c groups :
  group_items k' (group_append k c groups) =
  if decide (k = k') then group_items k groups ++ [c] else group_items k' groups.
Proof.
  induction groups as [|[k0 cs] rest IH]; simpl.
  - destruct (String.eqb_spec k k') as [->|Hne].
    + rewrite decide_True by reflexivity. reflexivity.
    + rewrite decide_False by exact Hne. reflexivity.
  - destruct (String.eqb_spec k0 k) as [->|Hne]; simpl.
    + destruct (String.eqb_spec k k') as [->|Hne'].
      * rewrite decide_True by reflexivity. reflexivity.
      * rewrite decide_False by exact Hne'. reflexivity.
    + rewrite IH. destruct (decide (k = k')) as [->|Hkk].
      * destruct (String.eqb_spec k0 k'); [congruence | reflexivity].
      * reflexivity.
Qed.

(** The groups after the clusters [processed] have been filed. *)
Lemma group_by_category_inv (l : list SummarizedCluster) :
  forall processed groups,
    (NoDup (map fst groups) /\
     (forall k, k ∈ map fst groups <-> exists c, c ∈ processed /\ sc_category c = k) /\
     (forall k, group_items k groups
                = filter (fun c => sc_category c = k) processed)) ->
    let groups' :=
      fold_left (fun groups cluster => group_append (sc_category cluster) cluster groups)
                l groups in
    NoDup (map fst groups') /\
    (forall k, k ∈ map fst groups' <->
               exists c, c ∈ processed ++ l /\ sc_category c = k) /\
    (forall k, group_items k groups'
               = filter (fun c => sc_category c = k) (processed ++ l)).
Proof.
  induction l as [|c l IH]; intros processed groups (Hnd & Hkeys & Hitems); simpl.
  - rewrite app_nil_r. auto.
  - replace (processed ++ c :: l) with ((processed ++ [c]) ++ l)
      by (rewrite <- app_assoc; reflexivity).
    apply IH. split; [|split].
    + rewrite group_append_keys.
      destruct (bool_decide (sc_category c ∈ map fst groups)) eqn:E; [exact Hnd|].
      apply bool_decide_eq_false in E. apply NoDup_app. split; [exact Hnd|].
      split; [|apply NoDup_singleton].
      intros k Hk Hk'. apply list_elem_of_singleton in Hk'. congruence.
    + intros k. rewrite group_append_keys.
      assert (Hiff : k ∈ map fst groups ++ [sc_category c] <->
                     exists c0, c0 ∈ processed ++ [c] /\ sc_category c0 = k).
      { rewrite elem_of_app, Hkeys, list_elem_of_singleton. split.
        - intros [(c0 & Hin & Hc)| ->].
          + exists c0. split; [apply elem_of_app; by left | exact Hc].
          + exists c. split; [apply elem_of_app; right; apply list_elem_of_here | reflexivity].
        - intros (c0 & Hin & Hc). apply elem_of_app in Hin as [Hin|Hin].
          + left. eauto.
          + apply list_elem_of_singleton in Hin. subst c0. by right. }
      destruct (bool_decide (sc_category c ∈ map fst groups)) eqn:E; [|exact Hiff].
      apply bool_decide_eq_true in E. rewrite <- Hiff, elem_of_app, list_elem_of_singleton.
      split; [by left|]. intros [Hk| ->]; [exact Hk | exact E].
    + intros k. rewrite group_items_append, filter_app, Hitems.
      rewrite filter_cons, filter_nil.
      destruct (decide (sc_category c = k)) as [->|Hne]; [reflexivity|].
      by rewrite app_nil_r.
Qed.

Lemma insert_key_perm k l : insert_key k l ≡ₚ k :: l.
Proof.
  induction l as [|y rest IH]; simpl; [reflexivity|].
  destruct (String.leb k y); [reflexivity|].
  rewrite IH. apply Permutation_swap.
Qed.

Lemma sorted_keys_perm keys : sorted_keys keys ≡ₚ keys.
Proof.
  induction keys as [|k l IH]; simpl; [reflexivity|].
  rewrite insert_key_perm. by rewrite IH.
Qed.

Lemma insert_key_sorted k l : Sorted key_le l -> Sorted key_le (insert_key k l).
Proof.
  induction 1 as [|y rest Hs IH Hy]; simpl.
  - repeat constructor.
  - destruct (String.leb k y) eqn:E.
    + constructor; [by constructor|]. constructor. exact E.
    + constructor; [exact IH|].
      assert (Hyk : key_le y k).
      { destruct (String.leb_total k y) as [Hky|Hyk]; [congruence | exact Hyk]. }
      destruct rest as [|z rest']; simpl.
      * constructor. exact Hyk.
      * destruct (String.leb k z); constructor; [exact Hyk|].
        by inversion Hy.
Qed.

Lemma sorted_keys_sorted keys : Sorted key_le (sorted_keys keys).
Proof.
  induction keys as [|k l IH]; simpl; [constructor|]. by apply insert_key_sorted.
Qed.

Lemma concat_one_more {X} (f : string -> list X) (x : X) (kx : string) keys :
  NoDup keys -> kx ∈ keys ->
  concat (map (fun k => (if decide (kx = k) then [x] else []) ++ f k) keys)
  ≡ₚ x :: concat (map f keys).
Proof.
  induction keys as [|k ks IH]; intros Hnd Hin; [by apply elem_of_nil in Hin|].
  apply NoDup_cons in Hnd as [Hk Hnd]. simpl.
  destruct (decide (kx = k)) as [->|Hne].
  - simpl. apply Permutation_skip. apply Permutation_app_head.
    assert (E : map (fun k0 => (if decide (k = k0) then [x] else []) ++ f k0) ks
                = map f ks).
    { apply map_ext_in. intros k0 Hk0. apply list_elem_of_In in Hk0.
      rewrite decide_False; [reflexivity|]. intros ->. contradiction. }
    by rewrite E.
  - apply elem_of_cons in Hin as [Hin|Hin]; [congruence|].
    simpl. rewrite (IH Hnd Hin). symmetry. apply Permutation_middle.
Qed.

Lemma concat_by_category (keys : list string) (l : list SummarizedCluster) :
  NoDup keys ->
  (forall c, c ∈ l -> sc_category c ∈ keys) ->
  concat (map (fun k => filter (fun c => sc_category c = k) l) keys) ≡ₚ l.
Proof.
  intros Hnd. induction l as [|c l IH]; intros Hall.
  - clear Hnd Hall. induction keys as [|k ks IHk]; simpl; [reflexivity | exact IHk].
  - assert (E : map (fun k => filter (fun c0 => sc_category c0 = k) (c :: l)) keys
              = map (fun k => (if decide (sc_category c = k) then [c] else [])
                              ++ filter (fun c0 => sc_category c0 = k) l) keys).
    { apply map_ext. intros k. rewrite filter_cons.
      destruct (decide (sc_category c = k)); reflexivity. }
    rewrite E, concat_one_more; [|exact Hnd|apply Hall, list_elem_of_here].
    apply Permutation_skip. apply IH. intros c0 Hc0. apply Hall.
    by apply list_elem_of_further.
Qed.

(** X26: "News by Category" has one section for each category that occurs
    among the clusters, the sections stand in ascending order of the
    category name, and a section lists exactly the clusters of its
    category, in the order of the sorted list; so every cluster is listed in
    one section, once. *)
Theorem category_sections_partition_the_clusters (clusters : list SummarizedCluster) :
  let sorted_clusters := sorted_by_impact clusters in
  let sections := category_sections sorted_clusters in
  Sorted key_le (map fst sections) /\
  NoDup (map fst sections) /\
  (forall k, k ∈ map fst sections <-> exists c, c ∈ clusters /\ sc_category c = k) /\
  Forall (fun s => snd s = filter (fun c => sc_category c = fst s) sorted_clusters /\
                   snd s <> [])
         sections /\
  concat (map snd sections) ≡ₚ clusters.
Proof.
  intros sorted_clusters sections. subst sections. unfold category_sections.
  set (groups := group_by_category sorted_clusters).
  destruct (group_by_category_inv sorted_clusters [] [])
    as (Hnd & Hkeys & Hitems).
  { split; [constructor|]. split; [|reflexivity].
    intros k. split.
    - intros Hin. by apply elem_of_nil in Hin.
    - intros (c & Hin & _). by apply elem_of_nil in Hin. }
  simpl in Hnd, Hkeys, Hitems. fold (group_by_category sorted_clusters) in *.
  fold groups in Hnd, Hkeys, Hitems.
  pose proof (sorted_keys_perm (map fst groups)) as Hperm.
  pose proof (sorted_by_impact_perm clusters) as Hsorted.
  assert (Hfst : map fst (map (fun category => (category, group_items category groups))
                              (sorted_keys (map fst groups)))
                 = sorted_keys (map fst groups)).
  { rewrite map_map. simpl. apply map_id. }
  assert (Hmem : forall k, k ∈ sorted_keys (map fst groups) <->
                           exists c, c ∈ clusters /\ sc_category c = k).
  { intros k. rewrite Hperm, Hkeys. split; intros (c & Hin & Hc); exists c.
    - split; [|exact Hc]. fold sorted_clusters in Hsorted. by rewrite <- Hsorted.
    - split; [|exact Hc]. fold sorted_clusters in Hsorted. by rewrite Hsorted. }
  rewrite Hfst. split; [apply sorted_keys_sorted|].
  split; [by rewrite Hperm|]. split; [exact Hmem|]. split.
  - apply Forall_forall. intros s Hs.
    apply list_elem_of_In, in_map_iff in Hs as (k & <- & Hk). simpl.
    rewrite Hitems. split; [reflexivity|].
    apply list_elem_of_In, Hmem in Hk as (c & Hin & Hc).
    intros Hnil. eapply (filter_nil_not_elem_of _ _ c Hnil); [exact Hc|].
    fold sorted_clusters in Hsorted. by rewrite Hsorted.
  - rewrite map_map. simpl.
    assert (E : map (fun category => group_items category groups)
                    (sorted_keys (map fst groups))
                = map (fun k => filter (fun c => sc_category c = k) sorted_clusters)
                      (sorted_keys (map fst groups))).
    { apply map_ext. exact Hitems. }
    rewrite E, concat_by_category.
    + exact Hsorted.
    + by rewrite Hperm.
    + intros c Hc. apply Hmem. exists c. split; [|reflexivity].
      fold sorted_clusters in Hsorted. by rewrite <- Hsorted.
Qed.

End ReportFacts.


(** ** The pipeline as a whole *)

Section PipelineFacts.
Context `{PyLib} `{PyStr} `{EnrichmentClient}.

Lemma classify_finish_fields cache prompt_template target_date item fs :
  let r := fst (classify_finish cache prompt_template target_date item fs) in
  c_raw r = item /\ category r ∈ CATEGORIES.
Proof.
  unfold classify_finish.
  destruct (classify_try item prompt_template "zero-shot") as [c|e] eqn:E; simpl.
  - destruct (classify_try_fields _ _ _ _ E) as (Hraw & Hcat & _). auto.
  - split; [reflexivity | exact other_is_category].
Qed.

Lemma score_finish_fields cache prompt_template target_date item fs :
  let r := fst (score_finish cache prompt_template target_date item fs) in
  s_base r = item /\ (1 <= impact_score r <= 5)%Z.
Proof.
  unfold score_finish.
  destruct (score_try item prompt_template) as [s|e] eqn:E; simpl.
  - exact (score_try_fields _ _ _ E).
  - split; [reflexivity | lia].
Qed.

Lemma classify_stage_uncached raw_items target_date cap schedule fs out fs' :
  classify_zero_shot_async raw_items target_date None cap schedule fs
    = Ok (Some (out, fs')) ->
  Forall2 (fun item r => c_raw r = item /\ category r ∈ CATEGORIES) raw_items out.
Proof.
  intros E. unfold classify_zero_shot_async in E.
  apply bind_Ok_inv in E as (pt & _ & E). injection E as E.
  destruct (gather_by_position _ _ _ _ _ _ _ _
              (fun x s1 s2 => classify_finish_result None pt target_date x s1 s2) E)
    as [Hlen Hpos].
  apply Forall2_same_length_lookup. split; [by symmetry|].
  intros i item r Hi Hr.
  destruct (Hpos i item Hi) as (r' & Hr' & (fs_i & ->)).
  rewrite Hr in Hr'. injection Hr' as ->.
  unfold run_task. simpl. apply classify_finish_fields.
Qed.

Lemma score_stage_uncached classified_items target_date cap schedule fs out fs' :
  score_impact_async classified_items target_date None cap schedule fs
    = Ok (Some (out, fs')) ->
  Forall2 (fun item r => s_base r = item /\ (1 <= impact_score r <= 5)%Z)
          classified_items out.
Proof.
  intros E. unfold score_impact_async in E.
  apply bind_Ok_inv in E as (pt & _ & E). injection E as E.
  destruct (gather_by_position _ _ _ _ _ _ _ _
              (fun x s1 s2 => score_finish_result None pt target_date x s1 s2) E)
    as [Hlen Hpos].
  apply Forall2_same_length_lookup. split; [by symmetry|].
  intros i item r Hi Hr.
  destruct (Hpos i item Hi) as (r' & Hr' & (fs_i & ->)).
  rewrite Hr in Hr'. injection Hr' as ->.
  unfold run_task. simpl. apply score_finish_fields.
Qed.

Lemma summarize_single_fields cluster prompt_template :
  let s := _summarize_single_cluster cluster prompt_template in
  raw_ids s = map (fun member => item_id (s_raw member)) (members cluster) /\
  sc_category s = category (s_base (representative cluster)) /\
  sc_impact_score s = impact_score (representative cluster).
Proof.
  unfold _summarize_single_cluster.
  destruct (summarize_try cluster prompt_template) as [s|e] eqn:E; simpl.
  - unfold summarize_try in E.
    apply bind_Ok_inv in E as (response & _ & E).
    apply bind_Ok_inv in E as (title_v & _ & E).
    apply bind_Ok_inv in E as (summary_v & _ & E).
    apply bind_Ok_inv in E as (notes & _ & E).
    rewrite collect_sources_eq in E.
    destruct (validate_str title_v); [|discriminate].
    destruct (validate_str summary_v); [|discriminate].
    injection E as <-. simpl. auto.
  - unfold summarize_fallback. rewrite collect_sources_eq. simpl. auto.
Qed.

(** X27: a run of the pipeline without a cache neither loses nor repeats an
    item: when it finishes, the raw ids listed by the summaries are the ids
    of the fetched items, each as often as it was fetched; there are at most
    as many summaries as items; each summary has a category out of
    [CATEGORIES] and an impact score in 1..5; and the markdown is the report
    of these summaries. This holds under every schedule of the three
    concurrent stages and whatever the enrichment calls answer. *)
Theorem pipeline_keeps_every_item (raw_items : list RawNewsItem) (target_date : date)
    (max_concurrent : nat) (schedule1 schedule2 schedule3 : list nat)
    (fs fs' : FileSystem) (summarized : list SummarizedCluster) (markdown : string) :
  run_daily_pipeline raw_items target_date None max_concurrent
    schedule1 schedule2 schedule3 fs = Ok (Curated summarized markdown fs') ->
  concat (map raw_ids summarized) ≡ₚ map item_id raw_items /\
  length summarized <= length raw_items /\
  Forall (fun s => sc_category s ∈ CATEGORIES /\ (1 <= sc_impact_score s <= 5)%Z)
         summarized /\
  markdown = generate_markdown_report summarized target_date.
Proof.
  intros E. unfold run_daily_pipeline in E.
  destruct raw_items as [|item0 rest]; [discriminate|].
  remember (item0 :: rest) as raw_items eqn:Hraw. clear Hraw item0 rest.
  apply bind_Ok_inv in E as (classified & E1 & E).
  destruct classified as [[classified_items fs1]|]; [|discriminate].
  apply bind_Ok_inv in E as (scored & E2 & E).
  destruct scored as [[scored_items fs2]|]; [|discriminate].
  apply bind_Ok_inv in E as (cs & E3 & E).
  apply bind_Ok_inv in E as (summarized' & E4 & E).
  destruct summarized' as [out|]; [|discriminate].
  injection E as -> <- _.
  apply classify_stage_uncached in E1. apply score_stage_uncached in E2.
  unfold summarize_clusters_async in E4.
  apply bind_Ok_inv in E4 as (pt & _ & E4). injection E4 as E4.
  apply stateless_gather in E4. subst summarized.
  destruct (cluster_items_loop _ _ _ E3) as (embeddings & st & Hloop & <-).
  destruct (cluster_loop_members _ _ _ _ Hloop) as [Hperm _].
  destruct (reachable_inv _ _ _ _ Hloop) as [_ Hinv].
  assert (Hids : map (fun s => item_id (s_raw s)) scored_items = map item_id raw_items).
  { clear - E1 E2. revert classified_items scored_items E1 E2.
    induction raw_items as [|item raw_items IH];
      intros classified_items scored_items E1 E2.
    - apply Forall2_nil_inv_l in E1 as ->. apply Forall2_nil_inv_l in E2 as ->.
      reflexivity.
    - apply Forall2_cons_inv_l in E1 as (c & cl & [Hc _] & E1 & ->).
      apply Forall2_cons_inv_l in E2 as (s & sl & [Hs _] & E2 & ->).
      simpl. unfold s_raw at 1. rewrite Hs, Hc. f_equal. by eapply IH. }
  assert (Hlen : length scored_items = length raw_items).
  { rewrite <- (length_map (fun s => item_id (s_raw s)) scored_items), Hids.
    apply length_map. }
  split; [|split; [|split; [|reflexivity]]].
  - rewrite <- Hids, <- Hperm. unfold all_members.
    clear. induction (clusters st) as [|c cs IH]; simpl; [reflexivity|].
    destruct (summarize_single_fields c pt) as (-> & _ & _).
    rewrite map_app. by apply Permutation_app_head.
  - rewrite length_map, <- Hlen, <- (Permutation_length Hperm).
    by apply clusters_at_most_members.
  - apply Forall_forall. intros s Hs.
    apply list_elem_of_In, in_map_iff in Hs as (c & <- & Hc).
    apply list_elem_of_In in Hc.
    destruct (summarize_single_fields c pt) as (_ & -> & ->).
    rewrite Forall_forall in Hinv. destruct (Hinv c Hc) as [Hrep _].
    assert (Hin : representative c ∈ scored_items).
    { rewrite <- Hperm. unfold all_members. apply list_elem_of_In, in_concat.
      exists (members c). split; [|by apply list_elem_of_In].
      apply in_map. by apply list_elem_of_In. }
    apply list_elem_of_lookup in Hin as [i Hi].
    destruct (Forall2_lookup_r _ _ _ _ _ E2 Hi) as (c0 & Hc0 & Hbase & Hscore).
    destruct (Forall2_lookup_r _ _ _ _ _ E1 Hc0) as (r0 & _ & _ & Hcat).
    rewrite Hbase. split; [exact Hcat | exact Hscore].
Qed.

End PipelineFacts.


(** ** The list [cluster_representatives] *)

Section FounderFacts.
Context `{PyLib}.

Lemma joined_representatives i item embedding c st :
  cluster_representatives (joined i item embedding c st) = cluster_representatives st.
Proof.
  unfold joined. by destruct (impact_score (representative c) <? impact_score item)%Z.
Qed.

(** X28: the list [cluster_representatives] is appended to when a cluster
    is created and never written when a representative is replaced: after
    the loop it holds, cluster by cluster, the item that opened the cluster
    (its first member), in input order; it does not follow a promotion. *)
Theorem cluster_representatives_are_the_founders thr embeddings
    (items : list ScoredNewsItem) (st : ClusterState) :
  cluster_loop thr embeddings 0 items init_state = Ok st ->
  Forall2 founder (clusters st) (cluster_representatives st) /\
  cluster_representatives st `sublist_of` items.
Proof.
  intros E.
  pose proof (cluster_loop_from_start thr embeddings items
    (fun idx st => Forall2 founder (clusters st) (cluster_representatives st) /\
                   cluster_representatives st `sublist_of` take idx items) st) as Hind.
  cbv beta in Hind. rewrite (take_ge items (length items)) in Hind by lia.
  apply Hind; [|split; [constructor | reflexivity]|exact E].
  clear. intros idx item embedding st st' Hwf [Hf Hsub] Hitem _ Estep.
  rewrite (take_S_r _ _ _ Hitem).
  destruct (cluster_step_outcome _ _ _ _ _ Hwf Estep)
    as [[-> _]|(i & m & c & _ & _ & Hc & ->)].
  - unfold new_cluster. simpl. split.
    + apply Forall2_app; [exact Hf|]. constructor; [reflexivity | constructor].
    + apply sublist_app; [exact Hsub | reflexivity].
  - rewrite joined_representatives. split; [|by apply sublist_inserts_r].
    destruct (joined_clusters i item embedding c st) as (c' & -> & Hm & _).
    destruct (Forall2_lookup_l _ _ _ _ _ Hf Hc) as (r & Hr & Hfound).
    rewrite <- (list_insert_id _ _ _ Hr).
    apply Forall2_insert; [exact Hf|].
    unfold founder in *. rewrite Hm.
    destruct (members c); [discriminate | exact Hfound].
Qed.

End FounderFacts.

(** * The theorems at concrete inputs *)

(** C1 at work: C is equally similar (1) to the centroids of A and of B,
    above the threshold 0.5; it joins the cluster of A, the earlier one. *)
Lemma tie_break_earliest_cluster_witness :
  cluster_loop (H:=Demo.lib) Demo.threshold Demo.embeddings_ABC 0
    [Demo.item_A; Demo.item_B] init_state = Ok Demo.state_AB /\
  map (cosine_similarity (PyLib:=Demo.lib) [1; 1]%Q) (cluster_embeddings Demo.state_AB)
    = [1; 1]%Q /\
  exists i mi c st',
    is_first_max (map (cosine_similarity (PyLib:=Demo.lib) [1; 1]%Q)
                      (cluster_embeddings Demo.state_AB)) i mi /\
    (mi == 1)%Q /\ i <= 1 /\
    clusters Demo.state_AB !! i = Some c /\
    cluster_step (H:=Demo.lib) Demo.threshold Demo.item_C [1; 1]%Q Demo.state_AB = Ok st' /\
    (exists c', clusters st' !! i = Some c' /\
                members c' = members c ++ [Demo.item_C] /\
                cluster_id c' = cluster_id c) /\
    (forall k, k <> i -> clusters st' !! k = clusters Demo.state_AB !! k) /\
    length (clusters st') = length (clusters Demo.state_AB).
Proof.
  split; [reflexivity|]. split; [reflexivity|].
  apply (tie_break_earliest_cluster (H:=Demo.lib)
           Demo.threshold Demo.embeddings_ABC [Demo.item_A; Demo.item_B]
           Demo.state_AB Demo.item_C [1; 1]%Q 1 1%Q).
  - reflexivity.
  - reflexivity.
  - intros [|[|k]] x Hx; vm_compute in Hx; try discriminate;
      injection Hx as <-; discriminate.
  - discriminate.
Defined.

(** C2 at work: C (score 4) joins the cluster of A (score 2) and takes over
    as representative and centroid. *)
Lemma representative_promotion_witness :
  cluster_step (H:=Demo.lib) Demo.threshold Demo.item_C [1; 1]%Q Demo.state_AB
    = Ok Demo.state_ABC /\
  representative Demo.cluster_AC = Demo.item_C /\
  cluster_embeddings Demo.state_ABC = <[0 := [1; 1]%Q]> (cluster_embeddings Demo.state_AB) /\
  cluster_embeddings Demo.state_ABC !! 0 = Some [1; 1]%Q.
Proof.
  split; [reflexivity|].
  apply (representative_promotion (H:=Demo.lib)
           Demo.threshold Demo.embeddings_ABC [Demo.item_A; Demo.item_B]
           Demo.state_AB Demo.item_C [1; 1]%Q Demo.state_ABC 0
           Demo.cluster_A Demo.cluster_AC);
    [reflexivity | reflexivity | reflexivity | reflexivity | reflexivity | simpl; lia].
Defined.

(** The demo client answers with one vector of two components per text. *)
Lemma demo_embeddings (batch : list string) :
  exists es, embed_texts (EnrichmentClient:=Demo.client) batch = Ok es /\
             length es = length batch /\
             Forall (fun v => length v = 2) es.
Proof.
  exists (map Demo.embed_text batch). split; [reflexivity|].
  split; [apply length_map|].
  induction batch as [|t batch IH]; simpl; constructor; [|exact IH].
  unfold Demo.embed_text. destruct t as [|c t]; [reflexivity|].
  destruct c as [[] [] [] [] [] [] [] []]; reflexivity.
Defined.

(** C3 at work: the three stories cluster without an error, and the
    clusters satisfy the invariant. *)
Lemma cluster_invariant_every_step_witness :
  exists cs,
    cluster_items (H:=Demo.lib) (H0:=Demo.client)
      [Demo.item_A; Demo.item_B; Demo.item_C] (Some Demo.threshold) = Ok cs /\
    Forall cluster_inv cs.
Proof.
  destruct (cluster_invariant_every_step (H:=Demo.lib) (H0:=Demo.client)
              [Demo.item_A; Demo.item_B; Demo.item_C] (Some Demo.threshold))
    as (_ & _ & _ & Hreturns).
  apply (Hreturns 2); [lia | exact demo_embeddings].
Defined.

(** C4 refuted as stated: the model answers with confidence 1.5 and the
    classifier stores 1.5. *)
Lemma classifier_confidence_above_one :
  ~ ((0 <= classification_confidence
             (fst (_classify_single_item (H:=Demo.lib) (H0:=Demo.overconfident_client)
                     (Demo.raw "1" "A one" None) "prompt" None Demo.today Demo.empty_fs)))%Q /\
     (classification_confidence
        (fst (_classify_single_item (H:=Demo.lib) (H0:=Demo.overconfident_client)
                (Demo.raw "1" "A one" None) "prompt" None Demo.today Demo.empty_fs))
      <= 1)%Q).
Proof.
  intros [_ Hle]. vm_compute in Hle. apply Hle. reflexivity.
Qed.

(** C4 as amended, at work: a reported confidence of 0.9 is stored as 0.9
    by both classifiers, and an overconfident 1.5 as 1.5. *)
Lemma classifier_confidence_in_range_witness :
  classification_confidence
    (fst (_classify_single_item (H:=Demo.lib) (H0:=Demo.client)
            (Demo.raw "1" "A one" None) "prompt" None Demo.today Demo.empty_fs)) = 0.9%Q /\
  classification_confidence
    (_classify_single_item_few_shot (H:=Demo.lib) (H0:=Demo.client)
       (Demo.raw "1" "A one" None) "prompt") = 0.9%Q /\
  classification_confidence
    (_classify_single_item_few_shot (H:=Demo.lib) (H0:=Demo.overconfident_client)
       (Demo.raw "1" "A one" None) "prompt") = 1.5%Q /\
  ((0 <= classification_confidence
            (fst (_classify_single_item (H:=Demo.lib) (H0:=Demo.client)
                    (Demo.raw "1" "A one" None) "prompt" None Demo.today Demo.empty_fs)))%Q /\
   (classification_confidence
      (fst (_classify_single_item (H:=Demo.lib) (H0:=Demo.client)
              (Demo.raw "1" "A one" None) "prompt" None Demo.today Demo.empty_fs)) <= 1)%Q).
Proof.
  destruct (classifier_confidence_in_range_when_reported (H:=Demo.lib) (H0:=Demo.client)
              (Demo.raw "1" "A one" None) "prompt" None Demo.today Demo.empty_fs)
    as (Hz & Hf & Hrange).
  destruct (classifier_confidence_in_range_when_reported (H:=Demo.lib)
              (H0:=Demo.overconfident_client)
              (Demo.raw "1" "A one" None) "prompt" None Demo.today Demo.empty_fs)
    as (_ & Hover & _).
  split; [exact Hz|]. split; [exact Hf|]. split; [exact Hover|].
  apply Hrange.
  - intros q E. vm_compute in E. injection E as <-. split; discriminate.
  - intros cached E. discriminate E.
Defined.

(** C5 as first stated does not hold: the call succeeds with a raw score
    of 7 and a reason that is [null]; the constructor refuses the reason and
    the scorer stores the fallback score 3, not 5. *)
Lemma scorer_stores_fallback_for_null_reason :
  ~ (impact_score
       (fst (_score_single_item (H:=Demo.lib)
               (H0:=Demo.client_with (Ok (JDict [ ("impact_score", JInt 7);
                                                  ("impact_reason", JNull) ])))
               (Demo.classified "1" "A one" None) "prompt" None Demo.today
               Demo.empty_fs))
     = Z.max 1 (Z.min 5 7)).
Proof. vm_compute. discriminate. Qed.

(** C5 as amended, at work: a raw score of 7 is stored as 5, a raw score of
    -1 as 1; with a reason that is [null] the fallback score 3 is stored. *)
Lemma scorer_clamps_impact_score_witness :
  impact_score
    (fst (_score_single_item (H:=Demo.lib) (H0:=Demo.score_client 7)
            (Demo.classified "1" "A one" None) "prompt" None Demo.today Demo.empty_fs)) = 5%Z /\
  impact_score
    (fst (_score_single_item (H:=Demo.lib) (H0:=Demo.score_client (-1))
            (Demo.classified "1" "A one" None) "prompt" None Demo.today Demo.empty_fs)) = 1%Z /\
  impact_score
    (fst (_score_single_item (H:=Demo.lib)
            (H0:=Demo.client_with (Ok (JDict [ ("impact_score", JInt 7);
                                               ("impact_reason", JNull) ])))
            (Demo.classified "1" "A one" None) "prompt" None Demo.today Demo.empty_fs)) = 3%Z.
Proof.
  split; [|split].
  - destruct (scorer_clamps_impact_score (H:=Demo.lib) (H0:=Demo.score_client 7)
               (Demo.classified "1" "A one" None) "prompt" None Demo.today Demo.empty_fs
               [ ("impact_score", JInt 7);
                 ("impact_dimensions", JList [JStr "industry"]);
                 ("impact_reason", JStr "big") ] 7 eq_refl eq_refl eq_refl)
      as [Hgood _].
    apply Hgood; [eexists; reflexivity | eexists; reflexivity | lia].
  - destruct (scorer_clamps_impact_score (H:=Demo.lib) (H0:=Demo.score_client (-1))
               (Demo.classified "1" "A one" None) "prompt" None Demo.today Demo.empty_fs
               [ ("impact_score", JInt (-1));
                 ("impact_dimensions", JList [JStr "industry"]);
                 ("impact_reason", JStr "big") ] (-1) eq_refl eq_refl eq_refl)
      as [Hgood _].
    apply Hgood; [eexists; reflexivity | eexists; reflexivity | lia].
  - destruct (scorer_clamps_impact_score (H:=Demo.lib)
               (H0:=Demo.client_with (Ok (JDict [ ("impact_score", JInt 7);
                                                  ("impact_reason", JNull) ])))
               (Demo.classified "1" "A one" None) "prompt" None Demo.today Demo.empty_fs
               [ ("impact_score", JInt 7); ("impact_reason", JNull) ] 7
               eq_refl eq_refl eq_refl)
      as [_ Hbad].
    apply Hbad. left. reflexivity.
Defined.

(** C6 at work: the client times out and the scorer answers with the
    fallback item. *)
Lemma scorer_falls_back_on_failure_witness :
  _score_single_item (H:=Demo.lib) (H0:=Demo.failing_client)
    (Demo.classified "1" "A one" None) "impact_prompt" (Some Demo.cache) Demo.today
    Demo.empty_fs
  = ({| s_base := Demo.classified "1" "A one" None;
        impact_score := 3;
        impact_reason := "Error during scoring";
        impact_dimensions := [] |}, Demo.empty_fs).
Proof.
  apply (scorer_falls_back_on_failure (H:=Demo.lib) (H0:=Demo.failing_client)
           (Demo.classified "1" "A one" None) "impact_prompt" (Some Demo.cache)
           Demo.today Demo.empty_fs (ClientError "timeout")); reflexivity.
Defined.

(** C7 at work: nothing was stored for item "9"; the records of item "1"
    are damaged. All four gets return [None]. *)
Lemma cache_get_absent_or_corrupt_witness :
  get_classified (H:=Demo.lib) Demo.cache "9" Demo.today Demo.empty_fs = None /\
  get_scored (H:=Demo.lib) Demo.cache "9" Demo.today
    (save_scored (H:=Demo.lib) Demo.cache Demo.item_A Demo.today Demo.empty_fs) = None /\
  get_classified (H:=Demo.lib) Demo.cache "1" Demo.today Demo.damaged_fs = None /\
  get_scored (H:=Demo.lib) Demo.cache "1" Demo.today Demo.damaged_fs = None.
Proof.
  split; [|split; [|split]].
  - apply (proj1 (cache_get_absent_or_corrupt_is_none (H:=Demo.lib)
                    Demo.cache "9" Demo.today Demo.empty_fs) []);
      [reflexivity | constructor].
  - apply (proj1 (proj2 (cache_get_absent_or_corrupt_is_none (H:=Demo.lib)
                           Demo.cache "9" Demo.today Demo.empty_fs))
             [SaveScored Demo.item_A Demo.today]);
      [reflexivity | constructor; [discriminate | constructor]].
  - apply (proj1 (proj2 (proj2 (cache_get_absent_or_corrupt_is_none (H:=Demo.lib)
                                  Demo.cache "1" Demo.today Demo.damaged_fs)))
             (Readable Garbage)); [reflexivity | constructor].
  - apply (proj2 (proj2 (proj2 (cache_get_absent_or_corrupt_is_none (H:=Demo.lib)
                                  Demo.cache "1" Demo.today Demo.damaged_fs)))
             Unreadable); [reflexivity | constructor].
Defined.

Lemma demo_reparses (raw : RawNewsItem) : reparses (H:=Demo.lib) raw.
Proof. split; [intros [s] _ | intros [s] _]; reflexivity. Defined.

(** C8 at work: a classified and a scored item come back as saved. *)
Lemma cache_round_trip_witness :
  get_classified (H:=Demo.lib) Demo.cache "1" Demo.today
    (save_classified (H:=Demo.lib) Demo.cache
       (Demo.classified "1" "A one" (Some "http://a.example/story")) Demo.today Demo.empty_fs)
  = Some (Demo.classified "1" "A one" (Some "http://a.example/story")) /\
  get_scored (H:=Demo.lib) Demo.cache "3" Demo.today
    (save_scored (H:=Demo.lib) Demo.cache Demo.item_C Demo.today Demo.empty_fs)
  = Some Demo.item_C.
Proof.
  apply (cache_round_trip (H:=Demo.lib) Demo.cache Demo.today Demo.empty_fs
           (Demo.classified "1" "A one" (Some "http://a.example/story")) Demo.item_C);
    [reflexivity | apply demo_reparses | apply demo_reparses].
Defined.


(** C10 at work: A and C carry the same URL and B none; the summary lists
    that URL once and the three ids in member order, on both paths. *)
Lemma summarizer_sources_and_raw_ids_witness :
  sources_and_ids_ok
    {| cluster_id := "c"; representative := Demo.item_C;
       members := [Demo.item_A; Demo.item_B; Demo.item_C] |}
    (_summarize_single_cluster (H:=Demo.lib) (H0:=Demo.client)
       {| cluster_id := "c"; representative := Demo.item_C;
          members := [Demo.item_A; Demo.item_B; Demo.item_C] |} "summary_prompt") /\
  sources_and_ids_ok
    {| cluster_id := "c"; representative := Demo.item_C;
       members := [Demo.item_A; Demo.item_B; Demo.item_C] |}
    (_summarize_single_cluster (H:=Demo.lib) (H0:=Demo.failing_client)
       {| cluster_id := "c"; representative := Demo.item_C;
          members := [Demo.item_A; Demo.item_B; Demo.item_C] |} "summary_prompt").
Proof.
  split.
  - apply (summarizer_sources_and_raw_ids (H:=Demo.lib) (H0:=Demo.client)).
  - apply (summarizer_sources_and_raw_ids (H:=Demo.lib) (H0:=Demo.failing_client)).
Defined.

(** The same summaries, computed. *)
Example summary_of_three_members :
  sources (_summarize_single_cluster (H:=Demo.lib) (H0:=Demo.client)
             {| cluster_id := "c"; representative := Demo.item_C;
                members := [Demo.item_A; Demo.item_B; Demo.item_C] |} "summary_prompt")
    = ["http://a.example/story"] /\
  raw_ids (_summarize_single_cluster (H:=Demo.lib) (H0:=Demo.failing_client)
             {| cluster_id := "c"; representative := Demo.item_C;
                members := [Demo.item_A; Demo.item_B; Demo.item_C] |} "summary_prompt")
    = ["1"; "2"; "3"] /\
  sc_summary (_summarize_single_cluster (H:=Demo.lib) (H0:=Demo.failing_client)
                {| cluster_id := "c"; representative := Demo.item_C;
                   members := [Demo.item_A; Demo.item_B; Demo.item_C] |} "summary_prompt")
    = "Error generating summary: timeout".
Proof. vm_compute. repeat split. Qed.

(** ** Further properties at concrete inputs *)

(** X1 at work: A, B and C end in two clusters that hold each story once. *)
Lemma clustering_partitions_the_items_witness :
  all_members [Demo.cluster_AC; Demo.cluster_B]
    ≡ₚ [Demo.item_A; Demo.item_B; Demo.item_C] /\
  Forall (fun c => members c `sublist_of` [Demo.item_A; Demo.item_B; Demo.item_C])
         [Demo.cluster_AC; Demo.cluster_B] /\
  2 <= 3 /\
  ([Demo.item_A; Demo.item_B; Demo.item_C] <> [] -> [Demo.cluster_AC; Demo.cluster_B] <> []).
Proof.
  apply (clustering_partitions_the_items (H:=Demo.lib) (H0:=Demo.client)
           [Demo.item_A; Demo.item_B; Demo.item_C] (Some Demo.threshold)
           [Demo.cluster_AC; Demo.cluster_B]).
  reflexivity.
Defined.

(** X2 at work: C (score 4) represents the cluster of A (score 2) and C. *)
Lemma representative_is_first_of_highest_impact_witness :
  Forall first_best [Demo.cluster_AC; Demo.cluster_B] /\
  forall c m, c ∈ [Demo.cluster_AC; Demo.cluster_B] -> m ∈ members c ->
              (impact_score m <= impact_score (representative c))%Z.
Proof.
  apply (representative_is_first_of_highest_impact (H:=Demo.lib) (H0:=Demo.client)
           [Demo.item_A; Demo.item_B; Demo.item_C] (Some Demo.threshold)
           [Demo.cluster_AC; Demo.cluster_B]).
  reflexivity.
Defined.

(** X3 at work: the centroid of the cluster of A and C is the vector of C. *)
Lemma centroids_are_representative_embeddings_witness :
  length (clusters Demo.state_ABC) = length (cluster_embeddings Demo.state_ABC) /\
  Forall2 (centroid_of [Demo.item_A; Demo.item_B; Demo.item_C] Demo.embeddings_ABC 3)
          (clusters Demo.state_ABC) (cluster_embeddings Demo.state_ABC).
Proof.
  apply (centroids_are_representative_embeddings (H:=Demo.lib) Demo.threshold
           Demo.embeddings_ABC [Demo.item_A; Demo.item_B; Demo.item_C] Demo.state_ABC).
  reflexivity.
Defined.

(** X4 at work: A and B are unrelated (similarity 0) and stay apart. *)
Lemma no_similarity_reaches_threshold_gives_singletons_witness :
  map members [Demo.cluster_A; Demo.cluster_B] = [[Demo.item_A]; [Demo.item_B]] /\
  map representative [Demo.cluster_A; Demo.cluster_B] = [Demo.item_A; Demo.item_B].
Proof.
  apply (no_similarity_reaches_threshold_gives_singletons (H:=Demo.lib) (H0:=Demo.client)
           [Demo.item_A; Demo.item_B] (Some Demo.threshold) [[1; 0]; [0; 1]]%Q
           [Demo.cluster_A; Demo.cluster_B]).
  - reflexivity.
  - intros [|[|i]] [|[|j]] ei ej Hlt Hi Hj; try lia; try discriminate.
    injection Hi as <-. injection Hj as <-. reflexivity.
  - reflexivity.
Defined.

(** X5 at work: C is as similar as the threshold asks to A; both end in the
    cluster that A opened. *)
Lemma every_similarity_reaches_threshold_gives_one_cluster_witness :
  exists c, [Demo.cluster_AC] = [c] /\ members c = [Demo.item_A; Demo.item_C].
Proof.
  apply (every_similarity_reaches_threshold_gives_one_cluster (H:=Demo.lib)
           (H0:=Demo.client) [Demo.item_A; Demo.item_C] (Some Demo.threshold)
           [[1; 0]; [1; 1]]%Q [Demo.cluster_AC]).
  - reflexivity.
  - intros [|[|i]] [|[|j]] ei ej Hlt Hi Hj; try lia; try discriminate.
    injection Hi as <-. injection Hj as <-. discriminate.
  - discriminate.
  - reflexivity.
Defined.

(** X6 at work: one vector comes back for two stories; two vectors of
    different length come back for three. *)
Lemma too_few_embeddings_raise_index_error_witness :
  cluster_items (H:=Demo.lib) (H0:=Sample.short_client)
    [Demo.item_A; Demo.item_B] None = Raise IndexError /\
  cluster_items (H:=Demo.lib) (H0:=Sample.ragged_client)
    [Demo.item_A; Demo.item_B; Demo.item_C] None = Raise ValueError.
Proof.
  split.
  - destruct (too_few_embeddings_raise_index_error (H:=Demo.lib)
                (H0:=Sample.short_client) [Demo.item_A; Demo.item_B] None [[1; 0]%Q]
                eq_refl) as [Hfew _].
    apply (Hfew 2); [lia | repeat constructor | simpl; lia].
  - destruct (too_few_embeddings_raise_index_error (H:=Demo.lib)
                (H0:=Sample.ragged_client) [Demo.item_A; Demo.item_B; Demo.item_C] None
                [[1; 0]; [1]]%Q eq_refl) as [_ Hragged].
    apply (Hragged 0 1 [1; 0]%Q [1]%Q); [reflexivity | reflexivity | simpl; lia].
Defined.

(** X8 at work: the demo client embeds every text. *)
Lemma clustering_succeeds_with_one_vector_per_text_witness :
  exists cs, cluster_items (H:=Demo.lib) (H0:=Demo.client)
               [Demo.item_A; Demo.item_B; Demo.item_C] None = Ok cs.
Proof.
  apply (clustering_succeeds_with_one_vector_per_text (H:=Demo.lib) (H0:=Demo.client)
           [Demo.item_A; Demo.item_B; Demo.item_C] None 2); [lia | exact demo_embeddings].
Defined.

(** X9 at work: the embedding service is down. *)
Lemma embedding_failure_propagates_witness :
  cluster_items (H:=Demo.lib) (H0:=Sample.no_embedding_client) [Demo.item_A] None
    = Raise (ClientError "down") /\
  cluster_items (H:=Demo.lib) (H0:=Sample.no_embedding_client) [] None = Ok [].
Proof.
  split.
  - apply (embedding_failure_propagates (H:=Demo.lib) (H0:=Sample.no_embedding_client)
             [Demo.item_A] None (ClientError "down")).
    intros batch. reflexivity.
  - apply (embedding_failure_propagates (H:=Demo.lib) (H0:=Sample.no_embedding_client)
             [] None (ClientError "down")).
    intros batch. reflexivity.
Defined.

(** X11 at work: the client times out; both classifiers answer "Other". *)
Lemma classifier_falls_back_on_failure_witness :
  _classify_single_item (H:=Demo.lib) (H0:=Demo.failing_client)
    (Demo.raw "1" "A one" None) "prompt" (Some Demo.cache) Demo.today Demo.empty_fs
  = ({| c_raw := Demo.raw "1" "A one" None; category := "Other";
        classification_confidence := 0; classification_method := "zero-shot" |},
     Demo.empty_fs).
Proof.
  apply (classifier_falls_back_on_failure (H:=Demo.lib) (H0:=Demo.failing_client)
           (Demo.raw "1" "A one" None) "prompt" (Some Demo.cache) Demo.today
           Demo.empty_fs (ClientError "timeout")); reflexivity.
Defined.

(** X13 at work: the answer holds dimensions that are no list. *)
Lemma scorer_defaults_for_missing_fields_witness :
  score_try (H:=Demo.lib) (H0:=Sample.bare_client) (Demo.classified "1" "A one" None)
    "prompt"
  = Ok {| s_base := Demo.classified "1" "A one" None; impact_score := 3;
          impact_reason := EmptyString; impact_dimensions := [] |}.
Proof.
  apply (scorer_defaults_for_missing_fields (H:=Demo.lib) (H0:=Sample.bare_client)
           (Demo.classified "1" "A one" None) "prompt"
           [ ("impact_dimensions", JStr "industry") ]).
  - reflexivity.
  - reflexivity.
  - reflexivity.
  - intros v Hv l. vm_compute in Hv. injection Hv as <-. discriminate.
Defined.

(** X14 at work: the first run classifies and saves; the second run, with
    a client that times out, still returns the item. *)
Lemma classified_item_is_served_from_cache_witness :
  fst (_classify_single_item (H:=Demo.lib) (H0:=Demo.client)
         (Demo.raw "1" "A one" None) "prompt" (Some Demo.cache) Demo.today Demo.empty_fs)
  = Sample.classified_1 /\
  _classify_single_item (H:=Demo.lib) (H0:=Demo.failing_client)
    (Demo.raw "1" "A one" None) "other prompt" (Some Demo.cache) Demo.today
    (snd (_classify_single_item (H:=Demo.lib) (H0:=Demo.client)
            (Demo.raw "1" "A one" None) "prompt" (Some Demo.cache) Demo.today
            Demo.empty_fs))
  = (Sample.classified_1,
     snd (_classify_single_item (H:=Demo.lib) (H0:=Demo.client)
            (Demo.raw "1" "A one" None) "prompt" (Some Demo.cache) Demo.today
            Demo.empty_fs)).
Proof.
  apply (classified_item_is_served_from_cache Demo.lib Demo.client Demo.failing_client
           (Demo.raw "1" "A one" None) "prompt" "other prompt" Demo.cache Demo.today
           Demo.empty_fs Sample.classified_1);
    [reflexivity | apply demo_reparses | reflexivity | reflexivity].
Defined.

(** X15 at work: the same for the scorer. *)
Lemma scored_item_is_served_from_cache_witness :
  fst (_score_single_item (H:=Demo.lib) (H0:=Demo.client)
         (Demo.classified "1" "A one" None) "prompt" (Some Demo.cache) Demo.today
         Demo.empty_fs)
  = Sample.scored_1 /\
  _score_single_item (H:=Demo.lib) (H0:=Demo.failing_client)
    (Demo.classified "1" "A one" None) "other prompt" (Some Demo.cache) Demo.today
    (snd (_score_single_item (H:=Demo.lib) (H0:=Demo.client)
            (Demo.classified "1" "A one" None) "prompt" (Some Demo.cache) Demo.today
            Demo.empty_fs))
  = (Sample.scored_1,
     snd (_score_single_item (H:=Demo.lib) (H0:=Demo.client)
            (Demo.classified "1" "A one" None) "prompt" (Some Demo.cache) Demo.today
            Demo.empty_fs)).
Proof.
  apply (scored_item_is_served_from_cache Demo.lib Demo.client Demo.failing_client
           (Demo.classified "1" "A one" None) "prompt" "other prompt" Demo.cache
           Demo.today Demo.empty_fs Sample.scored_1);
    [reflexivity | apply demo_reparses | reflexivity | reflexivity].
Defined.


(** X18 at work: with a cap of one, the second task holds the semaphore
    and the first one waits; the stage can still return. *)
Lemma stage_can_always_complete_witness :
  exists rest out,
    gather (score_start (H:=Demo.lib) None Demo.today)
           (score_finish (H:=Demo.lib) (H0:=Demo.client) None "impact_prompt" Demo.today)
           1 Demo.classified_items ([1; 0] ++ rest) Demo.empty_fs
    = Some out.
Proof.
  apply (stage_can_always_complete
           (score_start (H:=Demo.lib) None Demo.today)
           (score_finish (H:=Demo.lib) (H0:=Demo.client) None "impact_prompt" Demo.today)
           1 Demo.classified_items [1; 0] Demo.empty_fs).
  lia.
Defined.

(** X22 at work: the client times out while the cluster of A and C is
    summarized. *)
Lemma summarizer_falls_back_on_failure_witness :
  sc_title (_summarize_single_cluster (H:=Demo.lib) (H0:=Demo.failing_client)
              Demo.cluster_AC "summary_prompt") = "C one" /\
  sc_summary (_summarize_single_cluster (H:=Demo.lib) (H0:=Demo.failing_client)
                Demo.cluster_AC "summary_prompt")
    = "Error generating summary: timeout" /\
  sc_impact_reason (_summarize_single_cluster (H:=Demo.lib) (H0:=Demo.failing_client)
                      Demo.cluster_AC "summary_prompt") = "because".
Proof.
  apply (summarizer_falls_back_on_failure (H:=Demo.lib) (H0:=Demo.failing_client)
           Demo.cluster_AC "summary_prompt" (ClientError "timeout")).
  reflexivity.
Defined.

(** X24 at work: two saves into a directory that cannot be written. *)
Lemma failed_saves_change_nothing_witness :
  fold_left (run_op (H:=Demo.lib) Demo.cache)
            [ SaveClassified Sample.classified_1 Demo.today;
              SaveScored Sample.scored_1 Demo.today ]
            Sample.read_only_fs
  = Sample.read_only_fs.
Proof.
  apply (failed_saves_change_nothing (H:=Demo.lib) Demo.cache Sample.read_only_fs).
  reflexivity.
Defined.

(** X27 at work: two fetched items pass through the pipeline; the
    summaries list the ids "1" and "2". *)
Lemma pipeline_keeps_every_item_witness :
  concat (map raw_ids Sample.pipeline_summaries) ≡ₚ ["1"; "2"] /\
  length Sample.pipeline_summaries <= 2 /\
  Forall (fun s => sc_category s ∈ CATEGORIES /\ (1 <= sc_impact_score s <= 5)%Z)
         Sample.pipeline_summaries /\
  Sample.pipeline_markdown
  = generate_markdown_report (H:=Demo.lib) (H0:=Sample.strings)
      Sample.pipeline_summaries Demo.today.
Proof.
  apply (pipeline_keeps_every_item (H:=Demo.lib) (H0:=Sample.strings) (H1:=Demo.client)
           Demo.raw_items Demo.today 2 Demo.interleaved Demo.interleaved
           Demo.interleaved Demo.empty_fs Demo.empty_fs
           Sample.pipeline_summaries Sample.pipeline_markdown).
  vm_compute. reflexivity.
Defined.


(** X28 at work: C has taken over the cluster that A opened; the list
    still names A. *)
Lemma cluster_representatives_are_the_founders_witness :
  (Forall2 founder (clusters Demo.state_ABC) [Demo.item_A; Demo.item_B] /\
   [Demo.item_A; Demo.item_B] `sublist_of` [Demo.item_A; Demo.item_B; Demo.item_C]) /\
  map representative (clusters Demo.state_ABC) = [Demo.item_C; Demo.item_B].
Proof.
  split; [|reflexivity].
  apply (cluster_representatives_are_the_founders (H:=Demo.lib) Demo.threshold
           Demo.embeddings_ABC [Demo.item_A; Demo.item_B; Demo.item_C] Demo.state_ABC).
  reflexivity.
Defined.
